(** * BFT-MV-DID: the multi-view reconciliation simulator

    A shallow embedding of [src/simulations/bft_mv_did_protocol.py] and the
    properties its specification states about it.

    Conventions of the embedding.
    - Python [int] is [Z]. A finite Python [float] is the rational [Q] it
      denotes. Where a float is truncated to an [int] or decides a branch
      (the Byzantine count [int(n * f_ratio)] and the bound [n / 3] of the
      sweep) the operation rounds to binary64 as the interpreter does
      ([round64]); time stamps, sampled delays and the averages of the
      sweep and of the gas cost analysis are kept exact, and nothing is
      stated of them that rounding would not preserve; the averages of the
      latency analysis are the interpreter's float sums and quotients
      ([float_sum], [float_truediv]), whatever their rounding.
    - The module-level generators [random] and [time] are an explicit world
      that every effectful function threads ([Env], monad [M]); the theorems
      hold for every world whose [random.sample] and [random.randint] obey
      the contract documented for them ([EnvOK]).
    - A raised Python exception is the result [Raise e]; the state of an
      aborted call is dropped.
    - An object mutated in place (an [Agent] held in [self.agents]) is a
      value at a position of the list; the caller writes the mutated object
      back at that position.
    - [print] calls are omitted: they touch nothing the functions return.

    Besides the simulator, the file embeds the convergence summary of
    [src/run_experiments.py] and the recovery experiment of
    [src/simulations/bft_sh_did_experiments.py], with further properties
    read off the code of the three files. *)

From Stdlib Require Import ZArith QArith Qround String List Lia.
From Stdlib Require Import Permutation FinFun Lqa.
From Stdlib Require SpecFloat.
From stdpp Require Import base list strings pretty.
Import ListNotations.
Close Scope Q_scope.
Open Scope Z_scope.

(** ** Exceptions and the effect monad *)

Inductive exn : Type :=
| ValueError
| IndexError
| AttributeError
| TypeError
| ZeroDivisionError
| OverflowError.

Inductive result (A : Type) : Type :=
| Ok (a : A)
| Raise (e : exn).
Arguments Ok {A} a.
Arguments Raise {A} e.

(** The environment of the simulator: the state behind [random] and
    [time], and [hashlib.sha256(..).hexdigest()]. *)
Record Env : Type := {
  World : Type;
  time_time : World -> Q * World;
  random_randint : Z -> Z -> World -> Z * World;
  random_uniform : Q -> Q -> World -> Q * World;
  random_sample : list Z -> Z -> World -> result (list Z * World);
  sha256_hexdigest : string -> string
}.

(** What the Python documentation promises of [random.randint] and
    [random.sample], as far as the proofs below rely on it: [randint a b]
    lies in [a, b], and [sample pop k] with [0 <= k <= len pop] returns
    [k] elements taken at distinct positions of [pop] (outside that range
    Python raises [ValueError]; an environment is free there). *)
Record EnvOK (E : Env) : Prop := {
  randint_range : forall a b w, a <= b ->
    a <= fst (random_randint E a b w) <= b;
  sample_ok : forall pop k w, 0 <= k <= Z.of_nat (length pop) ->
    exists res w', random_sample E pop k w = Ok (res, w') /\
      Z.of_nat (length res) = k /\
      exists rest, Permutation (res ++ rest) pop
}.

Definition M (W A : Type) : Type := W -> result (A * W).

Definition ret {W A : Type} (a : A) : M W A := fun w => Ok (a, w).

Definition bind {W A B : Type} (c : M W A) (k : A -> M W B) : M W B :=
  fun w => match c w with
           | Ok (a, w') => k a w'
           | Raise e => Raise e
           end.

Definition raise {W A : Type} (e : exn) : M W A := fun _ => Raise e.

Definition lift {W A : Type} (f : W -> A * W) : M W A := fun w => Ok (f w).

Definition lift_result {W A : Type} (r : result A) : M W A :=
  fun w => match r with Ok a => Ok (a, w) | Raise e => Raise e end.

Declare Scope py_scope.
Delimit Scope py_scope with py.
Notation "x <- c ;; k" := (bind c (fun x => k))
  (at level 100, c at next level, right associativity) : py_scope.
Open Scope py_scope.

(** A [for] loop that threads an accumulator. *)
Fixpoint foldM {W A B : Type} (f : B -> A -> M W B) (l : list A) (b : B)
  : M W B :=
  match l with
  | [] => ret b
  | a :: l' => b' <- f b a ;; foldM f l' b'
  end.

(** ** Python built-ins used by the simulator *)

(** [range(n)] *)
Definition py_range (n : Z) : list Z := map Z.of_nat (seq 0 (Z.to_nat n)).

(** [l[i]]: negative indices count from the end, anything else out of
    range raises [IndexError]; the position read is returned too. *)
Definition py_getitem {A : Type} (l : list A) (i : Z) : result (nat * A) :=
  let n := Z.of_nat (length l) in
  let j := if i <? 0 then i + n else i in
  if (0 <=? j) && (j <? n) then
    match l !! Z.to_nat j with
    | Some a => Ok (Z.to_nat j, a)
    | None => Raise IndexError
    end
  else Raise IndexError.

(** [a / b] on two [int]s, the quotient kept exact. *)
Definition py_truediv (a b : Z) : result Q :=
  if b =? 0 then Raise ZeroDivisionError
  else Ok (inject_Z a / inject_Z b)%Q.

(** [int(x)] on a float: truncation towards zero. *)
Definition py_int (x : Q) : Z := Z.quot (Qnum x) (Zpos (Qden x)).

(** *** Binary64 rounding

    [round64 q] is the binary64 number nearest to [q], ties going to the
    even significand, or [None] when that rounding overflows to an
    infinity. With [2 ^ e0 <= |q| < 2 ^ (e0 + 1)] the significand is
    [|q| / 2 ^ e] rounded to an integer, where [e = e0 - 52], or
    [e = -1074] for a subnormal result; the largest finite number is
    [(2 ^ 53 - 1) * 2 ^ 971]. *)
Definition round64 (q : Q) : option Q :=
  let a := Z.abs (Qnum q) in
  let d := Zpos (Qden q) in
  if a =? 0 then Some 0%Q
  else
    let l := Z.log2 a - Z.log2 d in
    let e0 :=
      if (if 0 <=? l then d * 2 ^ l <=? a else d <=? a * 2 ^ (- l))
      then l else l - 1 in
    let e := Z.max (e0 - 52) (-1074) in
    let N := if 0 <=? e then a else a * 2 ^ (- e) in
    let D := if 0 <=? e then d * 2 ^ e else d in
    let m0 := N / D in
    let r := N mod D in
    let m :=
      if 2 * r <? D then m0
      else if D <? 2 * r then m0 + 1
      else if Z.even m0 then m0 else m0 + 1 in
    if (971 <? e) || ((e =? 971) && (2 ^ 53 <=? m)) then None
    else
      let s := Z.sgn (Qnum q) in
      Some (if 0 <=? e then inject_Z (s * m * 2 ^ e)
            else Qmake (s * m) (Z.to_pos (2 ^ (- e)))).

(** The conversion of an [int] operand of a float operation: an [int]
    too large for a float raises [OverflowError]. *)
Definition py_float (n : Z) : result Q :=
  match round64 (inject_Z n) with
  | Some x => Ok x
  | None => Raise OverflowError
  end.

(** [n * x] for an [int] [n] and a float [x]; [None] is an infinity,
    which a product that overflows returns without an exception. *)
Definition py_mul_int_float (n : Z) (x : Q) : result (option Q) :=
  match py_float n with
  | Ok a => Ok (round64 (a * x)%Q)
  | Raise e => Raise e
  end.

(** [int(x)] on a float that may be an infinity. *)
Definition py_int_float (x : option Q) : result Z :=
  match x with
  | Some q => Ok (py_int q)
  | None => Raise OverflowError
  end.

(** [a / b] on two [int]s, as a binary64 float: the exact quotient,
    correctly rounded; a quotient too large for a float raises
    [OverflowError]. *)
Definition py_truediv64 (a b : Z) : result Q :=
  if b =? 0 then Raise ZeroDivisionError
  else match round64 (inject_Z a / inject_Z b)%Q with
       | Some q => Ok q
       | None => Raise OverflowError
       end.

(** [sum(...)] over integers. *)
Definition py_sum (l : list Z) : Z := fold_left Z.add l 0.

(** ** Data model *)

Inductive AgentType : Type := HONEST | BYZANTINE.

Record DIDView : Type := {
  did : string;
  version : Z;
  doc_hash : string;
  timestamp : Q
}.

(** [DIDView.__eq__], on two views. *)
Definition __eq__ (self other : DIDView) : bool :=
  String.eqb (did self) (did other)
  && (version self =? version other)
  && String.eqb (doc_hash self) (doc_hash other).

(** [a != b] where [a] is an [Optional[DIDView]]: [None] is not a
    [DIDView], so [__eq__] answers [False] and [!=] is true. *)
Definition DIDView_ne (a : option DIDView) (b : DIDView) : bool :=
  match a with
  | Some v => negb (__eq__ v b)
  | None => true
  end.

Record Agent : Type := {
  agent_id : Z;
  agent_type : AgentType;
  local_view : option DIDView;
  peers : list Z;
  messages_sent : Z;
  messages_received : Z;
  ledger_queries : Z
}.

(** [Agent(agent_id=i, agent_type=t)] *)
Definition new_Agent (i : Z) (t : AgentType) : Agent :=
  {| agent_id := i; agent_type := t; local_view := None; peers := [];
     messages_sent := 0; messages_received := 0; ledger_queries := 0 |}.

Definition is_byzantine (self : Agent) : bool :=
  match agent_type self with BYZANTINE => true | HONEST => false end.

Definition set_local_view (a : Agent) (v : option DIDView) : Agent :=
  {| agent_id := agent_id a; agent_type := agent_type a; local_view := v;
     peers := peers a; messages_sent := messages_sent a;
     messages_received := messages_received a;
     ledger_queries := ledger_queries a |}.

Definition set_peers (a : Agent) (ps : list Z) : Agent :=
  {| agent_id := agent_id a; agent_type := agent_type a;
     local_view := local_view a; peers := ps;
     messages_sent := messages_sent a;
     messages_received := messages_received a;
     ledger_queries := ledger_queries a |}.

Definition set_messages_sent (a : Agent) (n : Z) : Agent :=
  {| agent_id := agent_id a; agent_type := agent_type a;
     local_view := local_view a; peers := peers a; messages_sent := n;
     messages_received := messages_received a;
     ledger_queries := ledger_queries a |}.

Definition set_messages_received (a : Agent) (n : Z) : Agent :=
  {| agent_id := agent_id a; agent_type := agent_type a;
     local_view := local_view a; peers := peers a;
     messages_sent := messages_sent a; messages_received := n;
     ledger_queries := ledger_queries a |}.

Definition set_ledger_queries (a : Agent) (n : Z) : Agent :=
  {| agent_id := agent_id a; agent_type := agent_type a;
     local_view := local_view a; peers := peers a;
     messages_sent := messages_sent a;
     messages_received := messages_received a; ledger_queries := n |}.

(** The [operations] payload of a message is a list of dictionaries; the
    protocol never fills it. *)
Definition Dict : Type := list (string * string).

Record Message : Type := {
  sender : Z;
  receiver : Z;
  msg_type : string;
  view : option DIDView;
  operations : list Dict;
  msg_round_num : Z
}.

Record BFTMVDIDNetwork : Type := {
  n_agents : Z;
  f_byzantine : Z;
  fanout : Z;
  net_did : string;
  agents : list Agent;
  ledger_view : DIDView;
  round_num : Z;
  total_messages : Z;
  total_ledger_queries : Z;
  convergence_round : option Z
}.

Definition set_agents (self : BFTMVDIDNetwork) (l : list Agent)
  : BFTMVDIDNetwork :=
  {| n_agents := n_agents self; f_byzantine := f_byzantine self;
     fanout := fanout self; net_did := net_did self; agents := l;
     ledger_view := ledger_view self; round_num := round_num self;
     total_messages := total_messages self;
     total_ledger_queries := total_ledger_queries self;
     convergence_round := convergence_round self |}.

Definition set_round_num (self : BFTMVDIDNetwork) (r : Z)
  : BFTMVDIDNetwork :=
  {| n_agents := n_agents self; f_byzantine := f_byzantine self;
     fanout := fanout self; net_did := net_did self; agents := agents self;
     ledger_view := ledger_view self; round_num := r;
     total_messages := total_messages self;
     total_ledger_queries := total_ledger_queries self;
     convergence_round := convergence_round self |}.

Definition set_total_messages (self : BFTMVDIDNetwork) (t : Z)
  : BFTMVDIDNetwork :=
  {| n_agents := n_agents self; f_byzantine := f_byzantine self;
     fanout := fanout self; net_did := net_did self; agents := agents self;
     ledger_view := ledger_view self; round_num := round_num self;
     total_messages := t;
     total_ledger_queries := total_ledger_queries self;
     convergence_round := convergence_round self |}.

Definition set_total_ledger_queries (self : BFTMVDIDNetwork) (t : Z)
  : BFTMVDIDNetwork :=
  {| n_agents := n_agents self; f_byzantine := f_byzantine self;
     fanout := fanout self; net_did := net_did self; agents := agents self;
     ledger_view := ledger_view self; round_num := round_num self;
     total_messages := total_messages self; total_ledger_queries := t;
     convergence_round := convergence_round self |}.

Definition set_convergence_round (self : BFTMVDIDNetwork) (c : option Z)
  : BFTMVDIDNetwork :=
  {| n_agents := n_agents self; f_byzantine := f_byzantine self;
     fanout := fanout self; net_did := net_did self; agents := agents self;
     ledger_view := ledger_view self; round_num := round_num self;
     total_messages := total_messages self;
     total_ledger_queries := total_ledger_queries self;
     convergence_round := c |}.

(** The statistics dictionary of [get_statistics]; the key ['trial'] is
    added by the experiment driver. *)
Record Stats : Type := {
  st_n_agents : Z;
  st_f_byzantine : Z;
  st_fanout : Z;
  st_rounds : Z;
  st_converged : bool;
  st_convergence_round : option Z;
  st_total_messages : Z;
  st_total_ledger_queries : Z;
  st_avg_messages_per_agent : Q;
  st_avg_ledger_queries_per_agent : Q;
  st_honest_agents : Z;
  st_byzantine_agents : Z;
  st_trial : option Z
}.

Definition set_trial (s : Stats) (t : Z) : Stats :=
  {| st_n_agents := st_n_agents s; st_f_byzantine := st_f_byzantine s;
     st_fanout := st_fanout s; st_rounds := st_rounds s;
     st_converged := st_converged s;
     st_convergence_round := st_convergence_round s;
     st_total_messages := st_total_messages s;
     st_total_ledger_queries := st_total_ledger_queries s;
     st_avg_messages_per_agent := st_avg_messages_per_agent s;
     st_avg_ledger_queries_per_agent := st_avg_ledger_queries_per_agent s;
     st_honest_agents := st_honest_agents s;
     st_byzantine_agents := st_byzantine_agents s;
     st_trial := Some t |}.

(** One entry of the list [run_experiment] returns. *)
Record ConfigResult : Type := {
  res_n : Z;
  res_f : Z;
  res_f_ratio : Q;
  res_fanout : Z;
  res_trials : Z;
  res_convergence_rate : Q;
  res_avg_convergence_round : option Q;
  res_avg_total_messages : Q;
  res_avg_ledger_queries : Q;
  res_trial_results : list Stats
}.

(** ** The reconciliation network *)

Section Network.

Context (E : Env).

Local Abbreviation W := (World E).

Definition now : M W Q := lift (time_time E).
Definition randint (a b : Z) : M W Z := lift (random_randint E a b).
Definition uniform (a b : Q) : M W Q := lift (random_uniform E a b).
Definition sample (pop : list Z) (k : Z) : M W (list Z) :=
  random_sample E pop k.

(** [None.attr] raises [AttributeError]. *)
Definition attr_of (o : option DIDView) : M W DIDView :=
  match o with
  | Some v => ret v
  | None => raise AttributeError
  end.

(** [_compute_hash]: [hashlib.sha256(data.encode()).hexdigest()[:16]] *)
Definition _compute_hash (data : string) : string :=
  substring 0 16 (sha256_hexdigest E data).

(** One iteration of the loop of [_initialize_views]. *)
Definition initial_view (did0 : string) (agent : Agent) : M W Agent :=
  if is_byzantine agent then
    v <- randint 5 15 ;;
    t <- now ;;
    ret (set_local_view agent (Some
      {| did := did0; version := v;
         doc_hash := _compute_hash ("fake_doc_" +:+ pretty (agent_id agent));
         timestamp := t |}))
  else
    stale_version <- randint 5 9 ;;
    t <- now ;;
    u <- uniform (inject_Z 10) (inject_Z 100) ;;
    ret (set_local_view agent (Some
      {| did := did0; version := stale_version;
         doc_hash := _compute_hash ("ledger_doc_v" +:+ pretty stale_version);
         timestamp := (t - u)%Q |})).

Definition _initialize_views (did0 : string) (l : list Agent)
  : M W (list Agent) :=
  foldM (fun done agent =>
           agent' <- initial_view did0 agent ;; ret (done ++ [agent']))
        l [].

(** [BFTMVDIDNetwork.__init__] *)
Definition __init__ (n f fanout0 : Z) (did0 : string) : M W BFTMVDIDNetwork :=
  byzantine_ids <- sample (py_range n) f ;;
  let agents0 :=
    map (fun i => new_Agent i
                    (if existsb (Z.eqb i) byzantine_ids
                     then BYZANTINE else HONEST))
        (py_range n) in
  t <- now ;;
  let ledger :=
    {| did := did0; version := 10;
       doc_hash := _compute_hash "ledger_doc_v10"; timestamp := t |} in
  agents1 <- _initialize_views did0 agents0 ;;
  ret {| n_agents := n; f_byzantine := f; fanout := Z.min fanout0 (n - 1);
         net_did := did0; agents := agents1; ledger_view := ledger;
         round_num := 0; total_messages := 0; total_ledger_queries := 0;
         convergence_round := None |}.

Definition _select_peers (self : BFTMVDIDNetwork) (id : Z) : M W (list Z) :=
  let all_others :=
    List.filter (fun i => negb (i =? id)) (py_range (n_agents self)) in
  sample all_others (Z.min (fanout self) (Z.of_nat (length all_others))).

Definition _honest_agent_summary (self : BFTMVDIDNetwork) (agent : Agent)
  : Message :=
  {| sender := agent_id agent; receiver := -1; msg_type := "SUMMARY";
     view := local_view agent; operations := [];
     msg_round_num := round_num self |}.

Definition _byzantine_agent_summary (self : BFTMVDIDNetwork) (agent : Agent)
  : M W Message :=
  v <- randint 8 20 ;;
  r <- randint 0 100 ;;
  t <- now ;;
  let fake_view :=
    {| did := net_did self; version := v;
       doc_hash := _compute_hash ("byzantine_" +:+ pretty r);
       timestamp := t |} in
  ret {| sender := agent_id agent; receiver := -1; msg_type := "SUMMARY";
         view := Some fake_view; operations := [];
         msg_round_num := round_num self |}.

(** The ledger's view as a fresh object stamped [t]. *)
Definition ledger_copy (self : BFTMVDIDNetwork) (t : Q) : DIDView :=
  {| did := did (ledger_view self); version := version (ledger_view self);
     doc_hash := doc_hash (ledger_view self); timestamp := t |}.

(** The two escalation branches of [_handle_summary] have the same body. *)
Definition query_ledger (self : BFTMVDIDNetwork) (receiver0 : Agent)
  : M W (Agent * BFTMVDIDNetwork) :=
  let receiver1 :=
    set_ledger_queries receiver0 (ledger_queries receiver0 + 1) in
  let self1 :=
    set_total_ledger_queries self (total_ledger_queries self + 1) in
  t <- now ;;
  ret (set_local_view receiver1 (Some (ledger_copy self1 t)), self1).

(** [_handle_summary]: returns the receiver and the network as the call
    leaves them. *)
Definition _handle_summary (self : BFTMVDIDNetwork) (receiver0 : Agent)
    (summary : Message) : M W (Agent * BFTMVDIDNetwork) :=
  let receiver1 :=
    set_messages_received receiver0 (messages_received receiver0 + 1) in
  if is_byzantine receiver1 then ret (receiver1, self)
  else
    let sender_view := view summary in
    sv <- attr_of sender_view ;;
    lv <- attr_of (local_view receiver1) ;;
    if version sv >? version lv then query_ledger self receiver1
    else if version sv =? version lv then
      if negb (String.eqb (doc_hash sv) (doc_hash lv))
      then query_ledger self receiver1
      else ret (receiver1, self)
    else ret (receiver1, self).

(** The [msg_copy] built for one peer. *)
Definition msg_copy (msg : Message) (peer_id : Z) : Message :=
  {| sender := sender msg; receiver := peer_id; msg_type := msg_type msg;
     view := view msg; operations := [];
     msg_round_num := msg_round_num msg |}.

(** The inner loop of phase 1: one copy of [msg] per selected peer. *)
Definition send_to_peers (msg : Message) (peers0 : list Z)
    (st : list Message * Agent * Z) : list Message * Agent * Z :=
  fold_left
    (fun '(round_messages, agent, total) peer_id =>
       (round_messages ++ [msg_copy msg peer_id],
        set_messages_sent agent (messages_sent agent + 1),
        total + 1))
    peers0 st.

(** The body of the phase 1 loop for the agent at position [i]. *)
Definition emit (i : nat) (agent : Agent)
    (st : BFTMVDIDNetwork * list Message)
  : M W (BFTMVDIDNetwork * list Message) :=
  let '(self, round_messages) := st in
  peers0 <- _select_peers self (agent_id agent) ;;
  let agent1 := set_peers agent peers0 in
  msg <- (if is_byzantine agent1 then _byzantine_agent_summary self agent1
          else ret (_honest_agent_summary self agent1)) ;;
  let '(round_messages', agent2, total) :=
    send_to_peers msg peers0 (round_messages, agent1, total_messages self) in
  ret (set_total_messages (set_agents self (<[i := agent2]> (agents self)))
         total,
       round_messages').

(** Phase 1 from position [i] on: [rest] are the agents not yet visited. *)
Fixpoint phase1_from (i : nat) (rest : list Agent)
    (st : BFTMVDIDNetwork * list Message)
  : M W (BFTMVDIDNetwork * list Message) :=
  match rest with
  | [] => ret st
  | agent :: rest' => st' <- emit i agent st ;; phase1_from (S i) rest' st'
  end.

Definition phase1 (self : BFTMVDIDNetwork)
  : M W (BFTMVDIDNetwork * list Message) :=
  phase1_from 0 (agents self) (self, []).

(** The body of the phase 2 loop. *)
Definition deliver (self : BFTMVDIDNetwork) (msg : Message)
  : M W BFTMVDIDNetwork :=
  ir <- lift_result (py_getitem (agents self) (receiver msg)) ;;
  let '(i, receiver0) := ir in
  rs <- _handle_summary self receiver0 msg ;;
  let '(receiver1, self1) := rs in
  ret (set_agents self1 (<[i := receiver1]> (agents self1))).

Definition phase2 (self : BFTMVDIDNetwork) (round_messages : list Message)
  : M W BFTMVDIDNetwork :=
  foldM deliver round_messages self.

(** [check_convergence]: the flag returned and the network after it. *)
Definition check_convergence (self : BFTMVDIDNetwork)
  : bool * BFTMVDIDNetwork :=
  let honest_agents :=
    List.filter (fun a => negb (is_byzantine a)) (agents self) in
  if existsb (fun agent => DIDView_ne (local_view agent) (ledger_view self))
             honest_agents
  then (false, self)
  else (true,
        match convergence_round self with
        | None => set_convergence_round self (Some (round_num self))
        | Some _ => self
        end).

(** [run_round] *)
Definition run_round (self : BFTMVDIDNetwork) : M W (bool * BFTMVDIDNetwork) :=
  let self1 := set_round_num self (round_num self + 1) in
  st <- phase1 self1 ;;
  let '(self2, round_messages) := st in
  self3 <- phase2 self2 round_messages ;;
  ret (check_convergence self3).

(** [get_statistics] *)
Definition get_statistics (self : BFTMVDIDNetwork) : result Stats :=
  let honest_agents :=
    List.filter (fun a => negb (is_byzantine a)) (agents self) in
  match py_truediv (total_messages self) (n_agents self),
        py_truediv (total_ledger_queries self) (n_agents self) with
  | Ok avg_m, Ok avg_q =>
      Ok {| st_n_agents := n_agents self;
            st_f_byzantine := f_byzantine self;
            st_fanout := fanout self;
            st_rounds := round_num self;
            st_converged :=
              match convergence_round self with
              | Some _ => true
              | None => false
              end;
            st_convergence_round := convergence_round self;
            st_total_messages := total_messages self;
            st_total_ledger_queries := total_ledger_queries self;
            st_avg_messages_per_agent := avg_m;
            st_avg_ledger_queries_per_agent := avg_q;
            st_honest_agents := Z.of_nat (length honest_agents);
            st_byzantine_agents := f_byzantine self;
            st_trial := None |}
  | Raise e, _ => Raise e
  | _, Raise e => Raise e
  end.

(** The loop of [run_until_convergence]: at most [budget] rounds, left at
    the first round that reports convergence. *)
Fixpoint rounds_until (budget : nat) (self : BFTMVDIDNetwork)
  : M W BFTMVDIDNetwork :=
  match budget with
  | O => ret self
  | S budget' =>
      r <- run_round self ;;
      let '(converged, self') := r in
      if converged then ret self' else rounds_until budget' self'
  end.

(** [run_until_convergence]: the statistics, and the network as the call
    leaves it. *)
Definition run_until_convergence (self : BFTMVDIDNetwork) (max_rounds : Z)
  : M W (Stats * BFTMVDIDNetwork) :=
  self' <- rounds_until (Z.to_nat max_rounds) self ;;
  stats <- lift_result (get_statistics self') ;;
  ret (stats, self').

(** ** The experiment driver *)

(** [sum(r['convergence_round'] for r in trial_results if r['converged'])];
    adding [None] to an [int] raises [TypeError]. *)
Definition sum_convergence_rounds (trial_results : list Stats) : result Z :=
  fold_left
    (fun acc r =>
       match acc, st_convergence_round r with
       | Ok s, Some c => Ok (s + c)
       | Ok _, None => Raise TypeError
       | Raise e, _ => Raise e
       end)
    (List.filter (fun r => st_converged r) trial_results) (Ok 0).

(** The aggregation of one configuration: the statements of
    [run_experiment] between the trial loop and [results.append]. *)
Definition aggregate (n f : Z) (f_ratio : Q) (fanout0 trials : Z)
    (trial_results : list Stats) : result ConfigResult :=
  match sum_convergence_rounds trial_results with
  | Raise e => Raise e
  | Ok total_rounds =>
  match py_truediv total_rounds
          (Z.of_nat (length (List.filter (fun r => st_converged r)
                                         trial_results)))
  with
  | Raise e => Raise e
  | Ok avg_convergence =>
  match py_truediv
          (py_sum (map (fun r => if st_converged r then 1 else 0)
                       trial_results))
          trials with
  | Raise e => Raise e
  | Ok rate =>
  match py_truediv (py_sum (map st_total_messages trial_results)) trials with
  | Raise e => Raise e
  | Ok avg_messages =>
  match py_truediv (py_sum (map st_total_ledger_queries trial_results)) trials
  with
  | Raise e => Raise e
  | Ok avg_queries =>
      Ok {| res_n := n; res_f := f; res_f_ratio := f_ratio;
            res_fanout := fanout0; res_trials := trials;
            res_convergence_rate := rate;
            res_avg_convergence_round :=
              if Qeq_bool avg_convergence avg_convergence
              then Some avg_convergence else None;
            res_avg_total_messages := avg_messages;
            res_avg_ledger_queries := avg_queries;
            res_trial_results := trial_results |}
  end end end end end.

(** The body of the trial loop. *)
Definition run_trial (n f fanout0 : Z) (trial_results : list Stats)
    (trial : Z) : M W (list Stats) :=
  network <- __init__ n f fanout0 "did:example:123" ;;
  sn <- run_until_convergence network 50 ;;
  let stats := set_trial (fst sn) trial in
  ret (trial_results ++ [stats]).

(** [int(n * f_ratio)] *)
Definition byzantine_count (n : Z) (f_ratio : Q) : result Z :=
  match py_mul_int_float n f_ratio with
  | Ok product => py_int_float product
  | Raise e => Raise e
  end.

(** The body of the inner loop of [run_experiment], for one pair
    ([n], [f_ratio]). The comparison [f >= n / 3] of an [int] with a
    float is exact. *)
Definition run_config (fanout0 trials : Z) (n : Z)
    (results : list ConfigResult) (f_ratio : Q)
  : M W (list ConfigResult) :=
  f <- lift_result (byzantine_count n f_ratio) ;;
  bound <- lift_result (py_truediv64 n 3) ;;
  if Qle_bool bound (inject_Z f) then ret results
  else
    trial_results <- foldM (run_trial n f fanout0) (py_range trials) [] ;;
    result <- lift_result
                (aggregate n f f_ratio fanout0 trials trial_results) ;;
    ret (results ++ [result]).

(** [run_experiment] *)
Definition run_experiment (n_values : list Z) (f_ratios : list Q)
    (fanout0 trials : Z) : M W (list ConfigResult) :=
  foldM (fun results n => foldM (run_config fanout0 trials n) f_ratios results)
        n_values [].

(** ** Sessions *)

(** A caller that keeps a session going: [r] successive calls of
    [run_round], with the flags they returned in call order. *)
Fixpoint run_rounds (r : nat) (self : BFTMVDIDNetwork)
  : M W (list bool * BFTMVDIDNetwork) :=
  match r with
  | O => ret ([], self)
  | S r' =>
      c <- run_round self ;;
      rest <- run_rounds r' (snd c) ;;
      ret (fst c :: fst rest, snd rest)
  end.

End Network.

(** ** A concrete environment

    A world that replays a tape of integers, with a clock that advances by
    one at every reading. [randint a b] maps the next tape cell into
    [a, b]; [sample pop k] rotates [pop] by the next tape cell and takes
    the first [k] elements; the digest is the identity, which has no
    collisions. It is one environment among those [EnvOK] admits and
    serves to run the simulator on concrete inputs. *)

Record TapeWorld : Type := { tape : list Z; clock : Q }.

Definition next_cell (w : TapeWorld) : Z * TapeWorld :=
  match tape w with
  | [] => (0, w)
  | t :: tl => (t, {| tape := tl; clock := clock w |})
  end.

Definition tape_time (w : TapeWorld) : Q * TapeWorld :=
  (clock w, {| tape := tape w; clock := (clock w + 1)%Q |}).

Definition tape_randint (a b : Z) (w : TapeWorld) : Z * TapeWorld :=
  let '(t, w') := next_cell w in (a + t mod (b - a + 1), w').

Definition tape_uniform (a b : Q) (w : TapeWorld) : Q * TapeWorld :=
  let '(t, w') := next_cell w in
  ((a + (b - a) * (inject_Z (t mod 100) / inject_Z 100))%Q, w').

Definition rotate (i : nat) (l : list Z) : list Z := skipn i l ++ firstn i l.

Definition tape_sample (pop : list Z) (k : Z) (w : TapeWorld)
  : result (list Z * TapeWorld) :=
  if (0 <=? k) && (k <=? Z.of_nat (length pop)) then
    let '(t, w') := next_cell w in
    Ok (firstn (Z.to_nat k)
               (rotate (Z.to_nat (t mod Z.of_nat (length pop))) pop),
        w')
  else Raise ValueError.

Definition TapeEnv : Env :=
  {| World := TapeWorld;
     time_time := tape_time;
     random_randint := tape_randint;
     random_uniform := tape_uniform;
     random_sample := tape_sample;
     sha256_hexdigest := fun data => data |}.

(** ** Emission as the specification words it

    The specification has a Byzantine agent fabricate a view for every
    message it emits. The two definitions below follow those words: the
    inner loop of phase 1 with [_byzantine_agent_summary] called once per
    peer, and the loop body built on it. They are compared with
    [send_to_peers] and [emit], which follow the source. *)

Section FreshPerMessage.

Context (E : Env).

Definition send_fresh_to_peers (self : BFTMVDIDNetwork) (peers0 : list Z)
    (st : list Message * Agent * Z)
  : M (World E) (list Message * Agent * Z) :=
  foldM
    (fun '(round_messages, agent, total) peer_id =>
       msg <- (if is_byzantine agent
               then _byzantine_agent_summary E self agent
               else ret (_honest_agent_summary self agent)) ;;
       ret (round_messages ++ [msg_copy msg peer_id],
            set_messages_sent agent (messages_sent agent + 1),
            total + 1))
    peers0 st.

Definition emit_fresh_per_message (i : nat) (agent : Agent)
    (st : BFTMVDIDNetwork * list Message)
  : M (World E) (BFTMVDIDNetwork * list Message) :=
  let '(self, round_messages) := st in
  peers0 <- _select_peers E self (agent_id agent) ;;
  let agent1 := set_peers agent peers0 in
  r <- send_fresh_to_peers self peers0
         (round_messages, agent1, total_messages self) ;;
  let '(round_messages', agent2, total) := r in
  ret (set_total_messages (set_agents self (<[i := agent2]> (agents self)))
         total,
       round_messages').

End FreshPerMessage.

(** ** Concrete inputs *)

Definition tape0 : TapeWorld :=
  {| tape := [1; 0; 3; 7; 2; 9; 4; 11; 5; 8; 6; 13; 1; 2; 3; 4; 5; 6; 7; 8;
              9; 10; 11; 12; 13; 14; 15; 16; 17; 18; 19; 20];
     clock := inject_Z 1000 |}.

Definition empty_network : BFTMVDIDNetwork :=
  {| n_agents := 0; f_byzantine := 0; fanout := -1; net_did := "";
     agents := [];
     ledger_view := {| did := ""; version := 10; doc_hash := "";
                       timestamp := 0 |};
     round_num := 0; total_messages := 0; total_ledger_queries := 0;
     convergence_round := None |}.

(** The network [BFTMVDIDNetwork(3, 1, 2)] built on [tape0], and the
    world the constructor leaves. *)
Definition net3_run : BFTMVDIDNetwork * TapeWorld :=
  Eval vm_compute in
    match __init__ TapeEnv 3 1 2 "did:example:123" tape0 with
    | Ok r => r
    | Raise _ => (empty_network, tape0)
    end.

Definition net3 : BFTMVDIDNetwork := fst net3_run.
Definition tape3 : TapeWorld := snd net3_run.

(** The views carried by the messages an emission produced. *)
Definition views_emitted {W : Type}
    (r : result (BFTMVDIDNetwork * list Message * W))
  : list (option DIDView) :=
  match r with
  | Ok (_, round_messages, _) => map view round_messages
  | Raise _ => []
  end.

(** The Byzantine agent of [net3]. *)
Definition byz1 : Agent := nth 1 (agents net3) (new_Agent 1 BYZANTINE).

(** The first honest agent of [net3] and its view. *)
Definition honest0 : Agent := nth 0 (agents net3) (new_Agent 0 HONEST).

Definition stale5 : DIDView :=
  Eval vm_compute in
    match local_view honest0 with
    | Some v => v
    | None => ledger_view empty_network
    end.

(** A Summary from the Byzantine agent to agent 0 that reports version
    19. *)
Definition lie19 : DIDView :=
  {| did := "did:example:123"; version := 19; doc_hash := "byzantine_5";
     timestamp := inject_Z 1004 |}.

Definition summary19 : Message :=
  {| sender := 1; receiver := 0; msg_type := "SUMMARY"; view := Some lie19;
     operations := []; msg_round_num := 1 |}.

(** [net3] after its first round, which converges, and the world then. *)
Definition net3_converged_run : BFTMVDIDNetwork * TapeWorld :=
  Eval vm_compute in
    match run_round TapeEnv net3 tape3 with
    | Ok (_, self, w) => (self, w)
    | Raise _ => (empty_network, tape0)
    end.

Definition net3_converged : BFTMVDIDNetwork := fst net3_converged_run.
Definition tape3_converged : TapeWorld := snd net3_converged_run.

(** ** Vocabulary of the specification *)

(** Two agents that differ at most in what phase 1 writes: the peer set
    and the sent counter. *)
Definition same_core (a a' : Agent) : Prop :=
  agent_id a' = agent_id a /\ agent_type a' = agent_type a /\
  local_view a' = local_view a /\
  messages_received a' = messages_received a /\
  ledger_queries a' = ledger_queries a.

(** Two networks that differ at most in their agents and message total. *)
Definition same_params (s s' : BFTMVDIDNetwork) : Prop :=
  n_agents s' = n_agents s /\ f_byzantine s' = f_byzantine s /\
  fanout s' = fanout s /\ net_did s' = net_did s /\
  ledger_view s' = ledger_view s /\ round_num s' = round_num s /\
  total_ledger_queries s' = total_ledger_queries s /\
  convergence_round s' = convergence_round s.

(** What a round may do to an agent: identity and role stay, and the
    local view stays or, for an honest agent, becomes a stamped copy of
    the ledger's view. *)
Definition adopts (ledger : DIDView) (a a' : Agent) : Prop :=
  agent_id a' = agent_id a /\ agent_type a' = agent_type a /\
  (local_view a' = local_view a \/
   exists t, is_byzantine a = false /\
     local_view a' =
       Some {| did := did ledger; version := version ledger;
               doc_hash := doc_hash ledger; timestamp := t |}).

(** The fields of a session that no round writes. *)
Definition round_frame (s s' : BFTMVDIDNetwork) : Prop :=
  n_agents s' = n_agents s /\ f_byzantine s' = f_byzantine s /\
  fanout s' = fanout s /\ net_did s' = net_did s /\
  ledger_view s' = ledger_view s.

(** The network just before the convergence check of a round, against the
    network the round started from. *)
Definition round_rel (s s' : BFTMVDIDNetwork) : Prop :=
  round_frame s s' /\ round_num s' = round_num s + 1 /\
  convergence_round s' = convergence_round s /\
  Forall2 (adopts (ledger_view s)) (agents s) (agents s').

(** The network during phase 2, against the network phase 2 started
    from. *)
Definition phase2_inv (self s : BFTMVDIDNetwork) : Prop :=
  round_frame self s /\ round_num s = round_num self /\
  convergence_round s = convergence_round self /\
  total_messages s = total_messages self /\
  Forall2 (adopts (ledger_view self)) (agents self) (agents s).

(** Every honest agent holds a view equal to the ledger's: what
    [check_convergence] tests. *)
Definition honest_at_ledger (self : BFTMVDIDNetwork) : Prop :=
  Forall (fun a => is_byzantine a = false ->
                   exists v, local_view a = Some v /\
                             __eq__ v (ledger_view self) = true)
         (agents self).

(** The shape of a network that its constructor establishes and every
    round keeps: one agent per identity, a fanout the population can
    serve, and a view at every agent. *)
Record well_formed (self : BFTMVDIDNetwork) : Prop := {
  wf_length : length (agents self) = Z.to_nat (n_agents self);
  wf_fanout : n_agents self <= 0 \/ 0 <= fanout self;
  wf_fanout_cap : fanout self <= n_agents self - 1;
  wf_views : Forall (fun a => local_view a <> None) (agents self)
}.

(** The sum of the agents' sent counters. *)
Definition sum_sent (l : list Agent) : Z := py_sum (map messages_sent l).

(** The sent counter of an agent has grown by [d]. *)
Definition sent_plus (d : Z) (a a' : Agent) : Prop :=
  messages_sent a' = messages_sent a + d.

(** What [_initialize_views] does to one agent: it gives it a view of
    the subject, of a stale version if the agent is honest. *)
Definition initialized (E : Env) (did0 : string) (a a' : Agent) : Prop :=
  exists v, a' = set_local_view a (Some v) /\ did v = did0 /\
            (EnvOK E -> is_byzantine a = false -> 5 <= version v <= 9).

(** The invariant that ties the convergence round to the agents: once it
    is set, every honest agent holds the ledger's view. *)
Definition conv_inv (self : BFTMVDIDNetwork) : Prop :=
  convergence_round self <> None -> honest_at_ledger self.

(** A session that can make no progress: a single agent, honest and
    stale, with nobody to talk to, and no convergence round yet. *)
Definition stuck (self : BFTMVDIDNetwork) : Prop :=
  well_formed self /\ n_agents self = 1 /\ fanout self = 0 /\
  convergence_round self = None /\ ~ honest_at_ledger self.

(** Equality up to time stamps, lifted from views ([DIDView.__eq__]
    itself) to optional views, agents, messages and networks: everything
    else must coincide. *)
Definition oview_sim (o o' : option DIDView) : Prop :=
  match o, o' with
  | Some a, Some b => __eq__ a b = true
  | None, None => True
  | _, _ => False
  end.

Definition agent_sim (a a' : Agent) : Prop :=
  agent_id a = agent_id a' /\ agent_type a = agent_type a' /\
  oview_sim (local_view a) (local_view a') /\ peers a = peers a' /\
  messages_sent a = messages_sent a' /\
  messages_received a = messages_received a' /\
  ledger_queries a = ledger_queries a'.

Definition msg_sim (m m' : Message) : Prop :=
  sender m = sender m' /\ receiver m = receiver m' /\
  msg_type m = msg_type m' /\ oview_sim (view m) (view m') /\
  operations m = operations m' /\ msg_round_num m = msg_round_num m'.

Definition net_sim (s s' : BFTMVDIDNetwork) : Prop :=
  n_agents s = n_agents s' /\ f_byzantine s = f_byzantine s' /\
  fanout s = fanout s' /\ net_did s = net_did s' /\
  Forall2 agent_sim (agents s) (agents s') /\
  __eq__ (ledger_view s) (ledger_view s') = true /\
  round_num s = round_num s' /\ total_messages s = total_messages s' /\
  total_ledger_queries s = total_ledger_queries s' /\
  convergence_round s = convergence_round s'.

(** The same view with another time stamp. *)
Definition restamp (v : DIDView) (t : Q) : DIDView :=
  {| did := did v; version := version v; doc_hash := doc_hash v;
     timestamp := t |}.

(** ** Further parts of the program *)

(** [DIDView.__hash__]: the hash of the tuple of the three fields that
    [__eq__] compares; [py_hash] stands for Python's [hash] on such
    tuples. *)
Definition __hash__ (py_hash : string * Z * string -> Z) (self : DIDView)
  : Z :=
  py_hash (did self, version self, doc_hash self).

(** What [random.sample] does outside the range [EnvOK] speaks of: asked
    for a negative number of elements, or for more than the population
    holds, it raises [ValueError]. *)
Record EnvStrict (E : Env) : Prop := {
  sample_err : forall pop k w, ~ (0 <= k <= Z.of_nat (length pop)) ->
    random_sample E pop k w = Raise ValueError
}.

(** ** The convergence summary of the experiment runner

    The loop of [run_all_experiments] that prints one line for every
    record of the sweep with a positive convergence rate. A line is kept
    as the values it formats: [n], [f], the ratio and the rate in per
    cent, and the average convergence round; formatting [None] with
    [.1f] raises [TypeError]. *)
Fixpoint convergence_summary (convergence_results : list ConfigResult)
  : result (list (Z * Z * Q * Q * Q)) :=
  match convergence_results with
  | [] => Ok []
  | r :: rest =>
      if negb (Qle_bool (res_convergence_rate r) 0) then
        match res_avg_convergence_round r with
        | None => Raise TypeError
        | Some avg =>
            match convergence_summary rest with
            | Ok lines =>
                Ok ((res_n r, res_f r, (res_f_ratio r * 100)%Q, avg,
                     (res_convergence_rate r * 100)%Q) :: lines)
            | Raise e => Raise e
            end
        end
      else convergence_summary rest
  end.

(** ** Further concrete inputs *)

(** A tape that has run out: every cell reads 0. *)
Definition blank_tape : TapeWorld := {| tape := []; clock := 0 |}.

(** The network [BFTMVDIDNetwork(3, 0, 2)] built on [tape0]: three honest
    agents of versions 5, 7 and 9, each talking to both others. *)
Definition honest3_run : BFTMVDIDNetwork * TapeWorld :=
  Eval vm_compute in
    match __init__ TapeEnv 3 0 2 "did:example:123" tape0 with
    | Ok r => r
    | Raise _ => (empty_network, tape0)
    end.

Definition honest3 : BFTMVDIDNetwork := fst honest3_run.
Definition honest3_tape : TapeWorld := snd honest3_run.

(** The same network built on the blank tape: three honest agents that
    all hold version 5. *)
Definition agreed3_run : BFTMVDIDNetwork * TapeWorld :=
  Eval vm_compute in
    match __init__ TapeEnv 3 0 2 "did:example:123" blank_tape with
    | Ok r => r
    | Raise _ => (empty_network, tape0)
    end.

Definition agreed3 : BFTMVDIDNetwork := fst agreed3_run.
Definition agreed3_tape : TapeWorld := snd agreed3_run.

(** ** Vocabulary of the further properties *)

(** The sums of the agents' received and ledger-query counters. *)
Definition sum_received (l : list Agent) : Z :=
  py_sum (map messages_received l).

Definition sum_queries (l : list Agent) : Z := py_sum (map ledger_queries l).

(** What any number of deliveries may do to an agent's books: every
    ledger query is paid for by a received message, a Byzantine agent
    neither queries nor changes its view, and no view changes without a
    query. *)
Definition delivered (a a' : Agent) : Prop :=
  agent_id a' = agent_id a /\ agent_type a' = agent_type a /\
  0 <= ledger_queries a' - ledger_queries a
    <= messages_received a' - messages_received a /\
  (is_byzantine a = true ->
   local_view a' = local_view a /\ ledger_queries a' = ledger_queries a) /\
  (ledger_queries a' = ledger_queries a -> local_view a' = local_view a).

(** A session at two moments: the frame is kept, every agent has gone
    through [adopts] and [delivered], and the two differences that the
    counters keep constant are the same. *)
Definition session_rel (s s' : BFTMVDIDNetwork) : Prop :=
  round_frame s s' /\
  Forall2 (adopts (ledger_view s)) (agents s) (agents s') /\
  Forall2 delivered (agents s) (agents s') /\
  sum_received (agents s') - total_messages s' =
    sum_received (agents s) - total_messages s /\
  total_ledger_queries s' - sum_queries (agents s') =
    total_ledger_queries s - sum_queries (agents s).

(** What the constructor makes of the blank agent [a]: it gives it a view
    of the subject, fabricated for a Byzantine agent and stale but
    canonical (the digest is the one of its version) for an honest one. *)
Definition constructed (E : Env) (did0 : string) (a a' : Agent) : Prop :=
  exists v,
    a' = set_local_view a (Some v) /\ did v = did0 /\
    if is_byzantine a then
      doc_hash v = _compute_hash E ("fake_doc_" +:+ pretty (agent_id a)) /\
      (EnvOK E -> 5 <= version v <= 15)
    else
      doc_hash v = _compute_hash E ("ledger_doc_v" +:+ pretty (version v)) /\
      (EnvOK E -> 5 <= version v <= 9).

(** A population without Byzantine agents whose views all carry the same
    version and digest. *)
Definition agreed (ver : Z) (h : string) (l : list Agent) : Prop :=
  Forall (fun a => is_byzantine a = false /\
                   exists v, local_view a = Some v /\
                             version v = ver /\ doc_hash v = h) l.

(** An agent that a round left with the view and query counter it had. *)
Definition untouched (a a' : Agent) : Prop :=
  local_view a' = local_view a /\ ledger_queries a' = ledger_queries a.

(** The sender and receiver pairs a population asks for: for every agent
    in list order, one pair per peer it holds, in the order it holds
    them. *)
Definition routes (l : list Agent) : list (Z * Z) :=
  flat_map (fun a => map (fun p => (agent_id a, p)) (peers a)) l.

(** What the statistics of one trial of the sweep look like: a budget of
    50 rounds, and a convergence round exactly when the trial converged. *)
Definition trial_ok (n f : Z) (st : Stats) : Prop :=
  st_n_agents st = n /\ st_f_byzantine st = f /\
  match st_convergence_round st with
  | Some c => st_converged st = true /\ c = st_rounds st /\ 1 <= c <= 50
  | None => st_converged st = false /\ st_rounds st = 50
  end.

(** The guard of the sweep, [f >= n / 3] with [f = int(n * f_ratio)]:
    the pair ([n], [f_ratio]) is skipped. Computing it can raise. *)
Definition skipped (n : Z) (f_ratio : Q) : result bool :=
  match byzantine_count n f_ratio with
  | Ok f =>
      match py_truediv64 n 3 with
      | Ok bound => Ok (Qle_bool bound (inject_Z f))
      | Raise e => Raise e
      end
  | Raise e => Raise e
  end.

(** The pairs of a sweep, in the order of its two loops. *)
Definition sweep_pairs (n_values : list Z) (f_ratios : list Q)
  : list (Z * Q) :=
  flat_map (fun n => map (pair n) f_ratios) n_values.

(** What stops a sweep that runs no trial: the first pair whose guard
    raises, or that is not skipped and so averages over no trial. *)
Fixpoint first_failure (pairs : list (Z * Q)) : option exn :=
  match pairs with
  | [] => None
  | (n, f_ratio) :: rest =>
      match skipped n f_ratio with
      | Ok true => first_failure rest
      | Ok false => Some ZeroDivisionError
      | Raise e => Some e
      end
  end.

(** The float a decimal literal of the source denotes, as [0.35]. *)
Definition float_literal (q : Q) : Q :=
  match round64 q with
  | Some x => x
  | None => 0%Q
  end.

(** The binary64 numbers of the Standard Library, against which
    [round64] is checked on the configurations below: the float
    [m * 2 ^ e], and the value of a float. *)
Definition binary64 (m e : Z) : SpecFloat.spec_float :=
  SpecFloat.binary_normalize 53 1024 m e false.

Definition binary64_value (x : SpecFloat.spec_float) : option Q :=
  match x with
  | SpecFloat.S754_zero _ => Some 0%Q
  | SpecFloat.S754_finite s m e =>
      let v := if s then Zneg m else Zpos m in
      Some (if 0 <=? e then inject_Z (v * 2 ^ e)
            else Qmake v (Z.to_pos (2 ^ (- e))))
  | _ => None
  end.

(** Two floats, infinite or finite, are the same number. *)
Definition same_float (x y : option Q) : bool :=
  match x, y with
  | Some a, Some b => Qeq_bool a b
  | None, None => true
  | _, _ => false
  end.

(** The test of [_handle_summary]: the reported view [sv] makes a
    receiver that holds [lv] ask the ledger. *)
Definition beats (sv lv : DIDView) : bool :=
  (version sv >? version lv) ||
  ((version sv =? version lv) &&
   negb (String.eqb (doc_hash sv) (doc_hash lv))).

(** Some agent of [l] holds a view that beats the view of [a]. *)
Definition beaten_by (l : list Agent) (a : Agent) : bool :=
  existsb (fun b =>
             match local_view b, local_view a with
             | Some sv, Some lv => beats sv lv
             | _, _ => false
             end) l.

(** The agent holds a stamped copy of the view [L]. *)
Definition at_ledger_copy (L : DIDView) (a : Agent) : Prop :=
  exists t,
    local_view a =
      Some {| did := did L; version := version L; doc_hash := doc_hash L;
              timestamp := t |}.

(** The copy for peer [p] of the Summary of the honest agent [a] in round
    [rn]. *)
Definition summary_to (rn : Z) (a : Agent) (p : Z) : Message :=
  {| sender := agent_id a; receiver := p; msg_type := "SUMMARY";
     view := local_view a; operations := []; msg_round_num := rn |}.

(** Some message of [msgs] addressed to position [j] carries a view that
    beats [lv]. *)
Definition beaten_in (msgs : list Message) (j : nat) (lv : DIDView) : bool :=
  existsb (fun m =>
             (receiver m =? Z.of_nat j) &&
             match view m with Some sv => beats sv lv | None => false end)
          msgs.

(** A network in which nobody is Byzantine, identities are list
    positions, and everybody talks to everybody else in every round. *)
Definition full_honest (self : BFTMVDIDNetwork) : Prop :=
  well_formed self /\
  Forall (fun a => is_byzantine a = false) (agents self) /\
  map agent_id (agents self) = py_range (n_agents self) /\
  fanout self = n_agents self - 1.

(** Every agent holds a view of a version below that of [L]. *)
Definition stale (L : DIDView) (l : list Agent) : Prop :=
  Forall (fun a => exists v, local_view a = Some v /\ version v < version L)
         l.

(** Views of the same version carry the same digest. *)
Definition consistent (l : list Agent) : Prop :=
  forall a b va vb,
    In a l -> In b l -> local_view a = Some va -> local_view b = Some vb ->
    version va = version vb -> doc_hash va = doc_hash vb.

(** Two agents hold views of different versions. *)
Definition differing (l : list Agent) : Prop :=
  exists a b va vb,
    In a l /\ In b l /\ local_view a = Some va /\ local_view b = Some vb /\
    version va < version vb.

(** ** The recovery experiment

    A shallow embedding of the class [BFTSHDIDExperiment] of
    [src/simulations/bft_sh_did_experiments.py]: a sampler of the gas
    cost and the latency of one recovery. A float that may be infinite
    is a [pyfloat]; the experiment raises [AssertionError] besides the
    built-in exceptions; the attribute [contract_abi], which no method
    reads, is left out. *)

Inductive pyfloat : Type := Fin (q : Q) | PInf | NInf | NaN.

(** [x + y] on floats. *)
Definition fadd (x y : pyfloat) : pyfloat :=
  match x, y with
  | NaN, _ | _, NaN => NaN
  | PInf, NInf | NInf, PInf => NaN
  | PInf, _ | _, PInf => PInf
  | NInf, _ | _, NInf => NInf
  | Fin a, Fin b => Fin (a + b)%Q
  end.

(** [sum(...)] over floats, kept exact: the sum starts from the integer
    0. *)
Definition fsum (l : list pyfloat) : pyfloat := fold_left fadd l (Fin 0).

(** [x / n] for a float [x] and an integer [n], kept exact. *)
Definition fdiv (x : pyfloat) (n : Z) : result pyfloat :=
  if n =? 0 then Raise ZeroDivisionError
  else Ok match x with
          | Fin a => Fin (a / inject_Z n)%Q
          | PInf => if 0 <? n then PInf else NInf
          | NInf => if 0 <? n then NInf else PInf
          | NaN => NaN
          end.

(** [x != float('inf')] *)
Definition ne_inf (x : pyfloat) : bool :=
  match x with PInf => false | _ => true end.

(** [max(l)] on a list of floats: the first of the largest elements;
    [ValueError] on the empty list. *)
Definition py_max (l : list Q) : result Q :=
  match l with
  | [] => Raise ValueError
  | x :: l' =>
      Ok (fold_left (fun m y => if Qle_bool y m then m else y) l' x)
  end.

Inductive py_error : Type := AssertionError | Builtin (e : exn).

Inductive outcome (A : Type) : Type :=
| Returned (a : A)
| Raised (e : py_error).

Arguments Returned {A} a.
Arguments Raised {A} e.

Record RecoveryPhase : Type := {
  detection_time : Q;
  proposal_time : Q;
  endorsement_time : pyfloat;
  commit_time : Q;
  finalization_time : Q
}.

(** [RecoveryPhase()] *)
Definition new_RecoveryPhase : RecoveryPhase :=
  {| detection_time := 0; proposal_time := 0; endorsement_time := Fin 0;
     commit_time := 0; finalization_time := 0 |}.

Record RecoveryResult : Type := {
  rr_quorum_size : Z;
  rr_n_watchers : Z;
  rr_f_byzantine : Z;
  rr_gas_used : Z;
  rr_total_latency : pyfloat;
  rr_phases : RecoveryPhase;
  rr_success : bool;
  rr_byzantine_behavior : string
}.

Record BFTSHDIDExperiment : Type := {
  results : list RecoveryResult;
  base_gas : Z;
  signature_verification_gas : Z;
  storage_write_gas : Z;
  detection_delay : Q * Q;
  proposal_delay : Q * Q;
  endorsement_delay_honest : Q * Q;
  endorsement_delay_byzantine : Q * Q;
  block_time : Q;
  finality_time : Z
}.

(** [BFTSHDIDExperiment()] *)
Definition new_BFTSHDIDExperiment : BFTSHDIDExperiment :=
  {| results := [];
     base_gas := 50000;
     signature_verification_gas := 6000;
     storage_write_gas := 20000;
     detection_delay := (1 # 10, 1 # 2)%Q;
     proposal_delay := (1 # 20, 1 # 5)%Q;
     endorsement_delay_honest := (1 # 10, 3 # 10)%Q;
     endorsement_delay_byzantine := (2, 10)%Q;
     block_time := 12%Q;
     finality_time := 13 * 60 |}.

(** [self.results.append(result)] *)
Definition append_result (self : BFTSHDIDExperiment) (r : RecoveryResult)
  : BFTSHDIDExperiment :=
  {| results := results self ++ [r];
     base_gas := base_gas self;
     signature_verification_gas := signature_verification_gas self;
     storage_write_gas := storage_write_gas self;
     detection_delay := detection_delay self;
     proposal_delay := proposal_delay self;
     endorsement_delay_honest := endorsement_delay_honest self;
     endorsement_delay_byzantine := endorsement_delay_byzantine self;
     block_time := block_time self;
     finality_time := finality_time self |}.

(** One entry of the list [run_gas_cost_analysis] returns. *)
Record GasRecord : Type := {
  gr_f : Z;
  gr_n : Z;
  gr_quorum_size : Z;
  gr_avg_gas : Q;
  gr_avg_latency_seconds : pyfloat;
  gr_success_rate : Q;
  gr_trials : list RecoveryResult
}.

(** One entry of the list [run_latency_analysis] returns. *)
Record LatencyRecord : Type := {
  lr_behavior : string;
  lr_n_watchers : Z;
  lr_f_byzantine : Z;
  lr_success_rate : Q;
  lr_avg_total_latency : pyfloat;
  lr_avg_detection_time : pyfloat;
  lr_avg_proposal_time : pyfloat;
  lr_avg_endorsement_time : pyfloat;
  lr_avg_commit_time : pyfloat;
  lr_avg_finalization_time : pyfloat;
  lr_trials : list RecoveryResult
}.

(** What the Python documentation promises of [random.uniform]: for
    [a <= b] the number returned lies in [a, b]. *)
Record UniformOK (E : Env) : Prop := {
  uniform_range : forall a b w, (a <= b)%Q ->
    (a <= fst (random_uniform E a b w) <= b)%Q
}.

Section Recovery.

Context (E : Env).

Local Abbreviation W := (World E).

(** [estimate_gas] *)
Definition estimate_gas (self : BFTSHDIDExperiment) (quorum_size : Z) : Z :=
  base_gas self + signature_verification_gas self * quorum_size +
  storage_write_gas self.

(** [random.uniform] on a pair of bounds. *)
Definition uniform_in (delay : Q * Q) (w : W) : Q * W :=
  random_uniform E (fst delay) (snd delay) w.

Definition simulate_detection (self : BFTSHDIDExperiment) (w : W) : Q * W :=
  uniform_in (detection_delay self) w.

Definition simulate_proposal (self : BFTSHDIDExperiment) (w : W) : Q * W :=
  uniform_in (proposal_delay self) w.

(** The loop of [simulate_endorsement_collection] over the indices
    [indices]. *)
Fixpoint collect_endorsements (self : BFTSHDIDExperiment)
    (honest_watchers : Z) (byzantine_behavior : string) (indices : list Z)
    (endorsement_times : list Q) (w : W) : list Q * W :=
  match indices with
  | [] => (endorsement_times, w)
  | i :: indices' =>
      let '(t, w') :=
        if i <? honest_watchers then
          uniform_in (endorsement_delay_honest self) w
        else if String.eqb byzantine_behavior "delay" then
          uniform_in (endorsement_delay_byzantine self) w
        else uniform_in (endorsement_delay_honest self) w in
      collect_endorsements self honest_watchers byzantine_behavior indices'
        (endorsement_times ++ [t]) w'
  end.

(** [simulate_endorsement_collection] *)
Definition simulate_endorsement_collection (self : BFTSHDIDExperiment)
    (n_watchers f_byzantine quorum_size : Z) (byzantine_behavior : string)
    (w : W) : result (pyfloat * W) :=
  let honest_watchers := n_watchers - f_byzantine in
  if String.eqb byzantine_behavior "refuse" &&
     (honest_watchers <? quorum_size)
  then Ok (PInf, w)
  else
    let '(endorsement_times, w') :=
      collect_endorsements self honest_watchers byzantine_behavior
        (py_range quorum_size) [] w in
    match py_max endorsement_times with
    | Ok t => Ok (Fin t, w')
    | Raise e => Raise e
    end.

(** [simulate_commit_and_finalization] *)
Definition simulate_commit_and_finalization (self : BFTSHDIDExperiment)
    (w : W) : (Q * Q) * W :=
  let '(commit_time0, w1) :=
    random_uniform E 0 (2 * block_time self)%Q w in
  let '(u, w2) := random_uniform E (-60)%Q 60%Q w1 in
  ((commit_time0, (inject_Z (finality_time self) + u)%Q), w2).

(** [run_recovery_experiment]: the result, and the experiment and the
    world as the call leaves them. *)
Definition run_recovery_experiment (self : BFTSHDIDExperiment)
    (n_watchers f_byzantine : Z) (byzantine_behavior : string) (w : W)
  : outcome (RecoveryResult * BFTSHDIDExperiment * W) :=
  if negb (3 * f_byzantine + 1 <=? n_watchers) then Raised AssertionError
  else
    let quorum_size := 2 * f_byzantine + 1 in
    let '(t_detection, w1) := simulate_detection self w in
    let '(t_proposal, w2) := simulate_proposal self w1 in
    match simulate_endorsement_collection self n_watchers f_byzantine
            quorum_size byzantine_behavior w2 with
    | Raise e => Raised (Builtin e)
    | Ok (t_endorsement, w3) =>
        let success := ne_inf t_endorsement in
        if negb success then
          Returned
            ({| rr_quorum_size := quorum_size;
                rr_n_watchers := n_watchers;
                rr_f_byzantine := f_byzantine;
                rr_gas_used := 0;
                rr_total_latency := PInf;
                rr_phases := new_RecoveryPhase;
                rr_success := false;
                rr_byzantine_behavior := byzantine_behavior |},
             self, w3)
        else
          let '((t_commit, t_finalization), w4) :=
            simulate_commit_and_finalization self w3 in
          let total_latency :=
            fadd (fadd (fadd (fadd (Fin t_detection) (Fin t_proposal))
                             t_endorsement)
                       (Fin t_commit))
                 (Fin t_finalization) in
          let gas_used := estimate_gas self quorum_size in
          let phases :=
            {| detection_time := t_detection;
               proposal_time := t_proposal;
               endorsement_time := t_endorsement;
               commit_time := t_commit;
               finalization_time := t_finalization |} in
          let result :=
            {| rr_quorum_size := quorum_size;
               rr_n_watchers := n_watchers;
               rr_f_byzantine := f_byzantine;
               rr_gas_used := gas_used;
               rr_total_latency := total_latency;
               rr_phases := phases;
               rr_success := true;
               rr_byzantine_behavior := byzantine_behavior |} in
          Returned (result, append_result self result, w4)
    end.

(** A trial loop: one call of [run_recovery_experiment] per element of
    [ts], the results appended to [trial_results]. *)
Fixpoint recovery_trials (self : BFTSHDIDExperiment)
    (n_watchers f_byzantine : Z) (byzantine_behavior : string)
    (ts : list Z) (trial_results : list RecoveryResult) (w : W)
  : outcome (list RecoveryResult * BFTSHDIDExperiment * W) :=
  match ts with
  | [] => Returned (trial_results, self, w)
  | _ :: ts' =>
      match run_recovery_experiment self n_watchers f_byzantine
              byzantine_behavior w with
      | Raised e => Raised e
      | Returned (r, self', w') =>
          recovery_trials self' n_watchers f_byzantine byzantine_behavior
            ts' (trial_results ++ [r]) w'
      end
  end.

(** The body of the loop of [run_gas_cost_analysis] for one [f]. *)
Definition gas_cost_record (self : BFTSHDIDExperiment) (f trials : Z)
    (w : W) : outcome (GasRecord * BFTSHDIDExperiment * W) :=
  let n := 3 * f + 1 in
  let quorum_size := 2 * f + 1 in
  match recovery_trials self n f "none" (py_range trials) [] w with
  | Raised e => Raised e
  | Returned (trial_results, self', w') =>
  match py_truediv (py_sum (map rr_gas_used trial_results)) trials with
  | Raise e => Raised (Builtin e)
  | Ok avg_gas =>
  match fdiv (fsum (map rr_total_latency trial_results)) trials with
  | Raise e => Raised (Builtin e)
  | Ok avg_latency =>
  match py_truediv
          (py_sum (map (fun r => if rr_success r then 1 else 0)
                       trial_results))
          trials with
  | Raise e => Raised (Builtin e)
  | Ok rate =>
      Returned
        ({| gr_f := f; gr_n := n; gr_quorum_size := quorum_size;
            gr_avg_gas := avg_gas; gr_avg_latency_seconds := avg_latency;
            gr_success_rate := rate; gr_trials := trial_results |},
         self', w')
  end end end end.

(** [run_gas_cost_analysis], from the records gathered so far. *)
Fixpoint gas_cost_loop (self : BFTSHDIDExperiment) (f_values : list Z)
    (trials : Z) (records : list GasRecord) (w : W)
  : outcome (list GasRecord * BFTSHDIDExperiment * W) :=
  match f_values with
  | [] => Returned (records, self, w)
  | f :: f_values' =>
      match gas_cost_record self f trials w with
      | Raised e => Raised e
      | Returned (r, self', w') =>
          gas_cost_loop self' f_values' trials (records ++ [r]) w'
      end
  end.

Definition run_gas_cost_analysis (self : BFTSHDIDExperiment)
    (f_values : list Z) (trials : Z) (w : W)
  : outcome (list GasRecord * BFTSHDIDExperiment * W) :=
  gas_cost_loop self f_values trials [] w.

(** The averages of the latency analysis are float sums divided by a
    count. How a sum of floats rounds depends on the interpreter (CPython
    sums floats with compensation from version 3.12 on, and rounded
    every partial sum before), so the two operations are those of the
    interpreter at hand: [float_sum l] is [sum(l)] on floats, and
    [float_truediv x m] is [x / m] for a float [x] and an [int] [m]
    other than zero. *)
Context (float_sum : list pyfloat -> pyfloat)
        (float_truediv : pyfloat -> Z -> pyfloat).

(** [sum(l) / m] *)
Definition average (l : list pyfloat) (m : Z) : result pyfloat :=
  if m =? 0 then Raise ZeroDivisionError
  else Ok (float_truediv (float_sum l) m).

(** The averages of [run_latency_analysis] over the successful trials,
    which the caller has found not to be empty. *)
Definition latency_averages (successful_trials : list RecoveryResult)
  : result (pyfloat * pyfloat * pyfloat * pyfloat * pyfloat * pyfloat) :=
  let m := Z.of_nat (length successful_trials) in
  let phase (g : RecoveryPhase -> Q) :=
    average (map (fun r => Fin (g (rr_phases r))) successful_trials) m in
  match average (map rr_total_latency successful_trials) m with
  | Raise e => Raise e
  | Ok avg_latency =>
  match phase detection_time with
  | Raise e => Raise e
  | Ok avg_detection =>
  match phase proposal_time with
  | Raise e => Raise e
  | Ok avg_proposal =>
  match average (map (fun r => endorsement_time (rr_phases r))
                     successful_trials) m with
  | Raise e => Raise e
  | Ok avg_endorsement =>
  match phase commit_time with
  | Raise e => Raise e
  | Ok avg_commit =>
  match phase finalization_time with
  | Raise e => Raise e
  | Ok avg_finalization =>
      Ok (avg_latency, avg_detection, avg_proposal, avg_endorsement,
          avg_commit, avg_finalization)
  end end end end end end.

(** The body of the loop of [run_latency_analysis] for one behaviour. *)
Definition latency_record (self : BFTSHDIDExperiment)
    (n_watchers f_byzantine : Z) (behavior : string) (trials : Z) (w : W)
  : outcome (LatencyRecord * BFTSHDIDExperiment * W) :=
  match recovery_trials self n_watchers f_byzantine behavior
          (py_range trials) [] w with
  | Raised e => Raised e
  | Returned (trial_results, self', w') =>
  let successful_trials := List.filter rr_success trial_results in
  match (match successful_trials with
         | [] => Ok (PInf, Fin 0, Fin 0, Fin 0, Fin 0, Fin 0)
         | _ :: _ => latency_averages successful_trials
         end) with
  | Raise e => Raised (Builtin e)
  | Ok (avg_latency, avg_detection, avg_proposal, avg_endorsement,
        avg_commit, avg_finalization) =>
  match py_truediv (Z.of_nat (length successful_trials)) trials with
  | Raise e => Raised (Builtin e)
  | Ok rate =>
      Returned
        ({| lr_behavior := behavior;
            lr_n_watchers := n_watchers;
            lr_f_byzantine := f_byzantine;
            lr_success_rate := rate;
            lr_avg_total_latency := avg_latency;
            lr_avg_detection_time := avg_detection;
            lr_avg_proposal_time := avg_proposal;
            lr_avg_endorsement_time := avg_endorsement;
            lr_avg_commit_time := avg_commit;
            lr_avg_finalization_time := avg_finalization;
            lr_trials := trial_results |},
         self', w')
  end end end.

(** [run_latency_analysis], from the records gathered so far. *)
Fixpoint latency_loop (self : BFTSHDIDExperiment)
    (n_watchers f_byzantine : Z) (behaviors : list string) (trials : Z)
    (records : list LatencyRecord) (w : W)
  : outcome (list LatencyRecord * BFTSHDIDExperiment * W) :=
  match behaviors with
  | [] => Returned (records, self, w)
  | behavior :: behaviors' =>
      match latency_record self n_watchers f_byzantine behavior trials w
      with
      | Raised e => Raised e
      | Returned (r, self', w') =>
          latency_loop self' n_watchers f_byzantine behaviors' trials
            (records ++ [r]) w'
      end
  end.

Definition run_latency_analysis (self : BFTSHDIDExperiment)
    (n_watchers f_byzantine : Z) (behaviors : list string) (trials : Z)
    (w : W) : outcome (list LatencyRecord * BFTSHDIDExperiment * W) :=
  latency_loop self n_watchers f_byzantine behaviors trials [] w.

End Recovery.

(** The experiment with another list of results. *)
Definition set_results (self : BFTSHDIDExperiment)
    (rs : list RecoveryResult) : BFTSHDIDExperiment :=
  {| results := rs;
     base_gas := base_gas self;
     signature_verification_gas := signature_verification_gas self;
     storage_write_gas := storage_write_gas self;
     detection_delay := detection_delay self;
     proposal_delay := proposal_delay self;
     endorsement_delay_honest := endorsement_delay_honest self;
     endorsement_delay_byzantine := endorsement_delay_byzantine self;
     block_time := block_time self;
     finality_time := finality_time self |}.

(** The result with another behaviour echoed. *)
Definition set_behavior (r : RecoveryResult) (b : string) : RecoveryResult :=
  {| rr_quorum_size := rr_quorum_size r;
     rr_n_watchers := rr_n_watchers r;
     rr_f_byzantine := rr_f_byzantine r;
     rr_gas_used := rr_gas_used r;
     rr_total_latency := rr_total_latency r;
     rr_phases := rr_phases r;
     rr_success := rr_success r;
     rr_byzantine_behavior := b |}.

(** A float rounded to binary64; what overflows is an infinity. *)
Definition fround (x : pyfloat) : pyfloat :=
  match x with
  | Fin q =>
      match round64 q with
      | Some r => Fin r
      | None => if 0 <? Qnum q then PInf else NInf
      end
  | _ => x
  end.

(** [sum(l)] on floats, every partial sum rounded: the loop
    [s = 0; for x in l: s += x]. *)
Definition sum64 (l : list pyfloat) : pyfloat :=
  fold_left (fun s x => fround (fadd s x)) l (Fin 0).

(** [x / m] for a float [x] and an [int] [m] other than zero, for an [m]
    that a float holds exactly. *)
Definition truediv64 (x : pyfloat) (m : Z) : pyfloat :=
  match fdiv x m with
  | Ok y => fround y
  | Raise _ => NaN
  end.

(** A successful recovery within the bounds of the standard delays. *)
Definition within_standard_bounds (r : RecoveryResult) : Prop :=
  rr_success r = true /\
  exists q e,
    rr_total_latency r = Fin q /\ (2881 # 4 <= q <= 865)%Q /\
    endorsement_time (rr_phases r) = Fin e /\ (1 # 10 <= e <= 3 # 10)%Q.

(** * Properties *)

(** ** The monad *)

Lemma bind_Ok {W A B : Type} (c : M W A) (k : A -> M W B) w r :
  bind c k w = Ok r -> exists a w', c w = Ok (a, w') /\ k a w' = Ok r.
Proof.
  unfold bind. destruct (c w) as [[a w']|e]; [eauto | discriminate].
Qed.

Lemma bind_run {W A B : Type} (c : M W A) (k : A -> M W B) w a w' :
  c w = Ok (a, w') -> bind c k w = k a w'.
Proof. unfold bind. intros ->. reflexivity. Qed.

Lemma lift_result_Ok {W A : Type} (r : result A) (w : W) x :
  lift_result r w = Ok x -> r = Ok (fst x) /\ snd x = w.
Proof.
  unfold lift_result. destruct r; [|discriminate].
  intros [= <-]. auto.
Qed.

(** ** The tape environment obeys the contract *)

Lemma rotate_Permutation i l : Permutation (rotate i l) l.
Proof.
  unfold rotate. rewrite Permutation_app_comm.
  rewrite firstn_skipn. reflexivity.
Qed.

Lemma TapeEnv_ok : EnvOK TapeEnv.
Proof.
  split.
  - intros a b w Hab. simpl. unfold tape_randint.
    destruct (next_cell w) as [t w']. simpl.
    pose proof (Z.mod_pos_bound t (b - a + 1)). lia.
  - intros pop k w Hk. simpl. unfold tape_sample.
    replace ((0 <=? k) && (k <=? Z.of_nat (length pop))) with true
      by (symmetry; apply andb_true_iff; split; lia).
    destruct (next_cell w) as [t w'].
    set (l := rotate _ pop).
    exists (firstn (Z.to_nat k) l), w'. split; [reflexivity|]. split.
    + rewrite length_firstn. 
      assert (length l = length pop)
        by (apply Permutation_length, rotate_Permutation).
      lia.
    + exists (skipn (Z.to_nat k) l). rewrite firstn_skipn.
      apply rotate_Permutation.
Qed.

(** ** View equality *)

Lemma DIDView_eq_iff (a b : DIDView) :
  __eq__ a b = true <->
  did a = did b /\ version a = version b /\ doc_hash a = doc_hash b.
Proof.
  unfold __eq__. rewrite !andb_true_iff, !String.eqb_eq, Z.eqb_eq.
  tauto.
Qed.

Lemma DIDView_eq_refl (a : DIDView) : __eq__ a a = true.
Proof. apply DIDView_eq_iff. auto. Qed.

Lemma DIDView_ne_false (o : option DIDView) (b : DIDView) :
  DIDView_ne o b = false <-> exists v, o = Some v /\ __eq__ v b = true.
Proof.
  destruct o as [v|]; simpl.
  - rewrite negb_false_iff. split; [eauto|]. intros (v' & [= <-] & H). exact H.
  - split; [discriminate|]. intros (v & H & _). discriminate.
Qed.

(** ** The update rule *)

Section Update.

Context (E : Env).

Lemma query_ledger_run self r w :
  query_ledger E self r w =
  Ok (set_local_view (set_ledger_queries r (ledger_queries r + 1))
        (Some (ledger_copy self (fst (time_time E w)))),
      set_total_ledger_queries self (total_ledger_queries self + 1),
      snd (time_time E w)).
Proof.
  unfold query_ledger, bind, now, lift, ret.
  destruct (time_time E w) as [t w1]. reflexivity.
Qed.

(** What a call of [_handle_summary] that returns has done: either it only
    counted the message, or the receiver is honest and went through
    [query_ledger]. *)
Lemma handle_summary_cases self r0 m w r1 self1 w' :
  _handle_summary E self r0 m w = Ok ((r1, self1), w') ->
  let r := set_messages_received r0 (messages_received r0 + 1) in
  (r1 = r /\ self1 = self /\ w' = w) \/
  (is_byzantine r0 = false /\
   r1 = set_local_view (set_ledger_queries r (ledger_queries r0 + 1))
          (Some (ledger_copy self (fst (time_time E w)))) /\
   self1 = set_total_ledger_queries self (total_ledger_queries self + 1) /\
   w' = snd (time_time E w)).
Proof.
  unfold _handle_summary. simpl.
  change (is_byzantine (set_messages_received r0 (messages_received r0 + 1)))
    with (is_byzantine r0).
  destruct (is_byzantine r0) eqn:Hb.
  - intros [= <- <- <-]. left. auto.
  - intros H. apply bind_Ok in H as (sv & w1 & Hsv & H).
    apply bind_Ok in H as (lv & w2 & Hlv & H).
    destruct (view m) as [sv0|]; [|discriminate].
    injection Hsv as Hs1 Hs2. subst sv0 w1.
    simpl in Hlv. destruct (local_view r0) as [lv0|]; [|discriminate].
    injection Hlv as Hl1 Hl2. subst lv0 w2.
    destruct (version sv >? version lv).
    + rewrite query_ledger_run in H. injection H as <- <- <-. right. auto.
    + destruct (version sv =? version lv).
      * destruct (negb _).
        -- rewrite query_ledger_run in H. injection H as <- <- <-.
           right. auto.
        -- injection H as <- <- <-. left. auto.
      * injection H as <- <- <-. left. auto.
Qed.

(** C1. A Summary delivered to an honest receiver: a strictly greater
    version, or an equal version with a different digest, makes the receiver
    query the ledger (its counter and the network's both go up by one) and
    adopt the ledger's view stamped with the current time; in every other
    case the local view and both counters stay as they are. *)
Theorem handle_summary_rule
    (self : BFTMVDIDNetwork) (r : Agent) (m : Message) (lv sv : DIDView)
    (w : World E) :
  is_byzantine r = false ->
  local_view r = Some lv ->
  view m = Some sv ->
  exists r' self' w',
    _handle_summary E self r m w = Ok ((r', self'), w') /\
    ledger_view self' = ledger_view self /\
    (version sv > version lv \/
     (version sv = version lv /\ doc_hash sv <> doc_hash lv) ->
       ledger_queries r' = ledger_queries r + 1 /\
       total_ledger_queries self' = total_ledger_queries self + 1 /\
       local_view r' =
         Some {| did := did (ledger_view self);
                 version := version (ledger_view self);
                 doc_hash := doc_hash (ledger_view self);
                 timestamp := fst (time_time E w) |} /\
       w' = snd (time_time E w)) /\
    (version sv < version lv \/
     (version sv = version lv /\ doc_hash sv = doc_hash lv) ->
       local_view r' = local_view r /\
       ledger_queries r' = ledger_queries r /\
       total_ledger_queries self' = total_ledger_queries self /\
       w' = w).
Proof.
  intros Hb Hlv Hsv.
  unfold _handle_summary.
  change (is_byzantine (set_messages_received r (messages_received r + 1)))
    with (is_byzantine r).
  rewrite Hb, Hsv. simpl. rewrite Hlv. unfold bind at 1 2. simpl.
  destruct (Z.gtb_spec (version sv) (version lv)) as [Hgt|Hle].
  - rewrite query_ledger_run. do 3 eexists. split; [reflexivity|]. simpl.
    split; [reflexivity|]. split; [auto|]. intros [?|[? ?]]; lia.
  - destruct (Z.eqb_spec (version sv) (version lv)) as [Heq|Hne].
    + destruct (String.eqb_spec (doc_hash sv) (doc_hash lv)) as [Hh|Hh]; simpl.
      * do 3 eexists. split; [reflexivity|]. simpl.
        split; [reflexivity|]. split; [|auto].
        intros [?|[? ?]]; [lia|contradiction].
      * rewrite query_ledger_run. do 3 eexists. split; [reflexivity|]. simpl.
        split; [reflexivity|]. split; [auto|].
        intros [?|[? ?]]; [lia|contradiction].
    + do 3 eexists. split; [reflexivity|]. simpl.
      split; [reflexivity|]. split; [|auto].
      intros [?|[? ?]]; [lia|contradiction].
Qed.

End Update.

(** ** Rounds *)

Section Rounds.

Context (E : Env).

Lemma send_to_peers_spec msg ps rm a t :
  send_to_peers msg ps (rm, a, t) =
  (rm ++ map (msg_copy msg) ps,
   set_messages_sent a (messages_sent a + Z.of_nat (length ps)),
   t + Z.of_nat (length ps)).
Proof.
  unfold send_to_peers. revert rm a t.
  induction ps as [|p ps IH]; intros rm a t.
  - simpl. rewrite app_nil_r, !Z.add_0_r. destruct a; reflexivity.
  - cbn [fold_left]. rewrite IH. cbn [map length].
    rewrite <- app_assoc. cbn [app]. f_equal; [f_equal|lia].
    unfold set_messages_sent. simpl. f_equal. lia.
Qed.

Lemma byzantine_summary_run self a w :
  exists v w',
    _byzantine_agent_summary E self a w =
    Ok ({| sender := agent_id a; receiver := -1; msg_type := "SUMMARY";
           view := Some v; operations := [];
           msg_round_num := round_num self |}, w').
Proof.
  unfold _byzantine_agent_summary, bind, randint, now, lift, ret.
  destruct (random_randint E 8 20 w) as [v w1].
  destruct (random_randint E 0 100 w1) as [r w2].
  destruct (time_time E w2) as [t w3]. eauto.
Qed.

(** The closed form of one iteration of phase 1. *)
Lemma emit_Ok i a self rm w st' w' :
  emit E i a (self, rm) w = Ok (st', w') ->
  exists ps w1 msg,
    _select_peers E self (agent_id a) w = Ok (ps, w1) /\
    (if is_byzantine a
     then _byzantine_agent_summary E self (set_peers a ps) w1 = Ok (msg, w')
     else msg = _honest_agent_summary self (set_peers a ps) /\ w' = w1) /\
    st' = (set_total_messages
             (set_agents self
                (<[i := set_messages_sent (set_peers a ps)
                          (messages_sent a + Z.of_nat (length ps))]>
                   (agents self)))
             (total_messages self + Z.of_nat (length ps)),
           rm ++ map (msg_copy msg) ps).
Proof.
  unfold emit. intros H.
  apply bind_Ok in H as (ps & w1 & Hps & H).
  apply bind_Ok in H as (msg & w2 & Hmsg & H).
  rewrite send_to_peers_spec in H. injection H as <- <-.
  exists ps, w1, msg. split; [exact Hps|]. split; [|reflexivity].
  change (is_byzantine (set_peers a ps)) with (is_byzantine a) in Hmsg.
  destruct (is_byzantine a); [exact Hmsg|].
  injection Hmsg as <- <-. auto.
Qed.

Lemma emit_run i a self rm w ps w1 msg w' :
  _select_peers E self (agent_id a) w = Ok (ps, w1) ->
  (if is_byzantine a
   then _byzantine_agent_summary E self (set_peers a ps) w1 = Ok (msg, w')
   else msg = _honest_agent_summary self (set_peers a ps) /\ w' = w1) ->
  emit E i a (self, rm) w =
  Ok (set_total_messages
        (set_agents self
           (<[i := set_messages_sent (set_peers a ps)
                     (messages_sent a + Z.of_nat (length ps))]>
              (agents self)))
        (total_messages self + Z.of_nat (length ps)),
      rm ++ map (msg_copy msg) ps, w').
Proof.
  intros Hps Hmsg. unfold emit.
  rewrite (bind_run _ _ _ _ _ Hps).
  change (is_byzantine (set_peers a ps)) with (is_byzantine a).
  destruct (is_byzantine a).
  - rewrite (bind_run _ _ _ _ _ Hmsg). rewrite send_to_peers_spec. reflexivity.
  - destruct Hmsg as [-> ->]. unfold bind, ret at 1.
    rewrite send_to_peers_spec. reflexivity.
Qed.

(** Invariants of the phase 1 loop: a property that every iteration
    carries from position [j] to [j + 1] holds when the loop ends. *)
Lemma phase1_from_ind (P : nat -> BFTMVDIDNetwork * list Message -> Prop) :
  (forall j a s w s' w',
      P j s -> agents (fst s) !! j = Some a ->
      emit E j a s w = Ok (s', w') -> P (S j) s') ->
  forall rest i st w st' w',
    drop i (agents (fst st)) = rest -> P i st ->
    phase1_from E i rest st w = Ok (st', w') ->
    P (i + length rest)%nat st'.
Proof.
  intros Hstep. induction rest as [|a rest IH]; intros i st w st' w' Hd HP H.
  - injection H as <- <-. simpl. rewrite Nat.add_0_r. exact HP.
  - cbn [phase1_from] in H. apply bind_Ok in H as (s1 & w1 & He & H).
    assert (Ha : agents (fst st) !! i = Some a).
    { rewrite <- (Nat.add_0_r i), <- lookup_drop, Hd. reflexivity. }
    cbn [length]. rewrite <- Nat.add_succ_comm.
    apply (IH (S i) s1 w1 st' w'); [|eapply Hstep; eauto|exact H].
    destruct st as [self rm].
    apply emit_Ok in He as (ps & w2 & msg & _ & _ & ->). simpl.
    rewrite drop_insert_lt by lia. simpl in Hd.
    replace (S i) with (i + 1)%nat by lia.
    rewrite <- drop_drop, Hd. reflexivity.
Qed.

Lemma phase1_from_total (P : nat -> BFTMVDIDNetwork * list Message -> Prop) :
  (forall j a s w,
      P j s -> agents (fst s) !! j = Some a ->
      exists s' w', emit E j a s w = Ok (s', w') /\ P (S j) s') ->
  forall rest i st w,
    drop i (agents (fst st)) = rest -> P i st ->
    exists st' w',
      phase1_from E i rest st w = Ok (st', w') /\ P (i + length rest)%nat st'.
Proof.
  intros Hstep. induction rest as [|a rest IH]; intros i st w Hd HP.
  - exists st, w. simpl. rewrite Nat.add_0_r. auto.
  - assert (Ha : agents (fst st) !! i = Some a).
    { rewrite <- (Nat.add_0_r i), <- lookup_drop, Hd. reflexivity. }
    destruct (Hstep i a st w HP Ha) as (s1 & w1 & He & HP1).
    cbn [phase1_from length]. rewrite (bind_run _ _ _ _ _ He).
    rewrite <- Nat.add_succ_comm. apply IH; [|exact HP1].
    destruct st as [self rm].
    apply emit_Ok in He as (ps & w2 & msg & _ & _ & ->). simpl.
    rewrite drop_insert_lt by lia. simpl in Hd.
    replace (S i) with (i + 1)%nat by lia.
    rewrite <- drop_drop, Hd. reflexivity.
Qed.

(** *** Lists and sums *)

Lemma Forall2_insert_r {A B : Type} (R : A -> B -> Prop) l k j y :
  Forall2 R l k ->
  (forall x, l !! j = Some x -> R x y) ->
  Forall2 R l (<[j := y]> k).
Proof.
  intros HF Hy. destruct (l !! j) as [x|] eqn:Hl.
  - rewrite <- (list_insert_id l j x Hl). apply Forall2_insert; auto.
  - apply lookup_ge_None in Hl. rewrite list_insert_ge; [exact HF|].
    apply Forall2_length in HF. lia.
Qed.

Lemma fold_left_add_shift l a : fold_left Z.add l a = a + fold_left Z.add l 0.
Proof.
  revert a. induction l as [|x l IH]; intros a; cbn [fold_left]; [lia|].
  rewrite (IH (a + x)), (IH (0 + x)). lia.
Qed.

Lemma py_sum_cons x l : py_sum (x :: l) = x + py_sum l.
Proof. unfold py_sum. simpl. apply fold_left_add_shift. Qed.

Lemma sum_sent_insert l j a a' :
  l !! j = Some a ->
  sum_sent (<[j := a']> l) = sum_sent l - messages_sent a + messages_sent a'.
Proof.
  unfold sum_sent. revert j. induction l as [|x l IH]; intros j Hj.
  - discriminate.
  - destruct j as [|j]; simpl in *.
    + injection Hj as ->. rewrite !py_sum_cons. lia.
    + rewrite !py_sum_cons, (IH j Hj). lia.
Qed.

Lemma py_range_bounds n p : In p (py_range n) -> 0 <= p < n.
Proof.
  unfold py_range. rewrite in_map_iff. intros (k & <- & Hk).
  apply in_seq in Hk. lia.
Qed.

Lemma py_range_length n : length (py_range n) = Z.to_nat n.
Proof. unfold py_range. rewrite length_map, length_seq. reflexivity. Qed.

Lemma py_range_NoDup n : List.NoDup (py_range n).
Proof.
  unfold py_range. apply Injective_map_NoDup.
  - intros x y. lia.
  - apply seq_NoDup.
Qed.

Lemma filter_ne_length (l : list Z) x :
  List.NoDup l ->
  (length l <= S (length (List.filter (fun i => negb (i =? x)%Z) l)))%nat.
Proof.
  induction 1 as [|a l Hnin Hnd IH]; simpl; [lia|].
  destruct (Z.eqb_spec a x) as [->|Hne]; simpl; [|lia].
  assert (List.filter (fun i => negb (i =? x)) l = l) as ->; [|lia].
  clear IH Hnd. induction l as [|b l IH]; [reflexivity|]. simpl.
  destruct (Z.eqb_spec b x) as [->|_]; simpl.
  - exfalso. apply Hnin. left. reflexivity.
  - f_equal. apply IH. intros Hin. apply Hnin. right. exact Hin.
Qed.

Lemma py_getitem_Ok {A : Type} (l : list A) i j a :
  py_getitem l i = Ok (j, a) -> l !! j = Some a.
Proof.
  unfold py_getitem. destruct (_ && _); [|discriminate].
  destruct (l !! _) eqn:Hl; [|discriminate]. intros [= <- <-]. exact Hl.
Qed.

Lemma py_getitem_run {A : Type} (l : list A) i :
  0 <= i < Z.of_nat (length l) ->
  exists a, l !! Z.to_nat i = Some a /\ py_getitem l i = Ok (Z.to_nat i, a).
Proof.
  intros Hi. unfold py_getitem.
  destruct (Z.ltb_spec i 0); [lia|].
  replace ((0 <=? i) && (i <? Z.of_nat (length l))) with true
    by (symmetry; apply andb_true_iff; split; lia).
  destruct (l !! Z.to_nat i) as [a|] eqn:Hl; [eauto|].
  apply lookup_ge_None in Hl. lia.
Qed.

(** *** Phase 1 *)

Lemma same_core_refl a : same_core a a.
Proof. unfold same_core. auto. Qed.

Lemma same_params_refl s : same_params s s.
Proof. unfold same_params. tauto. Qed.

(** Phase 1 writes peer sets, sent counters and the message total, and
    nothing else. *)
Lemma phase1_frame self w s rm w' :
  phase1 E self w = Ok ((s, rm), w') ->
  same_params self s /\ Forall2 same_core (agents self) (agents s).
Proof.
  unfold phase1. intros H.
  apply (phase1_from_ind
           (fun _ st => same_params self (fst st) /\
                        Forall2 same_core (agents self) (agents (fst st))))
    in H; [exact H| |reflexivity|].
  - intros j a [s0 rm0] w0 s1 w1 [Hp HF] Ha He. simpl in *.
    apply emit_Ok in He as (ps & w2 & msg & _ & _ & ->). simpl. split.
    + exact Hp.
    + apply Forall2_insert_r; [exact HF|]. intros x Hx.
      destruct (Forall2_lookup_lr _ _ _ _ _ _ HF Hx Ha) as (? & ? & ? & ? & ?).
      unfold same_core. simpl. auto.
  - simpl. split; [apply same_params_refl|].
    apply Forall_Forall2_diag, Forall_forall. intros; apply same_core_refl.
Qed.

Lemma select_peers_ok (HE : EnvOK E) self id w :
  0 <= fanout self <= n_agents self - 1 ->
  exists ps w1,
    _select_peers E self id w = Ok (ps, w1) /\
    Z.of_nat (length ps) = fanout self /\
    Forall (fun p => 0 <= p < n_agents self) ps.
Proof.
  intros Hf. unfold _select_peers, sample.
  set (others := List.filter _ _).
  assert (Hlen : n_agents self - 1 <= Z.of_nat (length others)).
  { pose proof (filter_ne_length (py_range (n_agents self)) id
                  (py_range_NoDup _)) as H.
    rewrite py_range_length in H. fold others in H. lia. }
  rewrite Z.min_l by lia.
  destruct (sample_ok E HE others (fanout self) w) as
    (ps & w1 & Hs & Hl & rest & Hperm); [lia|].
  exists ps, w1. split; [exact Hs|]. split; [exact Hl|].
  apply Forall_forall. intros p Hp. apply list_elem_of_In in Hp.
  assert (Hin : In p others).
  { eapply Permutation_in; [exact Hperm|]. apply in_or_app. auto. }
  unfold others in Hin. apply filter_In in Hin as [Hin _].
  apply py_range_bounds in Hin. exact Hin.
Qed.

(** With a fanout its population can serve, every iteration of phase 1
    succeeds, sends exactly [fanout] messages, and addresses them to
    existing agents. *)
Lemma phase1_total (HE : EnvOK E) self w :
  well_formed self ->
  exists s rm w',
    phase1 E self w = Ok ((s, rm), w') /\
    total_messages s =
      total_messages self + fanout self * Z.of_nat (length (agents self)) /\
    sum_sent (agents s) =
      sum_sent (agents self) + fanout self * Z.of_nat (length (agents self)) /\
    Forall2 (sent_plus (fanout self)) (agents self) (agents s) /\
    Z.of_nat (length rm) = fanout self * Z.of_nat (length (agents self)) /\
    Forall (fun m => view m <> None /\ 0 <= receiver m < n_agents self) rm.
Proof.
  intros [Hlen Hfan Hcap Hviews]. unfold phase1.
  destruct (phase1_from_total
    (fun j st =>
       same_params self (fst st) /\
       Forall2 same_core (agents self) (agents (fst st)) /\
       total_messages (fst st) =
         total_messages self + fanout self * Z.of_nat j /\
       sum_sent (agents (fst st)) =
         sum_sent (agents self) + fanout self * Z.of_nat j /\
       (forall k a a',
          agents self !! k = Some a -> agents (fst st) !! k = Some a' ->
          messages_sent a' =
            messages_sent a + if (k <? j)%nat then fanout self else 0) /\
       Z.of_nat (length (snd st)) = fanout self * Z.of_nat j /\
       Forall (fun m => view m <> None /\ 0 <= receiver m < n_agents self)
              (snd st))) with (rest := agents self) (i := 0%nat)
    (st := (self, @nil Message)) (w := w) as ([s rm] & w' & Hrun & HP).
  - intros j a [s0 rm0] w0 (Hp & HF & Ht & Hs & Hsent & Hrm & Hm) Ha.
    simpl in *.
    pose proof Hp as (Hn & _ & Hfo & _).
    assert (Hj : (j < length (agents self))%nat).
    { apply Forall2_length in HF. apply lookup_lt_Some in Ha. lia. }
    assert (Hf0 : 0 <= fanout s0 <= n_agents s0 - 1) by lia.
    destruct (select_peers_ok HE s0 (agent_id a) w0 Hf0)
      as (ps & w1 & Hps & Hlps & Hrange).
    assert (Hmsg : exists msg w2,
      (if is_byzantine a
       then _byzantine_agent_summary E s0 (set_peers a ps) w1 = Ok (msg, w2)
       else msg = _honest_agent_summary s0 (set_peers a ps) /\ w2 = w1) /\
      view msg <> None).
    { destruct (is_byzantine a) eqn:Hb.
      - destruct (byzantine_summary_run s0 (set_peers a ps) w1)
          as (v & w2 & Hrun).
        eexists _, w2. split; [exact Hrun|]. discriminate.
      - eexists _, w1. split; [split; reflexivity|]. simpl.
        destruct (Forall2_lookup_r _ _ _ _ _ HF Ha) as (x & Hx & Hcore).
        destruct Hcore as (_ & _ & -> & _).
        eapply Forall_lookup_1 in Hviews; eauto. }
    destruct Hmsg as (msg & w2 & Hmsg & Hview).
    eexists _, w2. split; [eapply emit_run; eauto|]. simpl.
    split; [exact Hp|].
    split.
    { apply Forall2_insert_r; [exact HF|]. intros x Hx.
      destruct (Forall2_lookup_lr _ _ _ _ _ _ HF Hx Ha) as (? & ? & ? & ? & ?).
      unfold same_core. simpl. auto. }
    split; [lia|]. split.
    { rewrite (sum_sent_insert _ _ _ _ Ha). simpl. lia. }
    split.
    { intros k x x' Hx Hx'. destruct (Nat.eq_dec k j) as [->|Hne].
      - rewrite list_lookup_insert_eq in Hx' by (eapply lookup_lt_Some; eauto).
        injection Hx' as <-. simpl.
        rewrite (Hsent j x a Hx Ha).
        destruct (Nat.ltb_spec j j); [lia|].
        destruct (Nat.ltb_spec j (S j)); lia.
      - rewrite list_lookup_insert_ne in Hx' by congruence.
        rewrite (Hsent k x x' Hx Hx').
        destruct (Nat.ltb_spec k j), (Nat.ltb_spec k (S j)); lia. }
    split; [rewrite length_app, length_map; lia|].
    apply Forall_app. split; [exact Hm|].
    apply Forall_forall. intros m Hin. apply list_elem_of_In in Hin.
    apply in_map_iff in Hin as (p & <- & Hin). simpl. split; [exact Hview|].
    eapply Forall_forall in Hrange; [|apply list_elem_of_In; exact Hin]. lia.
  - reflexivity.
  - simpl. split; [apply same_params_refl|]. split.
    { apply Forall_Forall2_diag, Forall_forall. intros; apply same_core_refl. }
    split; [lia|]. split; [lia|]. split.
    { intros k a a' Ha Ha'. rewrite Ha in Ha'. injection Ha' as <-. lia. }
    split; [simpl; lia|]. constructor.
  - simpl in *. destruct HP as (_ & HF & Ht & Hs & Hsent & Hrm & Hm).
    exists s, rm, w'. split; [exact Hrun|].
    split; [exact Ht|]. split; [exact Hs|]. split; [|split; assumption].
    apply Forall2_same_length_lookup_2; [eapply Forall2_length; eauto|].
    intros k a a' Ha Ha'. unfold sent_plus. rewrite (Hsent k a a' Ha Ha').
    apply lookup_lt_Some in Ha.
    destruct (Nat.ltb_spec k (length (agents self))); lia.
Qed.

(** *** Phase 2 *)

Lemma foldM_ind {A B : Type} (f : B -> A -> M (World E) B) (P : B -> Prop) l :
  (forall b a w b' w', P b -> In a l -> f b a w = Ok (b', w') -> P b') ->
  forall b w b' w', P b -> foldM f l b w = Ok (b', w') -> P b'.
Proof.
  induction l as [|a l IH]; intros Hstep b w b' w' HP H.
  - injection H as <- <-. exact HP.
  - cbn [foldM] in H. apply bind_Ok in H as (b1 & w1 & Hf & H).
    apply (IH (fun b a w b' w' HP Hin => Hstep b a w b' w' HP (or_intror Hin))
              b1 w1 b' w'); [|exact H].
    eapply Hstep; [exact HP|left; reflexivity|exact Hf].
Qed.

Lemma foldM_total {A B : Type} (f : B -> A -> M (World E) B) (P : B -> Prop) l :
  (forall b a w,
      P b -> In a l -> exists b' w', f b a w = Ok (b', w') /\ P b') ->
  forall b w, P b -> exists b' w', foldM f l b w = Ok (b', w') /\ P b'.
Proof.
  induction l as [|a l IH]; intros Hstep b w HP.
  - exists b, w. auto.
  - destruct (Hstep b a w HP (or_introl eq_refl)) as (b1 & w1 & Hf & HP1).
    cbn [foldM]. rewrite (bind_run _ _ _ _ _ Hf).
    apply IH; [|exact HP1]. intros; apply Hstep; auto. right; auto.
Qed.

Lemma adopts_refl L a : adopts L a a.
Proof. unfold adopts. auto. Qed.

Lemma adopts_trans L a b c : adopts L a b -> adopts L b c -> adopts L a c.
Proof.
  unfold adopts, is_byzantine.
  intros (Hi1 & Ht1 & H1) (Hi2 & Ht2 & H2).
  split; [congruence|]. split; [congruence|].
  destruct H2 as [H2|(t & Hb & H2)].
  - rewrite H2. exact H1.
  - right. exists t. rewrite <- Ht1. auto.
Qed.

Lemma same_core_adopts L a b : same_core a b -> adopts L a b.
Proof. unfold same_core, adopts. tauto. Qed.

(** One delivery: the receiver is the agent at some position, and the
    network changes there only, by the update rule. *)
Lemma deliver_Ok self m w self' w' :
  deliver E self m w = Ok (self', w') ->
  exists i r0 r1,
    agents self !! i = Some r0 /\
    agents self' = <[i := r1]> (agents self) /\
    adopts (ledger_view self) r0 r1 /\
    messages_sent r1 = messages_sent r0 /\
    round_frame self self' /\
    round_num self' = round_num self /\
    convergence_round self' = convergence_round self /\
    total_messages self' = total_messages self.
Proof.
  unfold deliver. intros H.
  apply bind_Ok in H as ([i r0] & w1 & Hget & H).
  apply lift_result_Ok in Hget as [Hget Hw]. simpl in Hget, Hw. subst w1.
  apply py_getitem_Ok in Hget.
  apply bind_Ok in H as ([r1 self1] & w2 & Hh & H).
  injection H as <- <-.
  exists i, r0, r1. split; [exact Hget|].
  apply handle_summary_cases in Hh.
  destruct Hh as [(-> & -> & ->)|(Hb & -> & -> & ->)]; simpl.
  - split; [reflexivity|]. split; [unfold adopts; simpl; auto|].
    split; [reflexivity|]. unfold round_frame; simpl; tauto.
  - split; [reflexivity|]. split.
    + unfold adopts. simpl. split; [reflexivity|]. split; [reflexivity|].
      right. eexists. split; [exact Hb|reflexivity].
    + split; [reflexivity|]. unfold round_frame; simpl; tauto.
Qed.

Lemma handle_summary_total self r m w :
  (is_byzantine r = false -> local_view r <> None /\ view m <> None) ->
  exists r' self' w', _handle_summary E self r m w = Ok ((r', self'), w').
Proof.
  intros H. unfold _handle_summary.
  change (is_byzantine (set_messages_received r (messages_received r + 1)))
    with (is_byzantine r).
  destruct (is_byzantine r); [unfold ret; eauto|].
  destruct H as [Hl Hv]; [reflexivity|].
  destruct (view m) as [sv|]; [|contradiction]. simpl.
  destruct (local_view r) as [lv|]; [|contradiction].
  unfold bind at 1 2. simpl.
  destruct (version sv >? version lv).
  - rewrite query_ledger_run. eauto.
  - destruct (version sv =? version lv); [|unfold ret; eauto].
    destruct (negb _); [rewrite query_ledger_run|unfold ret]; eauto.
Qed.

Lemma deliver_total self m w :
  0 <= receiver m < Z.of_nat (length (agents self)) ->
  view m <> None ->
  Forall (fun a => local_view a <> None) (agents self) ->
  exists self' w', deliver E self m w = Ok (self', w').
Proof.
  intros Hr Hv Hviews. unfold deliver.
  destruct (py_getitem_run (agents self) (receiver m) Hr) as (r0 & Hl & Hget).
  rewrite Hget. unfold lift_result, bind at 1.
  destruct (handle_summary_total self r0 m w) as (r1 & self1 & w1 & Hh).
  { intros _. split; [|exact Hv]. eapply Forall_lookup_1 in Hviews; eauto. }
  rewrite (bind_run _ _ _ _ _ Hh). unfold ret. eauto.
Qed.

Lemma phase2_inv_refl self : phase2_inv self self.
Proof.
  unfold phase2_inv, round_frame. repeat split.
  apply Forall_Forall2_diag, Forall_forall. intros; apply adopts_refl.
Qed.

Lemma phase2_inv_step self s m w s' w' :
  phase2_inv self s -> deliver E s m w = Ok (s', w') -> phase2_inv self s'.
Proof.
  intros (Hf & Hr & Hc & Ht & HF) Hd.
  apply deliver_Ok in Hd
    as (i & r0 & r1 & Hi & Ha & Had & _ & Hf' & Hr' & Hc' & Ht').
  unfold phase2_inv, round_frame in *.
  destruct Hf as (? & ? & ? & ? & HL), Hf' as (? & ? & ? & ? & ?).
  repeat split; try congruence.
  rewrite Ha. apply Forall2_insert_r; [exact HF|]. intros x Hx.
  destruct (Forall2_lookup_lr _ _ _ _ _ _ HF Hx Hi) as (? & ? & ?).
  eapply adopts_trans; [|rewrite <- HL; exact Had].
  unfold adopts; auto.
Qed.

Lemma phase2_Ok self msgs w s w' :
  phase2 E self msgs w = Ok (s, w') -> phase2_inv self s.
Proof.
  unfold phase2. intros H.
  eapply (foldM_ind (deliver E) (phase2_inv self)); [| |exact H].
  - intros b a w0 b' w0' HP _ Hd. eapply phase2_inv_step; eauto.
  - apply phase2_inv_refl.
Qed.

Lemma adopts_keeps_views L l l' :
  Forall2 (adopts L) l l' ->
  Forall (fun a => local_view a <> None) l ->
  Forall (fun a => local_view a <> None) l'.
Proof.
  induction 1 as [|a a' l l' Ha _ IH]; intros HF; [constructor|].
  apply Forall_cons in HF as [Hv HF]. constructor; [|auto].
  destruct Ha as (_ & _ & [->|(t & _ & ->)]); [exact Hv|discriminate].
Qed.

Lemma phase2_total self msgs w :
  Forall (fun a => local_view a <> None) (agents self) ->
  Forall (fun m => view m <> None /\
                   0 <= receiver m < Z.of_nat (length (agents self))) msgs ->
  exists s w', phase2 E self msgs w = Ok (s, w').
Proof.
  intros Hviews Hmsgs. unfold phase2.
  destruct (foldM_total (deliver E) (phase2_inv self) msgs)
    with (b := self) (w := w)
    as (s & w' & H & _); [| apply phase2_inv_refl | eauto].
  intros b m w0 HP Hin.
  eapply Forall_forall in Hmsgs; [|apply list_elem_of_In; exact Hin].
  destruct Hmsgs as [Hv Hr].
  destruct HP as (Hf & Hr' & Hc & Ht & HF).
  destruct (deliver_total b m w0) as (b' & w1 & Hd).
  - apply Forall2_length in HF. lia.
  - exact Hv.
  - eapply adopts_keeps_views; eauto.
  - exists b', w1. split; [exact Hd|].
    eapply phase2_inv_step; [|exact Hd].
    unfold phase2_inv; auto.
Qed.

Lemma phase2_sum_sent self msgs w s w' :
  phase2 E self msgs w = Ok (s, w') ->
  sum_sent (agents s) = sum_sent (agents self).
Proof.
  unfold phase2. intros H.
  eapply (foldM_ind (deliver E)
            (fun s => sum_sent (agents s) = sum_sent (agents self)));
    [| |exact H]; [|reflexivity].
  intros b m w0 b' w0' HP _ Hd.
  apply deliver_Ok in Hd as (i & r0 & r1 & Hi & Ha & _ & Hs & _).
  rewrite Ha, (sum_sent_insert _ _ _ _ Hi). lia.
Qed.

Lemma phase2_sent self msgs w s w' :
  phase2 E self msgs w = Ok (s, w') ->
  Forall2 (sent_plus 0) (agents self) (agents s).
Proof.
  unfold phase2. intros H.
  eapply (foldM_ind (deliver E)
            (fun s => Forall2 (sent_plus 0) (agents self) (agents s)));
    [| |exact H].
  - intros b m w0 b' w0' HP _ Hd.
    apply deliver_Ok in Hd as (i & r0 & r1 & Hi & Ha & _ & Hs & _).
    rewrite Ha. apply Forall2_insert_r; [exact HP|]. intros x Hx.
    pose proof (Forall2_lookup_lr _ _ _ _ _ _ HP Hx Hi) as Hx0.
    unfold sent_plus in *. lia.
  - apply Forall_Forall2_diag, Forall_forall. intros a _.
    unfold sent_plus. lia.
Qed.

(** *** The convergence check *)

Lemma check_convergence_true_iff self :
  fst (check_convergence self) = true <-> honest_at_ledger self.
Proof.
  unfold check_convergence, honest_at_ledger.
  destruct (existsb _ _) eqn:Hex; simpl.
  - split; [discriminate|]. intros HF. exfalso.
    apply existsb_exists in Hex as (a & Hin & Hne).
    apply filter_In in Hin as [Hin Hb].
    eapply Forall_forall in HF; [|apply list_elem_of_In; exact Hin].
    destruct HF as (v & Hv & Heq);
      [destruct (is_byzantine a); auto; discriminate|].
    rewrite Hv in Hne. simpl in Hne. rewrite Heq in Hne. discriminate.
  - split; [intros _|reflexivity].
    apply Forall_forall. intros a Hin Hb. apply list_elem_of_In in Hin.
    apply DIDView_ne_false.
    destruct (DIDView_ne (local_view a) (ledger_view self)) eqn:Hne;
      [|reflexivity].
    assert (existsb
              (fun agent => DIDView_ne (local_view agent) (ledger_view self))
              (List.filter (fun a => negb (is_byzantine a)) (agents self))
            = true).
    { apply existsb_exists. exists a. split; [|exact Hne].
      apply filter_In. rewrite Hb. auto. }
    congruence.
Qed.

(** The check writes the convergence round and nothing else, and writes
    it only when it is unset and the check succeeds. *)
Lemma check_convergence_frame self :
  let '(b, self') := check_convergence self in
  agents self' = agents self /\ round_frame self self' /\
  round_num self' = round_num self /\
  total_messages self' = total_messages self /\
  total_ledger_queries self' = total_ledger_queries self /\
  convergence_round self' =
    if b then
      match convergence_round self with
      | Some c => Some c
      | None => Some (round_num self)
      end
    else convergence_round self.
Proof.
  unfold check_convergence, round_frame.
  destruct (existsb _ _); [tauto|].
  destruct (convergence_round self) eqn:Hc; simpl; tauto.
Qed.

(** *** Whole rounds *)

Lemma run_round_Ok self w b self' w' :
  run_round E self w = Ok ((b, self'), w') ->
  exists s, round_rel self s /\ check_convergence s = (b, self').
Proof.
  unfold run_round. intros H.
  apply bind_Ok in H as ([s2 rm] & w1 & H1 & H).
  apply bind_Ok in H as (s3 & w2 & H2 & H). injection H as H <-.
  exists s3. split; [|exact H].
  apply phase1_frame in H1 as [Hp HF1]. simpl in Hp, HF1.
  apply phase2_Ok in H2 as (Hf & Hr & Hc & _ & HF2).
  destruct Hp as (? & ? & ? & ? & HL & ? & ? & ?).
  destruct Hf as (? & ? & ? & ? & ?).
  unfold round_rel, round_frame. simpl in *.
  repeat split; try congruence.
  rewrite HL in HF2.
  eapply Forall2_trans; [|exact HF1|exact HF2].
  intros a b0 c Hab Hbc. eapply adopts_trans; [|exact Hbc].
  apply same_core_adopts. exact Hab.
Qed.

Lemma round_rel_well_formed self s :
  well_formed self -> round_rel self s -> well_formed s.
Proof.
  intros [Hl Hf Hc Hv] ((Hn & _ & Hfo & _) & _ & _ & HF).
  split.
  - apply Forall2_length in HF. rewrite <- HF, Hn. exact Hl.
  - rewrite Hn, Hfo. exact Hf.
  - rewrite Hn, Hfo. exact Hc.
  - eapply adopts_keeps_views; eauto.
Qed.

Lemma check_convergence_well_formed self :
  well_formed self -> well_formed (snd (check_convergence self)).
Proof.
  intros [Hl Hf Hc Hv]. pose proof (check_convergence_frame self) as H.
  destruct (check_convergence self) as [b s]. simpl.
  destruct H as (Ha & (Hn & _ & Hfo & _) & _).
  split; rewrite ?Ha, ?Hn, ?Hfo; assumption.
Qed.

(** A round of a well-formed network returns, leaves it well-formed, and
    adds [fanout] messages per agent to the total and to the sent
    counters. *)
Lemma run_round_total (HE : EnvOK E) self w :
  well_formed self ->
  exists b self' w',
    run_round E self w = Ok ((b, self'), w') /\
    well_formed self' /\
    total_messages self' =
      total_messages self + fanout self * Z.of_nat (length (agents self)) /\
    sum_sent (agents self') =
      sum_sent (agents self) + fanout self * Z.of_nat (length (agents self)) /\
    Forall2 (sent_plus (fanout self)) (agents self) (agents self').
Proof.
  intros Hwf.
  assert (Hwf1 : well_formed (set_round_num self (round_num self + 1))).
  { destruct Hwf. split; assumption. }
  destruct (phase1_total HE _ w Hwf1)
    as (s2 & rm & w1 & H1 & Ht & Hs & Hsent & _ & Hm).
  simpl in Ht, Hs, Hsent, Hm.
  pose proof (phase1_frame _ _ _ _ _ H1) as [Hp HF1]. simpl in Hp, HF1.
  destruct (phase2_total s2 rm w1) as (s3 & w2 & H2).
  { eapply adopts_keeps_views; [|apply Hwf].
    eapply Forall2_impl; [exact HF1|].
    intros; apply (same_core_adopts (ledger_view self)); auto. }
  { eapply Forall_impl; [exact Hm|]. intros m [Hv Hr]. split; [exact Hv|].
    apply Forall2_length in HF1. rewrite <- HF1, (wf_length _ Hwf).
    destruct (Z.le_gt_cases (n_agents self) 0); lia. }
  destruct (check_convergence s3) as [b self'] eqn:Hcc.
  assert (Hrun : run_round E self w = Ok ((b, self'), w2)).
  { unfold run_round. rewrite (bind_run _ _ _ _ _ H1).
    rewrite (bind_run _ _ _ _ _ H2). unfold ret. rewrite Hcc. reflexivity. }
  exists b, self', w2. split; [exact Hrun|].
  pose proof (phase2_sum_sent _ _ _ _ _ H2) as Hs3.
  pose proof (phase2_sent _ _ _ _ _ H2) as Hsent3.
  pose proof (phase2_Ok _ _ _ _ _ H2) as (_ & _ & _ & Ht3 & _).
  pose proof (check_convergence_frame s3) as Hfr. rewrite Hcc in Hfr.
  destruct Hfr as (Ha & _ & _ & Htm & _).
  split.
  { apply run_round_Ok in Hrun as (s & Hrel & Hcs).
    pose proof (check_convergence_well_formed s
                  (round_rel_well_formed _ _ Hwf Hrel)) as Hw.
    rewrite Hcs in Hw. exact Hw. }
  rewrite Ha, Htm, Ht3, Hs3, Ht, Hs.
  split; [reflexivity|]. split; [reflexivity|].
  eapply Forall2_trans; [|exact Hsent|exact Hsent3].
  unfold sent_plus. intros; lia.
Qed.

End Rounds.

(** ** The constructor *)

Section Constructor.

Context (E : Env).

Lemma Forall2_map_left {A B C : Type} (R : B -> C -> Prop) (g : A -> B) l k :
  Forall2 R (map g l) k -> Forall2 (fun x y => R (g x) y) l k.
Proof.
  revert k. induction l as [|x l IH]; intros k H; inversion H; subst;
    constructor; auto.
Qed.

Lemma initial_view_run did0 a w :
  exists v w',
    initial_view E did0 a w = Ok (set_local_view a (Some v), w') /\
    did v = did0 /\
    (EnvOK E -> is_byzantine a = false -> 5 <= version v <= 9).
Proof.
  unfold initial_view. destruct (is_byzantine a) eqn:Hb.
  - unfold bind, randint, now, lift, ret.
    destruct (random_randint E 5 15 w) as [v w1].
    destruct (time_time E w1) as [t w2].
    eexists _, _. split; [reflexivity|]. split; [reflexivity|].
    intros _ Hf. discriminate.
  - unfold bind, randint, now, uniform, lift, ret.
    destruct (random_randint E 5 9 w) as [v w1] eqn:Hv.
    destruct (time_time E w1) as [t w2].
    destruct (random_uniform E (inject_Z 10) (inject_Z 100) w2) as [u w3].
    eexists _, _. split; [reflexivity|]. split; [reflexivity|].
    intros HE _. simpl.
    pose proof (randint_range E HE 5 9 w) as Hr. rewrite Hv in Hr.
    apply Hr. lia.
Qed.

Lemma initialize_views_run did0 l w :
  exists l' w',
    _initialize_views E did0 l w = Ok (l', w') /\
    Forall2 (initialized E did0) l l'.
Proof.
  unfold _initialize_views.
  assert (H : forall acc w, exists l' w',
    foldM (fun done agent =>
             agent' <- initial_view E did0 agent ;; ret (done ++ [agent']))
          l acc w = Ok (acc ++ l', w') /\
    Forall2 (initialized E did0) l l').
  { clear w. induction l as [|a l IH]; intros acc w.
    - exists [], w. rewrite app_nil_r. split; [reflexivity|constructor].
    - destruct (initial_view_run did0 a w) as (v & w1 & Hrun & Hv).
      destruct (IH (acc ++ [set_local_view a (Some v)]) w1)
        as (l' & w2 & Hrest & HF).
      exists (set_local_view a (Some v) :: l'), w2. split.
      + cbn [foldM]. unfold bind at 1. unfold bind at 1. rewrite Hrun.
        unfold ret at 1. rewrite Hrest, <- app_assoc. reflexivity.
      + constructor; [|exact HF]. exists v. tauto. }
  destruct (H [] w) as (l' & w' & Hrun & HF). exists l', w'. auto.
Qed.

(** What a constructor call that returns has built. *)
Lemma init_Ok n f fanout0 did0 w net w' :
  __init__ E n f fanout0 did0 w = Ok (net, w') ->
  exists ids w1,
    random_sample E (py_range n) f w = Ok (ids, w1) /\
    n_agents net = n /\ f_byzantine net = f /\
    fanout net = Z.min fanout0 (n - 1) /\ net_did net = did0 /\
    round_num net = 0 /\ total_messages net = 0 /\
    total_ledger_queries net = 0 /\ convergence_round net = None /\
    version (ledger_view net) = 10 /\
    Forall2 (fun i a' =>
               initialized E did0
                 (new_Agent i (if existsb (Z.eqb i) ids
                               then BYZANTINE else HONEST)) a')
            (py_range n) (agents net).
Proof.
  unfold __init__. intros H.
  apply bind_Ok in H as (ids & w1 & Hs & H).
  apply bind_Ok in H as (t & w2 & Ht & H).
  apply bind_Ok in H as (l' & w3 & Hi & H).
  injection H as <- <-. exists ids, w1. split; [exact Hs|]. simpl.
  repeat (split; [reflexivity|]).
  destruct (initialize_views_run did0
              (map (fun i => new_Agent i (if existsb (Z.eqb i) ids
                                          then BYZANTINE else HONEST))
                   (py_range n)) w2) as (l'' & w4 & Hrun & HF).
  rewrite Hrun in Hi. injection Hi as <- <-.
  apply Forall2_map_left in HF. exact HF.
Qed.

Lemma init_total (HE : EnvOK E) n f fanout0 did0 w :
  0 <= f <= n ->
  exists net w', __init__ E n f fanout0 did0 w = Ok (net, w').
Proof.
  intros Hf. unfold __init__.
  destruct (sample_ok E HE (py_range n) f w) as (ids & w1 & Hs & _).
  { rewrite py_range_length. lia. }
  unfold sample. rewrite (bind_run _ _ _ _ _ Hs).
  unfold now, lift, bind at 1. destruct (time_time E w1) as [t w2].
  destruct (initialize_views_run did0
              (map (fun i => new_Agent i (if existsb (Z.eqb i) ids
                                          then BYZANTINE else HONEST))
                   (py_range n)) w2) as (l' & w3 & Hrun & _).
  rewrite (bind_run _ _ _ _ _ Hrun). unfold ret. eauto.
Qed.

Lemma init_well_formed n f fanout0 did0 w net w' :
  __init__ E n f fanout0 did0 w = Ok (net, w') ->
  n <= 0 \/ 0 <= fanout0 ->
  well_formed net /\ sum_sent (agents net) = 0.
Proof.
  intros H Hfan.
  apply init_Ok in H
    as (ids & w1 & _ & Hn & _ & Hfo & _ & _ & _ & _ & _ & _ & HF).
  split; [split|].
  - apply Forall2_length in HF. rewrite <- HF, py_range_length, Hn.
    reflexivity.
  - rewrite Hn, Hfo. lia.
  - rewrite Hn, Hfo. lia.
  - eapply Forall2_Forall_r; [exact HF|].
    apply Forall_forall. intros i _ a (v & -> & _). discriminate.
  - unfold sum_sent. clear -HF. induction HF as [|i a l l' (v & -> & _) _ IH].
    + reflexivity.
    + cbn [map]. rewrite py_sum_cons, IH. reflexivity.
Qed.

End Constructor.

(** ** Sessions *)

Section Sessions.

Context (E : Env).

Lemma adopts_dichotomy L a a' :
  adopts L a a' ->
  local_view a' = local_view a \/
  exists v, local_view a' = Some v /\ __eq__ v L = true.
Proof.
  intros (_ & _ & [H|(t & _ & H)]); [left; exact H|right].
  eexists. split; [exact H|]. apply DIDView_eq_iff. simpl. auto.
Qed.

Lemma round_rel_honest_at_ledger self s :
  round_rel self s -> honest_at_ledger self -> honest_at_ledger s.
Proof.
  intros ((_ & _ & _ & _ & HL) & _ & _ & HF) Hh.
  unfold honest_at_ledger in *. rewrite HL.
  apply Forall_lookup_2. intros i a' Ha' Hb.
  destruct (Forall2_lookup_r _ _ _ _ _ HF Ha') as (a & Ha & Had).
  pose proof (Forall_lookup_1 _ _ _ _ Hh Ha) as Hv.
  destruct Had as (Hid & Hty & Hlv).
  assert (Hba : is_byzantine a = false).
  { unfold is_byzantine in *. rewrite <- Hty. exact Hb. }
  destruct (adopts_dichotomy (ledger_view self) a a') as [->|H].
  - unfold adopts. auto.
  - auto.
  - exact H.
Qed.

(** What the check at the end of a round does to the convergence round. *)
Lemma run_round_conv self w b self' w' :
  run_round E self w = Ok ((b, self'), w') ->
  round_num self' = round_num self + 1 /\
  (b = true <-> honest_at_ledger self') /\
  (honest_at_ledger self -> b = true) /\
  convergence_round self' =
    match convergence_round self with
    | Some c => Some c
    | None => if b then Some (round_num self + 1) else None
    end.
Proof.
  intros H. apply run_round_Ok in H as (s & Hrel & Hcc).
  pose proof (check_convergence_true_iff s) as Hiff.
  pose proof (check_convergence_frame s) as Hfr.
  rewrite Hcc in Hiff, Hfr. simpl in Hiff.
  destruct Hfr as (Ha & (_ & _ & _ & _ & HL) & Hr & _ & _ & Hc).
  pose proof Hrel as (_ & Hrn & Hcr & _).
  split; [lia|]. split; [|split].
  - unfold honest_at_ledger in *. rewrite Ha, HL. exact Hiff.
  - intros Hh. apply Hiff. eapply round_rel_honest_at_ledger; eauto.
  - rewrite Hc, Hcr, Hrn. destruct b, (convergence_round self); reflexivity.
Qed.

(** On a network whose honest agents all hold the ledger's view, a round
    returns, reports convergence, and leaves them holding it. *)
Lemma run_round_converged (HE : EnvOK E) self w :
  well_formed self -> honest_at_ledger self ->
  exists self' w',
    run_round E self w = Ok ((true, self'), w') /\
    well_formed self' /\ honest_at_ledger self' /\
    convergence_round self' <> None.
Proof.
  intros Hwf Hh.
  destruct (run_round_total E HE self w Hwf)
    as (b & self' & w' & Hrun & Hwf' & _).
  pose proof (run_round_conv _ _ _ _ _ Hrun) as (_ & Hiff & Hb & Hc).
  rewrite (Hb Hh) in *. exists self', w'.
  split; [exact Hrun|]. split; [exact Hwf'|]. split; [apply Hiff; reflexivity|].
  rewrite Hc. destruct (convergence_round self); discriminate.
Qed.

Lemma run_round_conv_inv self w b self' w' :
  run_round E self w = Ok ((b, self'), w') ->
  conv_inv self -> conv_inv self'.
Proof.
  intros Hrun Hinv Hc'.
  pose proof (run_round_conv _ _ _ _ _ Hrun) as (_ & Hiff & Hb & Hc).
  apply Hiff. destruct (convergence_round self) eqn:Hcs.
  - apply Hb, Hinv. congruence.
  - destruct b; [reflexivity|]. congruence.
Qed.

(** C2. Whatever messages are delivered, and so after every round, an
    honest agent's local view is the view it held before or a view equal
    to the ledger's under [DIDView.__eq__]: it never takes over a view a
    message carried. *)
Theorem conservative_adoption (HE : EnvOK E) self w :
  well_formed self ->
  (exists b self' w',
     run_round E self w = Ok ((b, self'), w') /\
     forall i a,
       agents self !! i = Some a -> is_byzantine a = false ->
       exists a',
         agents self' !! i = Some a' /\ is_byzantine a' = false /\
         (local_view a' = local_view a \/
          exists v, local_view a' = Some v /\
                    __eq__ v (ledger_view self) = true)) /\
  (forall msgs w0 s w1,
     phase2 E self msgs w0 = Ok (s, w1) ->
     forall i a,
       agents self !! i = Some a -> is_byzantine a = false ->
       exists a',
         agents s !! i = Some a' /\ is_byzantine a' = false /\
         (local_view a' = local_view a \/
          exists v, local_view a' = Some v /\
                    __eq__ v (ledger_view self) = true)).
Proof.
  intros Hwf.
  assert (Hstep : forall l',
    Forall2 (adopts (ledger_view self)) (agents self) l' ->
    forall i a, agents self !! i = Some a -> is_byzantine a = false ->
    exists a', l' !! i = Some a' /\ is_byzantine a' = false /\
      (local_view a' = local_view a \/
       exists v, local_view a' = Some v /\
                 __eq__ v (ledger_view self) = true)).
  { intros l' HF i a Ha Hb.
    destruct (Forall2_lookup_l _ _ _ _ _ HF Ha) as (a' & Ha' & Had).
    exists a'. split; [exact Ha'|]. split.
    - destruct Had as (_ & Hty & _). unfold is_byzantine in *.
      rewrite Hty. exact Hb.
    - apply adopts_dichotomy. exact Had. }
  split.
  - destruct (run_round_total E HE self w Hwf) as (b & self' & w' & Hrun & _).
    exists b, self', w'. split; [exact Hrun|].
    apply run_round_Ok in Hrun as (s & (_ & _ & _ & HF) & Hcc).
    pose proof (check_convergence_frame s) as Hfr. rewrite Hcc in Hfr.
    destruct Hfr as (Ha & _). rewrite Ha. apply Hstep. exact HF.
  - intros msgs w0 s w1 H2.
    apply phase2_Ok in H2 as (_ & _ & _ & _ & HF). apply Hstep. exact HF.
Qed.

(** C8. A round started with every honest agent at the ledger's view
    returns [True], keeps the convergence round set, and leaves every
    honest agent with a view equal, under [DIDView.__eq__], to the one it
    had: the very same view, or the ledger's view under a new time
    stamp. *)
Theorem idempotent_convergence (HE : EnvOK E) self w :
  well_formed self -> honest_at_ledger self ->
  exists self' w',
    run_round E self w = Ok ((true, self'), w') /\
    honest_at_ledger self' /\
    convergence_round self' <> None /\
    forall i a,
      agents self !! i = Some a -> is_byzantine a = false ->
      exists a' v v',
        agents self' !! i = Some a' /\
        local_view a = Some v /\ local_view a' = Some v' /\
        __eq__ v' v = true /\
        (v' = v \/ exists t, v' = restamp (ledger_view self) t).
Proof.
  intros Hwf Hh.
  destruct (run_round_converged HE self w Hwf Hh)
    as (self' & w' & Hrun & _ & Hh' & Hc).
  exists self', w'. split; [exact Hrun|]. split; [exact Hh'|].
  split; [exact Hc|]. intros i a Ha Hb.
  apply run_round_Ok in Hrun as (s & ((_ & _ & _ & _ & HL) & _ & _ & HF) & Hcc).
  pose proof (check_convergence_frame s) as Hfr. rewrite Hcc in Hfr.
  destruct Hfr as (Hag & (_ & _ & _ & _ & HL') & _).
  destruct (Forall2_lookup_l _ _ _ _ _ HF Ha) as (a' & Ha' & Had).
  pose proof (Forall_lookup_1 _ _ _ _ Hh Ha Hb) as (v & Hv & Hev).
  assert (Hb' : is_byzantine a' = false).
  { destruct Had as (_ & Hty & _). unfold is_byzantine in *.
    rewrite Hty. exact Hb. }
  rewrite <- Hag in Ha'.
  pose proof (Forall_lookup_1 _ _ _ _ Hh' Ha' Hb') as (v' & Hv' & Hev').
  exists a', v, v'. repeat split; try assumption.
  - rewrite HL', HL in Hev'.
    apply DIDView_eq_iff in Hev as (? & ? & ?).
    apply DIDView_eq_iff in Hev' as (? & ? & ?).
    apply DIDView_eq_iff. repeat split; congruence.
  - rewrite Hag in Ha'. clear Hev'.
    destruct Had as (_ & _ & [Hsame|(t & _ & Hcopy)]).
    + left. congruence.
    + right. exists t. unfold restamp. congruence.
Qed.



Lemma run_rounds_S r self w c w1 rest w2 :
  run_round E self w = Ok (c, w1) ->
  run_rounds E r (snd c) w1 = Ok (rest, w2) ->
  run_rounds E (S r) self w = Ok ((fst c :: fst rest, snd rest), w2).
Proof.
  intros H1 H2. cbn [run_rounds].
  rewrite (bind_run _ _ _ _ _ H1), (bind_run _ _ _ _ _ H2). reflexivity.
Qed.

(** C7. In a session the convergence round is written once, by the first
    round whose check succeeds, with that round's number; it is never
    written again; every round after it reports convergence, and so does
    a check repeated on the network, which leaves the network as it is. *)
Theorem convergence_round_set_once (HE : EnvOK E) self r w :
  well_formed self -> conv_inv self ->
  exists bs self' w' k m,
    run_rounds E r self w = Ok ((bs, self'), w') /\
    bs = replicate k false ++ replicate m true /\
    (k + m)%nat = r /\
    (convergence_round self <> None -> k = 0%nat) /\
    convergence_round self' =
      match convergence_round self with
      | Some c => Some c
      | None =>
          match m with
          | O => None
          | S _ => Some (round_num self + Z.of_nat k + 1)
          end
      end /\
    (convergence_round self' <> None ->
     honest_at_ledger self' /\ check_convergence self' = (true, self')).
Proof.
  revert self w. induction r as [|r IH]; intros self w Hwf Hinv.
  - exists [], self, w, 0%nat, 0%nat. split; [reflexivity|].
    split; [reflexivity|]. split; [reflexivity|]. split; [reflexivity|].
    split; [destruct (convergence_round self); reflexivity|].
    intros Hc. pose proof (Hinv Hc) as Hh. split; [exact Hh|].
    apply check_convergence_true_iff in Hh.
    unfold check_convergence in *. destruct (existsb _ _); [discriminate|].
    destruct (convergence_round self); [reflexivity|contradiction].
  - destruct (run_round_total E HE self w Hwf)
      as (b & s1 & w1 & Hrun & Hwf1 & _).
    pose proof (run_round_conv _ _ _ _ _ Hrun) as (Hrn & _ & Hb & Hc).
    pose proof (run_round_conv_inv _ _ _ _ _ Hrun Hinv) as Hinv1.
    destruct (IH s1 w1 Hwf1 Hinv1)
      as (bs & self' & w' & k & m & Hrest & Hbs & Hkm & Hk & Hc' & Hchk).
    pose proof (run_rounds_S r self w (b, s1) w1 (bs, self') w' Hrun Hrest)
      as Hall. simpl in Hall.
    destruct b.
    + assert (Hk0 : k = 0%nat).
      { apply Hk. rewrite Hc. destruct (convergence_round self); discriminate. }
      subst k. exists (true :: bs), self', w', 0%nat, (S m).
      split; [exact Hall|]. split; [rewrite Hbs; reflexivity|].
      split; [lia|]. split; [reflexivity|]. split; [|exact Hchk].
      rewrite Hc', Hc. destruct (convergence_round self); [reflexivity|].
      f_equal. lia.
    + assert (Hnone : convergence_round self = None).
      { destruct (convergence_round self) eqn:Hcs; [|reflexivity].
        exfalso. assert (false = true); [|discriminate].
        apply Hb, Hinv. congruence. }
      exists (false :: bs), self', w', (S k), m.
      split; [exact Hall|]. split; [rewrite Hbs; reflexivity|].
      split; [lia|]. split; [congruence|]. split; [|exact Hchk].
      rewrite Hc', Hc, Hnone. destruct m; [reflexivity|]. f_equal. lia.
Qed.

(** C5. In a network of [n] agents built with fanout [fanout0], after any
    number [r] of rounds the message total equals the sum of the agents'
    sent counters, and both equal [min fanout0 (n - 1) * n * r]; every
    agent has sent [min fanout0 (n - 1)] messages in each round. *)
Theorem message_accounting (HE : EnvOK E) n f fanout0 did0 w0 net w1 r w :
  0 <= n -> 0 <= fanout0 ->
  __init__ E n f fanout0 did0 w0 = Ok (net, w1) ->
  exists bs net' w',
    run_rounds E r net w = Ok ((bs, net'), w') /\
    round_num net' = Z.of_nat r /\
    total_messages net' = sum_sent (agents net') /\
    total_messages net' = Z.min fanout0 (n - 1) * n * Z.of_nat r /\
    Forall (fun a => messages_sent a = Z.min fanout0 (n - 1) * Z.of_nat r)
           (agents net').
Proof.
  intros Hn Hfan Hinit.
  destruct (init_well_formed E _ _ _ _ _ _ _ Hinit (or_intror Hfan))
    as [Hwf Hsum].
  apply init_Ok in Hinit
    as (ids & w2 & _ & Hna & _ & Hfo & _ & Hr0 & Ht0 & _ & _ & _ & HFinit).
  assert (Hgen : forall r self w,
    well_formed self ->
    exists bs self' w',
      run_rounds E r self w = Ok ((bs, self'), w') /\
      round_num self' = round_num self + Z.of_nat r /\
      total_messages self' =
        total_messages self +
        fanout self * Z.of_nat (length (agents self)) * Z.of_nat r /\
      sum_sent (agents self') =
        sum_sent (agents self) +
        fanout self * Z.of_nat (length (agents self)) * Z.of_nat r /\
      Forall2 (sent_plus (fanout self * Z.of_nat r))
              (agents self) (agents self')).
  { clear - HE. intros r. induction r as [|r IH]; intros self w Hwf.
    - exists [], self, w. split; [reflexivity|].
      split; [lia|]. split; [lia|]. split; [lia|].
      apply Forall_Forall2_diag, Forall_forall. intros a _.
      unfold sent_plus. lia.
    - destruct (run_round_total E HE self w Hwf)
        as (b & s1 & w1 & Hrun & Hwf1 & Ht & Hs & Hsent).
      pose proof (run_round_conv _ _ _ _ _ Hrun) as (Hrn & _).
      pose proof Hrun as Hrel.
      apply run_round_Ok in Hrel
        as (s & ((_ & _ & Hfs & _) & _ & _ & HF) & Hcc).
      pose proof (check_convergence_frame s) as Hfr. rewrite Hcc in Hfr.
      destruct Hfr as (Hag & (_ & _ & Hf1 & _) & _).
      apply Forall2_length in HF. rewrite <- Hag in HF.
      destruct (IH s1 w1 Hwf1)
        as (bs & self' & w' & Hrest & Hr' & Ht' & Hs' & Hsent').
      exists (b :: bs), self', w'.
      split;
        [exact (run_rounds_S r self w (b, s1) w1 (bs, self') w' Hrun Hrest)|].
      split; [lia|].
      split; [rewrite Ht', Ht, Hf1, Hfs, <- HF; lia|].
      split; [rewrite Hs', Hs, Hf1, Hfs, <- HF; lia|].
      eapply Forall2_trans; [|exact Hsent|exact Hsent'].
      unfold sent_plus. intros x y z Hxy Hyz. rewrite Hyz, Hxy, Hf1, Hfs. lia. }
  destruct (Hgen r net w Hwf)
    as (bs & net' & w' & Hrun & Hr & Ht & Hs & Hsent).
  exists bs, net', w'. split; [exact Hrun|].
  split; [lia|].
  rewrite Ht, Hs, Ht0, Hsum, Hfo, (wf_length _ Hwf), Hna.
  rewrite Z2Nat.id by lia.
  split; [lia|]. split; [lia|].
  eapply Forall2_Forall_r; [exact Hsent|].
  eapply Forall2_Forall_r; [exact HFinit|].
  apply Forall_forall. intros i _ a (v & -> & _) a' Ha'.
  unfold sent_plus in Ha'. simpl in Ha'. rewrite Ha', Hfo. lia.
Qed.

Lemma all_byzantine_honest_at_ledger self :
  Forall (fun a => is_byzantine a = true) (agents self) ->
  honest_at_ledger self.
Proof.
  unfold honest_at_ledger. intros H. eapply Forall_impl; [exact H|].
  intros a Hb Hf. congruence.
Qed.

Lemma get_statistics_run self :
  n_agents self <> 0 ->
  exists stats,
    get_statistics self = Ok stats /\
    st_rounds stats = round_num self /\
    st_converged stats =
      match convergence_round self with Some _ => true | None => false end /\
    st_convergence_round stats = convergence_round self /\
    st_total_messages stats = total_messages self /\
    st_total_ledger_queries stats = total_ledger_queries self /\
    st_honest_agents stats =
      Z.of_nat (length (List.filter (fun a => negb (is_byzantine a))
                                    (agents self))).
Proof.
  intros Hn. unfold get_statistics, py_truediv.
  destruct (Z.eqb_spec (n_agents self) 0) as [?|_]; [contradiction|].
  eexists. split; [reflexivity|]. simpl. auto 10.
Qed.

Lemma rounds_until_first k self w self' w' :
  run_round E self w = Ok ((true, self'), w') ->
  rounds_until E (S k) self w = Ok (self', w').
Proof.
  intros H. cbn [rounds_until]. rewrite (bind_run _ _ _ _ _ H). reflexivity.
Qed.

(** C10. With no honest agent the convergence check succeeds vacuously
    and records the current round. The constructor builds such a network
    when [f_byzantine = n_agents], and a trial on it stops after its first
    round with [converged = True] and convergence round 1. *)
Theorem empty_honest_set_converges (HE : EnvOK E) n fanout0 did0 max_rounds w :
  0 < n -> 0 <= fanout0 -> 0 < max_rounds ->
  (forall self,
     List.filter (fun a => negb (is_byzantine a)) (agents self) = [] ->
     fst (check_convergence self) = true /\
     (convergence_round self = None ->
      convergence_round (snd (check_convergence self)) =
        Some (round_num self))) /\
  exists net w1 stats net' w2,
    __init__ E n n fanout0 did0 w = Ok (net, w1) /\
    List.filter (fun a => negb (is_byzantine a)) (agents net) = [] /\
    run_until_convergence E net max_rounds w1 = Ok ((stats, net'), w2) /\
    st_honest_agents stats = 0 /\
    st_rounds stats = 1 /\
    st_converged stats = true /\
    st_convergence_round stats = Some 1.
Proof.
  intros Hn Hfan Hmax. split.
  { intros self Hnil. unfold check_convergence. rewrite Hnil. simpl.
    split; [reflexivity|]. intros ->. reflexivity. }
  destruct (init_total E HE n n fanout0 did0 w) as (net & w1 & Hinit); [lia|].
  destruct (init_well_formed E _ _ _ _ _ _ _ Hinit (or_intror Hfan))
    as [Hwf _].
  pose proof Hinit as Hi.
  apply init_Ok in Hi
    as (ids & w0 & Hs & Hna & _ & _ & _ & Hr0 & _ & _ & Hc0 & _ & HF).
  assert (Hbyz : Forall (fun a => is_byzantine a = true) (agents net)).
  { destruct (sample_ok E HE (py_range n) n w)
      as (ids' & w0' & Hs' & Hlen & rest & Hperm).
    { rewrite py_range_length. lia. }
    rewrite Hs' in Hs. injection Hs as -> ->.
    assert (rest = []) as ->.
    { apply Permutation_length in Hperm.
      rewrite length_app, py_range_length in Hperm.
      destruct rest; [reflexivity|simpl in Hperm; lia]. }
    rewrite app_nil_r in Hperm.
    eapply Forall2_Forall_r; [exact HF|].
    apply Forall_forall. intros i Hi a (v & -> & _).
    apply list_elem_of_In in Hi.
    assert (Hex : existsb (Z.eqb i) ids = true).
    { apply existsb_exists. exists i. split; [|apply Z.eqb_refl].
      eapply Permutation_in; [symmetry; exact Hperm|exact Hi]. }
    unfold is_byzantine. simpl. rewrite Hex. reflexivity. }
  assert (Hnil :
    List.filter (fun a => negb (is_byzantine a)) (agents net) = []).
  { clear -Hbyz. induction Hbyz as [|a l Ha _ IH]; [reflexivity|].
    simpl. rewrite Ha. exact IH. }
  destruct (run_round_converged HE net w1 Hwf
              (all_byzantine_honest_at_ledger net Hbyz))
    as (net' & w2 & Hrun & _ & _ & _).
  pose proof (run_round_conv _ _ _ _ _ Hrun) as (Hrn & _ & _ & Hc).
  rewrite Hc0 in Hc. rewrite Hr0 in Hrn, Hc. simpl in Hrn, Hc.
  assert (Hfilter :
    List.filter (fun a => negb (is_byzantine a)) (agents net') = []).
  { pose proof Hrun as Hrel.
    apply run_round_Ok in Hrel as (s & (_ & _ & _ & HF') & Hcc).
    pose proof (check_convergence_frame s) as Hfr. rewrite Hcc in Hfr.
    destruct Hfr as (Hag & _). rewrite Hag.
    assert (Hb' : Forall (fun a => is_byzantine a = true) (agents s)).
    { eapply Forall2_Forall_r; [exact HF'|].
      eapply Forall_impl; [exact Hbyz|].
      intros a Ha a' (_ & Hty & _). unfold is_byzantine in *.
      rewrite Hty. exact Ha. }
    clear -Hb'. induction Hb' as [|a l Ha _ IH]; [reflexivity|].
    simpl. rewrite Ha. exact IH. }
  assert (Hnz : n_agents net' <> 0).
  { pose proof Hrun as Hrel.
    apply run_round_Ok in Hrel as (s & ((Hns & _) & _) & Hcc).
    pose proof (check_convergence_frame s) as Hfr. rewrite Hcc in Hfr.
    destruct Hfr as (_ & (Hn' & _) & _). lia. }
  destruct (get_statistics_run net' Hnz)
    as (stats & Hst & Hsr & Hsc & Hscr & _ & _ & Hsh).
  exists net, w1, stats, net', w2.
  split; [exact Hinit|]. split; [exact Hnil|]. split.
  - unfold run_until_convergence.
    destruct (Z.to_nat max_rounds) as [|k] eqn:Hk; [lia|].
    rewrite (bind_run _ _ _ _ _ (rounds_until_first k _ _ _ _ Hrun)).
    unfold bind, lift_result. rewrite Hst. reflexivity.
  - rewrite Hsh, Hfilter, Hsr, Hsc, Hscr, Hc, Hrn. auto.
Qed.

End Sessions.

(** ** Time stamps *)

Section Timestamps.

Context (E : Env).

Lemma DIDView_eq_compat a a' b b' :
  __eq__ a a' = true -> __eq__ b b' = true ->
  __eq__ a b = __eq__ a' b'.
Proof.
  intros Ha Hb. apply DIDView_eq_iff in Ha as (? & ? & ?).
  apply DIDView_eq_iff in Hb as (? & ? & ?).
  apply Bool.eq_iff_eq_true. rewrite !DIDView_eq_iff.
  split; intros (? & ? & ?); repeat split; congruence.
Qed.

Lemma DIDView_ne_compat o o' L L' :
  oview_sim o o' -> __eq__ L L' = true ->
  DIDView_ne o L = DIDView_ne o' L'.
Proof.
  destruct o as [a|], o' as [a'|]; simpl; try contradiction; [|reflexivity].
  intros Ha HL. f_equal. apply DIDView_eq_compat; assumption.
Qed.

Lemma check_convergence_sim s s' :
  net_sim s s' -> fst (check_convergence s) = fst (check_convergence s').
Proof.
  intros (_ & _ & _ & _ & HF & HL & _).
  unfold check_convergence.
  assert (Hex :
    existsb (fun agent => DIDView_ne (local_view agent) (ledger_view s))
      (List.filter (fun a => negb (is_byzantine a)) (agents s)) =
    existsb (fun agent => DIDView_ne (local_view agent) (ledger_view s'))
      (List.filter (fun a => negb (is_byzantine a)) (agents s'))).
  { induction HF as [|a a' l l' Ha _ IH]; [reflexivity|].
    destruct Ha as (_ & Hty & Hv & _).
    assert (Hb : is_byzantine a = is_byzantine a')
      by (unfold is_byzantine; rewrite Hty; reflexivity).
    cbn [List.filter]. rewrite Hb.
    destruct (is_byzantine a'); simpl; [exact IH|].
    rewrite IH. f_equal. apply DIDView_ne_compat; assumption. }
  rewrite Hex. clear Hex. destruct (existsb _ _); reflexivity.
Qed.

Lemma handle_summary_sim self self' r r' m m' w :
  net_sim self self' -> agent_sim r r' -> msg_sim m m' ->
  match _handle_summary E self r m w, _handle_summary E self' r' m' w with
  | Ok ((r1, s1), w1), Ok ((r1', s1'), w1') =>
      agent_sim r1 r1' /\ net_sim s1 s1' /\ w1 = w1'
  | Raise e, Raise e' => e = e'
  | _, _ => False
  end.
Proof.
  intros Hn Hr Hm.
  pose proof Hn as (? & ? & ? & ? & ? & HL & ? & ? & ? & ?).
  pose proof Hr as (? & Hty & Hlv & ? & ? & Hrec & Hq).
  pose proof Hm as (_ & _ & _ & Hv & _).
  assert (Hrecv : agent_sim (set_messages_received r (messages_received r + 1))
                    (set_messages_received r' (messages_received r' + 1))).
  { unfold agent_sim in *. simpl. rewrite Hrec. tauto. }
  assert (Hquery :
    agent_sim
      (set_local_view
         (set_ledger_queries
            (set_messages_received r (messages_received r + 1))
            (ledger_queries r + 1))
         (Some (ledger_copy self (fst (time_time E w)))))
      (set_local_view
         (set_ledger_queries
            (set_messages_received r' (messages_received r' + 1))
            (ledger_queries r' + 1))
         (Some (ledger_copy self' (fst (time_time E w))))) /\
    net_sim (set_total_ledger_queries self (total_ledger_queries self + 1))
            (set_total_ledger_queries self' (total_ledger_queries self' + 1))).
  { unfold agent_sim, net_sim in *. simpl. rewrite Hrec, Hq.
    pose proof HL as HL'. apply DIDView_eq_iff in HL' as (? & ? & ?).
    repeat split; try assumption; congruence. }
  unfold _handle_summary.
  change (is_byzantine (set_messages_received r (messages_received r + 1)))
    with (is_byzantine r).
  change (is_byzantine (set_messages_received r' (messages_received r' + 1)))
    with (is_byzantine r').
  unfold is_byzantine. rewrite Hty.
  destruct (agent_type r'); [|unfold ret; auto].
  destruct (view m) as [sv|], (view m') as [sv'|]; simpl in Hv;
    try contradiction; [|reflexivity].
  simpl.
  destruct (local_view r) as [lv|], (local_view r') as [lv'|]; simpl in Hlv;
    try contradiction; [|reflexivity].
  unfold bind at 1 2 3 4. simpl.
  apply DIDView_eq_iff in Hv as (_ & Hver & Hhash).
  apply DIDView_eq_iff in Hlv as (_ & Hver' & Hhash').
  rewrite Hver, Hver', Hhash, Hhash'.
  destruct (version sv' >? version lv').
  - rewrite !query_ledger_run. tauto.
  - destruct (version sv' =? version lv'); [|unfold ret; auto].
    destruct (negb _); [rewrite !query_ledger_run; tauto|unfold ret; auto].
Qed.

(** C6. Two views are equal exactly when subject, version and digest
    agree; re-stamping either side changes nothing; and neither the
    convergence check nor the outcome of [_handle_summary] (which detects
    same-version conflicts) depends on any time stamp held in the views,
    the agents, the messages or the ledger. *)
Theorem timestamp_is_provenance_only :
  (forall a b : DIDView,
     __eq__ a b = true <->
     did a = did b /\ version a = version b /\ doc_hash a = doc_hash b) /\
  (forall (a b : DIDView) (t t' : Q),
     __eq__ (restamp a t) (restamp b t') = __eq__ a b) /\
  (forall s s' : BFTMVDIDNetwork,
     net_sim s s' ->
     fst (check_convergence s) = fst (check_convergence s')) /\
  (forall self self' r r' m m' (w : World E),
     net_sim self self' -> agent_sim r r' -> msg_sim m m' ->
     match _handle_summary E self r m w, _handle_summary E self' r' m' w with
     | Ok ((r1, s1), w1), Ok ((r1', s1'), w1') =>
         agent_sim r1 r1' /\ net_sim s1 s1' /\ w1 = w1'
     | Raise e, Raise e' => e = e'
     | _, _ => False
     end).
Proof.
  split; [exact DIDView_eq_iff|]. split; [reflexivity|].
  split; [exact check_convergence_sim|exact handle_summary_sim].
Qed.

End Timestamps.

(** ** What the messages of a round carry *)

Section Emission.

Context (E : Env).

Lemma distinct_ids (l : list Agent) i j a b :
  List.NoDup (map agent_id l) ->
  l !! i = Some a -> l !! j = Some b -> agent_id a = agent_id b -> i = j.
Proof.
  revert i j. induction l as [|x l IH]; intros i j Hnd Hi Hj Hid;
    [discriminate|].
  cbn [map] in Hnd. apply NoDup_cons_iff in Hnd as [Hnin Hnd].
  assert (Hin : forall k c,
             l !! k = Some c -> In (agent_id c) (map agent_id l)).
  { intros k c Hk. apply in_map, list_elem_of_In.
    eapply list_elem_of_lookup_2; eauto. }
  destruct i as [|i], j as [|j]; simpl in Hi, Hj.
  - reflexivity.
  - injection Hi as ->. exfalso. apply Hnin. rewrite Hid. eauto.
  - injection Hj as ->. exfalso. apply Hnin. rewrite <- Hid. eauto.
  - f_equal. eauto.
Qed.

Lemma byzantine_summary_params s s' a a' w :
  net_did s' = net_did s -> round_num s' = round_num s ->
  agent_id a' = agent_id a ->
  _byzantine_agent_summary E s' a' w = _byzantine_agent_summary E s a w.
Proof.
  intros Hd Hr Hi. unfold _byzantine_agent_summary. rewrite Hd, Hr, Hi.
  reflexivity.
Qed.

(** C3, as the code has it. Within one round all the messages of one
    sender carry one and the same view: a Byzantine agent's messages carry
    the view that one call of [_byzantine_agent_summary] fabricated in
    that round, whatever the peer; an honest sender's messages carry its
    own local view. *)
Theorem one_view_per_sender_per_round self w s rm w' :
  List.NoDup (map agent_id (agents self)) ->
  phase1 E self w = Ok ((s, rm), w') ->
  (forall m1 m2,
     In m1 rm -> In m2 rm -> sender m1 = sender m2 -> view m1 = view m2) /\
  (forall m,
     In m rm ->
     exists a, In a (agents self) /\ sender m = agent_id a /\
               (is_byzantine a = false -> view m = local_view a) /\
               (is_byzantine a = true ->
                exists w1 msg w2,
                  _byzantine_agent_summary E self a w1 = Ok (msg, w2) /\
                  view m = view msg)).
Proof.
  intros Hnd H. unfold phase1 in H.
  apply (phase1_from_ind E
    (fun j st =>
       same_params self (fst st) /\
       Forall2 same_core (agents self) (agents (fst st)) /\
       (forall m, In m (snd st) ->
          exists k a, (k < j)%nat /\ agents self !! k = Some a /\
                      sender m = agent_id a /\
                      (is_byzantine a = false -> view m = local_view a) /\
                      (is_byzantine a = true ->
                       exists w1 msg w2,
                         _byzantine_agent_summary E self a w1 = Ok (msg, w2) /\
                         view m = view msg)) /\
       (forall m1 m2, In m1 (snd st) -> In m2 (snd st) ->
          sender m1 = sender m2 -> view m1 = view m2)))
    in H; [| |reflexivity|].
  - simpl in H. destruct H as (_ & _ & Hb & Hc). split; [exact Hc|].
    intros m Hm. destruct (Hb m Hm) as (k & a & _ & Ha & Hs & Hv).
    exists a. split; [|auto].
    apply list_elem_of_In. eapply list_elem_of_lookup_2; eauto.
  - intros j a' [s0 rm0] w0 s1 w1 (Hp & HF & Hb & Hc) Ha' He. simpl in *.
    destruct (Forall2_lookup_r _ _ _ _ _ HF Ha') as (a0 & Ha0 & Hcore).
    pose proof Hcore as (Hid & Hty & Hlv & _).
    pose proof Hp as (_ & _ & _ & Hdid & _ & Hrn & _).
    apply emit_Ok in He as (ps & w2 & msg & _ & Hmsg & ->). simpl.
    assert (Hsend :
      sender msg = agent_id a0 /\
      (is_byzantine a0 = false -> view msg = local_view a0) /\
      (is_byzantine a0 = true ->
       exists w3 msg' w4,
         _byzantine_agent_summary E self a0 w3 = Ok (msg', w4) /\
         view msg = view msg')).
    { assert (Hb0 : is_byzantine a' = is_byzantine a0)
        by (unfold is_byzantine; rewrite Hty; reflexivity).
      rewrite Hb0 in Hmsg. destruct (is_byzantine a0).
      - rewrite (byzantine_summary_params self s0 a0 (set_peers a' ps) w2
                   Hdid Hrn Hid) in Hmsg.
        destruct (byzantine_summary_run E self a0 w2) as (v & w3 & Hrun).
        rewrite Hrun in Hmsg. injection Hmsg as <- <-. simpl.
        split; [reflexivity|]. split; [discriminate|]. intros _.
        eexists w2, _, w3. split; [exact Hrun|reflexivity].
      - destruct Hmsg as [-> _]. simpl. split; [exact Hid|].
        split; [intros _; exact Hlv|discriminate]. }
    destruct Hsend as (Hs & Hv & Hfab).
    assert (Hnew : forall m, In m (map (msg_copy msg) ps) ->
                             sender m = agent_id a0 /\ view m = view msg).
    { intros m Hm. apply in_map_iff in Hm as (p & <- & _). simpl. auto. }
    split; [exact Hp|]. split; [|split].
    + apply Forall2_insert_r; [exact HF|]. intros x Hx.
      rewrite Ha0 in Hx. injection Hx as <-. exact Hcore.
    + intros m Hm. apply in_app_or in Hm as [Hm|Hm].
      * destruct (Hb m Hm) as (k & a & Hk & Ha & Hrest).
        exists k, a. split; [lia|]. auto.
      * destruct (Hnew m Hm) as [Hsm Hvm].
        exists j, a0. split; [lia|]. split; [exact Ha0|].
        split; [exact Hsm|]. rewrite Hvm. split; [exact Hv|exact Hfab].
    + intros m1 m2 H1 H2 Heq.
      apply in_app_or in H1 as [H1|H1]; apply in_app_or in H2 as [H2|H2].
      * auto.
      * exfalso. destruct (Hb m1 H1) as (k & a & Hk & Ha & Hsa & _).
        destruct (Hnew m2 H2) as [Hs2 _].
        assert (k = j); [|lia].
        eapply distinct_ids; [exact Hnd|exact Ha|exact Ha0|congruence].
      * exfalso. destruct (Hb m2 H2) as (k & a & Hk & Ha & Hsa & _).
        destruct (Hnew m1 H1) as [Hs1 _].
        assert (k = j); [|lia].
        eapply distinct_ids; [exact Hnd|exact Ha|exact Ha0|congruence].
      * destruct (Hnew m1 H1) as [_ ->]. destruct (Hnew m2 H2) as [_ ->].
        reflexivity.
  - simpl. split; [apply same_params_refl|]. split; [|split].
    + apply Forall_Forall2_diag, Forall_forall. intros; apply same_core_refl.
    + intros m [].
    + intros m1 m2 [].
Qed.

End Emission.

(** C3, as the specification words it, fails on [net3]: the two messages
    the Byzantine agent sends in the first round carry one view, where a
    fabrication per message would give two. *)
Lemma fresh_view_per_message_fails :
  views_emitted (emit TapeEnv 1 byz1 (set_round_num net3 1, []) tape3) =
    [Some {| did := "did:example:123"; version := 19;
             doc_hash := "byzantine_5"; timestamp := inject_Z 1004 |};
     Some {| did := "did:example:123"; version := 19;
             doc_hash := "byzantine_5"; timestamp := inject_Z 1004 |}] /\
  views_emitted
    (emit_fresh_per_message TapeEnv 1 byz1 (set_round_num net3 1, []) tape3) =
    [Some {| did := "did:example:123"; version := 19;
             doc_hash := "byzantine_5"; timestamp := inject_Z 1004 |};
     Some {| did := "did:example:123"; version := 16;
             doc_hash := "byzantine_6"; timestamp := inject_Z 1005 |}] /\
  emit TapeEnv 1 byz1 (set_round_num net3 1, []) tape3 <>
  emit_fresh_per_message TapeEnv 1 byz1 (set_round_num net3 1, []) tape3.
Proof.
  split; [vm_compute; reflexivity|]. split; [vm_compute; reflexivity|].
  intros H. apply (f_equal views_emitted) in H. vm_compute in H.
  discriminate.
Qed.

(** ** The experiment driver *)

Section Driver.

Context (E : Env).

Lemma py_int_floor x : (0 <= x)%Q -> py_int x = Qfloor x.
Proof.
  destruct x as [a b]. unfold Qle, py_int, Qfloor. simpl. intros Ha.
  apply Z.quot_div_nonneg; lia.
Qed.

(** The float [n / 3] compares with an [int] as the exact third does, for
    every [n] a float holds exactly. *)
Lemma round64_third n f :
  - 2 ^ 53 < n < 2 ^ 53 ->
  exists bound,
    round64 (inject_Z n / inject_Z 3) = Some bound /\
    ((bound <= inject_Z f)%Q <-> n <= 3 * f).
Proof.
  intros Hn. unfold round64.
  change (Qnum (inject_Z n / inject_Z 3)) with (n * 1).
  change (Zpos (Qden (inject_Z n / inject_Z 3))) with 3.
  rewrite Z.mul_1_r.
  destruct (Z.eqb_spec (Z.abs n) 0) as [H0|H0].
  { exists 0%Q. split; [reflexivity|].
    unfold Qle, inject_Z. cbn [Qnum Qden]. lia. }
  set (a := Z.abs n) in *.
  assert (Hpos : 0 < a < 2 ^ 53) by lia.
  assert (Hlog : Z.log2 a <= 52).
  { assert (Z.log2 a < 53); [|lia]. apply Z.log2_lt_pow2; lia. }
  change (Z.log2 3) with 1.
  set (l := Z.log2 a - 1).
  set (e0 := if (if 0 <=? l then 3 * 2 ^ l <=? a else 3 <=? a * 2 ^ (- l))
             then l else l - 1).
  assert (He0 : e0 <= 51).
  { unfold e0. destruct (if 0 <=? l then _ else _); lia. }
  set (e := Z.max (e0 - 52) (-1074)).
  assert (He : -1074 <= e <= -1) by lia.
  replace (0 <=? e) with false by (symmetry; lia).
  replace (971 <? e) with false by (symmetry; lia).
  replace (e =? 971) with false by (symmetry; lia).
  cbn [orb andb].
  set (s := 2 ^ (- e)).
  assert (Hs : exists k, s = 2 * k /\ 0 < k).
  { exists (2 ^ (- e - 1)). unfold s.
    replace (- e) with (1 + (- e - 1)) at 1 by lia.
    rewrite Z.pow_add_r by lia. split; [reflexivity|].
    apply Z.pow_pos_nonneg; lia. }
  destruct Hs as (k & Hk & Hk0).
  pose proof (Z.div_mod (a * s) 3 ltac:(lia)) as Hdm.
  pose proof (Z.mod_pos_bound (a * s) 3 ltac:(lia)) as Hr.
  set (m0 := a * s / 3) in *. set (r := (a * s) mod 3) in *.
  eexists. split; [reflexivity|].
  unfold Qle, inject_Z. cbn [Qnum Qden].
  rewrite Z2Pos.id by lia. fold s.
  assert (Hsg : (Z.sgn n = 1 /\ n = a) \/ (Z.sgn n = -1 /\ n = - a)) by lia.
  destruct Hsg as [[-> Hna]|[-> Hna]]; rewrite Hna.
  - destruct (Z.ltb_spec (2 * r) 3) as [Hlt|Hge].
    + split; intros H; nia.
    + destruct (Z.ltb_spec 3 (2 * r)) as [Hgt|Hle]; [|lia].
      split; intros H; nia.
  - destruct (Z.ltb_spec (2 * r) 3) as [Hlt|Hge].
    + split; intros H; nia.
    + destruct (Z.ltb_spec 3 (2 * r)) as [Hgt|Hle]; [|lia].
      split; intros H; nia.
Qed.

Lemma third_Q n f :
  (inject_Z n / inject_Z 3 <= inject_Z f)%Q <-> n <= 3 * f.
Proof. unfold Qle, Qdiv, Qmult, Qinv, inject_Z. simpl. lia. Qed.

(** The computed guard [f >= n / 3] is the exact one. *)
Lemma bft_guard_exact n f bound :
  - 2 ^ 53 < n < 2 ^ 53 ->
  py_truediv64 n 3 = Ok bound ->
  ((bound <= inject_Z f)%Q <-> (inject_Z n / inject_Z 3 <= inject_Z f)%Q).
Proof.
  intros Hn Hb. destruct (round64_third n f Hn) as (b & Hr & Hiff).
  unfold py_truediv64 in Hb. cbn [Z.eqb] in Hb. rewrite Hr in Hb.
  injection Hb as <-. rewrite Hiff. symmetry. apply third_Q.
Qed.

Lemma byzantine_count_Ok n f_ratio f :
  byzantine_count n f_ratio = Ok f ->
  exists a product,
    round64 (inject_Z n) = Some a /\
    round64 (a * f_ratio)%Q = Some product /\
    f = py_int product.
Proof.
  unfold byzantine_count, py_mul_int_float, py_float.
  destruct (round64 (inject_Z n)) as [a|] eqn:Ha; [|discriminate].
  cbn beta iota.
  destruct (round64 (a * f_ratio)%Q) as [product|] eqn:Hp; [|discriminate].
  cbn beta iota. unfold py_int_float. intros [= <-].
  exists a, product. auto.
Qed.

Lemma run_config_skip fanout0 trials n results f_ratio f bound w :
  byzantine_count n f_ratio = Ok f ->
  py_truediv64 n 3 = Ok bound ->
  (bound <= inject_Z f)%Q ->
  run_config E fanout0 trials n results f_ratio w = Ok (results, w).
Proof.
  intros Hf Hb H. unfold run_config, bind, lift_result.
  rewrite Hf, Hb. apply Qle_bool_iff in H. rewrite H. reflexivity.
Qed.

Lemma run_config_count_raises fanout0 trials n results f_ratio e w :
  byzantine_count n f_ratio = Raise e ->
  run_config E fanout0 trials n results f_ratio w = Raise e.
Proof.
  intros Hf. unfold run_config, bind, lift_result. rewrite Hf. reflexivity.
Qed.

Lemma run_config_run fanout0 trials n results f_ratio f bound w :
  byzantine_count n f_ratio = Ok f ->
  py_truediv64 n 3 = Ok bound ->
  (inject_Z f < bound)%Q ->
  run_config E fanout0 trials n results f_ratio w =
  (trial_results <- foldM (run_trial E n f fanout0) (py_range trials) [] ;;
   result <- lift_result
               (aggregate n f f_ratio fanout0 trials trial_results) ;;
   ret (results ++ [result])) w.
Proof.
  intros Hf Hb H. unfold run_config.
  unfold bind at 1, lift_result at 1. rewrite Hf.
  unfold bind at 1, lift_result at 1. rewrite Hb.
  destruct (Qle_bool bound (inject_Z f)) eqn:Hg; [|reflexivity].
  apply Qle_bool_iff in Hg. exfalso. exact (Qlt_not_le _ _ H Hg).
Qed.

Lemma aggregate_Ok n f f_ratio fanout0 trials l res :
  aggregate n f f_ratio fanout0 trials l = Ok res ->
  res_n res = n /\ res_f res = f /\ res_f_ratio res = f_ratio /\
  res_fanout res = fanout0 /\ res_trials res = trials /\
  res_trial_results res = l.
Proof.
  unfold aggregate.
  destruct (sum_convergence_rounds l); [|discriminate].
  destruct (py_truediv _ _); [|discriminate].
  destruct (py_truediv _ _); [|discriminate].
  destruct (py_truediv _ _); [|discriminate].
  destruct (py_truediv _ _); [|discriminate].
  intros [= <-]. simpl. auto 10.
Qed.

(** What [run_config] appends, when it appends. *)
Lemma run_config_Ok fanout0 trials n results f_ratio w results' w' :
  run_config E fanout0 trials n results f_ratio w = Ok (results', w') ->
  exists f bound,
    byzantine_count n f_ratio = Ok f /\ py_truediv64 n 3 = Ok bound /\
    ((results' = results /\ w' = w /\ (bound <= inject_Z f)%Q) \/
     (exists res, results' = results ++ [res] /\
        res_n res = n /\ res_f_ratio res = f_ratio /\ res_f res = f /\
        (inject_Z f < bound)%Q)).
Proof.
  unfold run_config. intros H.
  apply bind_Ok in H as (f & w1 & Hf & H).
  apply lift_result_Ok in Hf as [Hf Hw1]. simpl in Hf, Hw1. subst w1.
  apply bind_Ok in H as (bound & w2 & Hb & H).
  apply lift_result_Ok in Hb as [Hb Hw2]. simpl in Hb, Hw2. subst w2.
  exists f, bound. split; [exact Hf|]. split; [exact Hb|].
  destruct (Qle_bool bound (inject_Z f)) eqn:Hg.
  - injection H as <- <-. left. apply Qle_bool_iff in Hg. auto.
  - right.
    apply bind_Ok in H as (l & w3 & _ & H).
    apply bind_Ok in H as (res & w4 & Hagg & H). injection H as <- <-.
    apply lift_result_Ok in Hagg as [Hagg _]. simpl in Hagg.
    apply aggregate_Ok in Hagg as (Hn & Hf' & Hr & _).
    exists res. split; [reflexivity|]. rewrite Hn, Hf', Hr.
    repeat split.
    apply Qnot_le_lt. intros Hle. apply Qle_bool_iff in Hle. congruence.
Qed.

(** C9. The driver takes [f = int(n * ratio)], the product being the
    binary64 one: [f] is the truncation of that product, and its floor
    whenever the product is not negative. A pair whose [f] is at least the
    float [n / 3] is passed over with the result list and the world
    untouched, so that no network is built and no trial run for it; every
    record returned belongs to a swept pair, carries the [f] computed for
    it, and that [f] is below the float [n / 3]; for every [n] a float
    holds exactly the comparison with the float [n / 3] is the comparison
    with the exact third; and [n = 10] with a ratio giving [f = 4] yields
    no record. *)
Theorem bft_bound_skips_configuration fanout0 trials :
  (forall n f_ratio f,
     byzantine_count n f_ratio = Ok f ->
     exists a product,
       py_float n = Ok a /\ round64 (a * f_ratio)%Q = Some product /\
       f = py_int product /\
       ((0 <= product)%Q -> f = Qfloor product)) /\
  (forall n f_ratio f bound results w,
     byzantine_count n f_ratio = Ok f ->
     py_truediv64 n 3 = Ok bound ->
     (bound <= inject_Z f)%Q ->
     run_config E fanout0 trials n results f_ratio w = Ok (results, w)) /\
  (forall n_values f_ratios w results w',
     run_experiment E n_values f_ratios fanout0 trials w = Ok (results, w') ->
     Forall (fun res =>
               In (res_n res) n_values /\ In (res_f_ratio res) f_ratios /\
               byzantine_count (res_n res) (res_f_ratio res) =
                 Ok (res_f res) /\
               exists bound,
                 py_truediv64 (res_n res) 3 = Ok bound /\
                 (inject_Z (res_f res) < bound)%Q)
            results) /\
  (forall n f bound,
     - 2 ^ 53 < n < 2 ^ 53 ->
     py_truediv64 n 3 = Ok bound ->
     ((bound <= inject_Z f)%Q <->
      (inject_Z n / inject_Z 3 <= inject_Z f)%Q)) /\
  (forall f_ratio w,
     byzantine_count 10 f_ratio = Ok 4 ->
     run_experiment E [10] [f_ratio] fanout0 trials w = Ok ([], w)).
Proof.
  split.
  { intros n f_ratio f Hf.
    apply byzantine_count_Ok in Hf as (a & product & Ha & Hp & ->).
    exists a, product. unfold py_float. rewrite Ha.
    split; [reflexivity|]. split; [exact Hp|]. split; [reflexivity|].
    apply py_int_floor. }
  split.
  { intros n f_ratio f bound results w Hf Hb H.
    eapply run_config_skip; eassumption. }
  split.
  { intros n_values f_ratios w results w' H. unfold run_experiment in H.
    eapply (foldM_ind E _
      (fun results =>
         Forall (fun res =>
           In (res_n res) n_values /\ In (res_f_ratio res) f_ratios /\
           byzantine_count (res_n res) (res_f_ratio res) = Ok (res_f res) /\
           exists bound,
             py_truediv64 (res_n res) 3 = Ok bound /\
             (inject_Z (res_f res) < bound)%Q)
           results)); [| |exact H]; [|constructor].
    intros rs n w0 rs' w0' HP Hn Hin. simpl in Hin.
    eapply (foldM_ind E _ _ f_ratios); [| |exact Hin]; [|exact HP].
    intros rs1 r w1 rs2 w2 HP1 Hr Hc. simpl in Hc.
    apply run_config_Ok in Hc
      as (f & bound & Hf & Hb &
          [(-> & _)|(res & -> & Hrn & Hrr & Hrf & Hlt)]);
      [exact HP1|].
    apply Forall_app. split; [exact HP1|]. constructor; [|constructor].
    rewrite Hrn, Hrr, Hrf.
    split; [exact Hn|]. split; [exact Hr|]. split; [exact Hf|].
    exists bound. split; assumption. }
  split.
  { intros n f bound. apply bft_guard_exact. }
  intros f_ratio w Hf. unfold run_experiment. cbn [foldM].
  unfold bind at 1 2.
  erewrite run_config_skip;
    [reflexivity|exact Hf|vm_compute; reflexivity|vm_compute; discriminate].
Qed.

Lemma sum_convergence_rounds_none l :
  Forall (fun r => st_converged r = false) l ->
  List.filter (fun r => st_converged r) l = [].
Proof.
  induction 1 as [|r l Hr _ IH]; [reflexivity|]. simpl. rewrite Hr. exact IH.
Qed.

(** When no trial converged, the mean convergence round is computed as
    [0 / 0]. *)
Lemma aggregate_no_converged n f f_ratio fanout0 trials l :
  Forall (fun r => st_converged r = false) l ->
  aggregate n f f_ratio fanout0 trials l = Raise ZeroDivisionError.
Proof.
  intros H. unfold aggregate, sum_convergence_rounds.
  rewrite (sum_convergence_rounds_none l H). reflexivity.
Qed.

End Driver.


(** ** A configuration that never converges *)

Section SingleAgent.

Context (E : Env) (HE : EnvOK E).

(** With fanout 0 a round sends nothing and changes no view. *)
Lemma run_round_silent self w :
  well_formed self -> fanout self = 0 ->
  exists s2 w',
    run_round E self w = Ok (check_convergence s2, w') /\
    same_params (set_round_num self (round_num self + 1)) s2 /\
    Forall2 same_core (agents self) (agents s2).
Proof.
  intros Hwf Hf0.
  assert (Hwf1 : well_formed (set_round_num self (round_num self + 1))).
  { destruct Hwf. split; assumption. }
  destruct (phase1_total E HE _ w Hwf1)
    as (s2 & rm & w1 & H1 & _ & _ & _ & Hrm & _).
  simpl in Hrm. rewrite Hf0 in Hrm.
  destruct rm as [|m rm]; [|simpl in Hrm; lia].
  pose proof (phase1_frame _ _ _ _ _ _ H1) as [Hp HF].
  exists s2, w1. split; [|split; assumption].
  unfold run_round. rewrite (bind_run _ _ _ _ _ H1). reflexivity.
Qed.

Lemma same_core_at_ledger L l l' :
  Forall2 same_core l l' ->
  Forall (fun a => is_byzantine a = false ->
                   exists v, local_view a = Some v /\ __eq__ v L = true) l' ->
  Forall (fun a => is_byzantine a = false ->
                   exists v, local_view a = Some v /\ __eq__ v L = true) l.
Proof.
  induction 1 as [|a a' l l' (_ & Hty & Hlv & _) _ IH]; intros H;
    [constructor|].
  apply Forall_cons in H as [Ha H]. constructor; [|auto].
  unfold is_byzantine in *. rewrite <- Hty, <- Hlv. exact Ha.
Qed.

Lemma stuck_round self w :
  stuck self ->
  exists self' w',
    run_round E self w = Ok ((false, self'), w') /\ stuck self'.
Proof.
  intros (Hwf & Hn & Hf0 & Hc & Hnot).
  destruct (run_round_silent self w Hwf Hf0) as (s2 & w' & Hrun & Hp & HF).
  destruct (check_convergence s2) as [b self'] eqn:Hcc.
  pose proof (run_round_conv _ _ _ _ _ _ Hrun) as (_ & Hiff & _ & Hcr).
  pose proof (check_convergence_frame s2) as Hfr. rewrite Hcc in Hfr.
  destruct Hfr as (Hag & (Hn' & _ & Hf' & _ & HL') & _).
  destruct Hp as (Hn2 & _ & Hf2 & _ & HL2 & _). simpl in Hn2, Hf2, HL2.
  assert (Hnot' : ~ honest_at_ledger self').
  { intros H. apply Hnot. unfold honest_at_ledger in *.
    rewrite Hag, HL', HL2 in H. eapply same_core_at_ledger; eauto. }
  destruct b; [exfalso; apply Hnot', Hiff; reflexivity|].
  exists self', w'. split; [exact Hrun|].
  assert (Hwf' : well_formed self').
  { destruct (run_round_total E HE self w Hwf)
      as (b0 & s0 & w0 & Hr0 & Hw0 & _).
    rewrite Hrun in Hr0. injection Hr0 as <- <- <-. exact Hw0. }
  split; [exact Hwf'|]. split; [lia|]. split; [lia|].
  split; [|exact Hnot']. rewrite Hcr, Hc. reflexivity.
Qed.

Lemma stuck_rounds_until budget self w :
  stuck self ->
  exists self' w', rounds_until E budget self w = Ok (self', w') /\ stuck self'.
Proof.
  revert self w. induction budget as [|k IH]; intros self w Hs.
  - exists self, w. auto.
  - destruct (stuck_round self w Hs) as (s1 & w1 & Hrun & Hs1).
    destruct (IH s1 w1 Hs1) as (s2 & w2 & Hrest & Hs2).
    exists s2, w2. split; [|exact Hs2].
    cbn [rounds_until]. rewrite (bind_run _ _ _ _ _ Hrun). exact Hrest.
Qed.

(** The network of one agent and no Byzantine agent is stuck from the
    start: its agent holds a version between 5 and 9, the ledger 10. *)
Lemma init_single_stuck fanout0 did0 w :
  0 <= fanout0 ->
  exists net w', __init__ E 1 0 fanout0 did0 w = Ok (net, w') /\ stuck net.
Proof.
  intros Hfan.
  destruct (init_total E HE 1 0 fanout0 did0 w) as (net & w' & Hinit); [lia|].
  exists net, w'. split; [exact Hinit|].
  destruct (init_well_formed E _ _ _ _ _ _ _ Hinit (or_intror Hfan))
    as [Hwf _].
  apply init_Ok in Hinit
    as (ids & w1 & Hs & Hn & _ & Hfo & _ & _ & _ & _ & Hc & HL & HF).
  split; [exact Hwf|]. split; [exact Hn|]. split; [lia|].
  split; [exact Hc|].
  destruct (sample_ok E HE (py_range 1) 0 w) as (ids' & w1' & Hs' & Hlen & _);
    [simpl; lia|].
  rewrite Hs' in Hs. injection Hs as -> ->.
  destruct ids as [|i ids]; [|simpl in Hlen; lia].
  change (py_range 1) with [0] in HF.
  inversion HF as [|i0 a' l0 l' Ha Hrest Heq1 Heq2]; subst.
  destruct Ha as (v & -> & _ & Hver). simpl in Hver.
  specialize (Hver HE eq_refl).
  intros Hat. unfold honest_at_ledger in Hat. rewrite <- Heq2 in Hat.
  apply Forall_cons in Hat as [Ha _].
  destruct (Ha eq_refl) as (v' & Hv' & Heq). simpl in Hv'.
  injection Hv' as <-. apply DIDView_eq_iff in Heq as (_ & Heq & _). lia.
Qed.

Lemma stuck_trial fanout0 acc trial w :
  0 <= fanout0 ->
  exists stats w',
    run_trial E 1 0 fanout0 acc trial w = Ok (acc ++ [stats], w') /\
    st_converged stats = false.
Proof.
  intros Hfan.
  destruct (init_single_stuck fanout0 "did:example:123" w Hfan)
    as (net & w1 & Hinit & Hs).
  destruct (stuck_rounds_until (Z.to_nat 50) net w1 Hs)
    as (net' & w2 & Hrounds & (_ & Hn & _ & Hc & _)).
  destruct (get_statistics_run net') as (stats & Hst & _ & Hconv & _); [lia|].
  rewrite Hc in Hconv.
  exists (set_trial stats trial), w2. split; [|exact Hconv].
  assert (Hruc : run_until_convergence E net 50 w1 = Ok ((stats, net'), w2)).
  { unfold run_until_convergence. rewrite (bind_run _ _ _ _ _ Hrounds).
    unfold bind, lift_result. rewrite Hst. reflexivity. }
  unfold run_trial.
  rewrite (bind_run _ _ _ _ _ Hinit), (bind_run _ _ _ _ _ Hruc).
  reflexivity.
Qed.

(** The sweep [run_experiment([1], [0.0], fanout, trials)] raises
    [ZeroDivisionError], whatever the random draws. *)
Lemma single_agent_sweep_raises fanout0 trials w :
  0 <= fanout0 ->
  run_experiment E [1] [inject_Z 0] fanout0 trials w = Raise ZeroDivisionError.
Proof.
  intros Hfan.
  destruct (foldM_total E (run_trial E 1 0 fanout0)
              (Forall (fun r => st_converged r = false)) (py_range trials))
    with (b := @nil Stats) (w := w) as (l & w' & Hl & Hall).
  - intros acc trial w0 Hacc _.
    destruct (stuck_trial fanout0 acc trial w0 Hfan)
      as (stats & w1 & Hrun & Hc).
    exists (acc ++ [stats]), w1. split; [exact Hrun|].
    apply Forall_app. split; [exact Hacc|]. constructor; [exact Hc|constructor].
  - constructor.
  - unfold run_experiment. cbn [foldM]. unfold bind at 1 2.
    assert (Hf : byzantine_count 1 (inject_Z 0) = Ok 0)
      by (vm_compute; reflexivity).
    assert (Hb : exists bound,
               py_truediv64 1 3 = Ok bound /\ (inject_Z 0 < bound)%Q)
      by (eexists; split; vm_compute; reflexivity).
    destruct Hb as (bound & Hb & Hlt).
    rewrite (run_config_run E _ _ _ _ _ _ _ _ Hf Hb Hlt).
    rewrite (bind_run _ _ _ _ _ Hl).
    unfold bind, lift_result.
    rewrite (aggregate_no_converged _ _ _ _ _ _ Hall). reflexivity.
Qed.

End SingleAgent.

(** C4. The aggregation of a configuration none of whose trials converged
    raises [ZeroDivisionError]: the mean convergence round is computed as
    [0 / 0] before the test that would have turned it into [None]. The
    sweep of a single honest agent, which never converges, is such a
    configuration, whatever the random draws. *)
Theorem all_non_converged_divides_by_zero
    (E : Env) (fanout0 trials : Z) (w : World E) :
  EnvOK E -> 0 <= fanout0 ->
  (forall n f f_ratio l,
     Forall (fun r => st_converged r = false) l ->
     aggregate n f f_ratio fanout0 trials l = Raise ZeroDivisionError) /\
  run_experiment E [1] [inject_Z 0] fanout0 trials w =
    Raise ZeroDivisionError.
Proof.
  intros HE Hfan. split.
  - intros n f f_ratio l. apply aggregate_no_converged.
  - apply single_agent_sweep_raises; assumption.
Qed.

(** ** The theorems at concrete inputs *)

Lemma net3_well_formed : well_formed net3.
Proof.
  split.
  - reflexivity.
  - right. simpl. lia.
  - simpl. lia.
  - repeat constructor; discriminate.
Qed.

Lemma net3_converged_well_formed : well_formed net3_converged.
Proof.
  split.
  - reflexivity.
  - right. simpl. lia.
  - simpl. lia.
  - repeat constructor; discriminate.
Qed.

Lemma net3_converged_at_ledger : honest_at_ledger net3_converged.
Proof.
  repeat constructor; intros H; try discriminate;
    eexists; split; reflexivity.
Qed.

(** A round on the converged [net3] answers two lies of a version above
    the ledger's: both honest agents query the ledger again and hold a
    re-stamped copy of its view afterwards. *)
Example converged_round_restamps :
  match run_round TapeEnv net3_converged tape3_converged with
  | Ok (b, self, _) =>
      (b, map (fun a => option_map timestamp (local_view a)) (agents self),
       map ledger_queries (agents self))
  | Raise _ => (false, [], [])
  end =
  (true,
   [Some (inject_Z 1009); Some (inject_Z 1002); Some (inject_Z 1008)],
   [2; 0; 2]) /\
  map (fun a => option_map timestamp (local_view a)) (agents net3_converged) =
  [Some (inject_Z 1006); Some (inject_Z 1002); Some (inject_Z 1005)].
Proof. split; vm_compute; reflexivity. Qed.

(** The sweep of a single agent, run on the tape. *)
Example single_agent_sweep_on_tape :
  run_experiment TapeEnv [1] [inject_Z 0] 5 10 tape0 =
    Raise ZeroDivisionError.
Proof. vm_compute. reflexivity. Qed.

(** The sweep of [n = 4] at ratio 1/10 on the tape: [f = 0 < 4/3], one
    record, both trials converged in their second round. *)
Example sweep_of_four_on_tape :
  match run_experiment TapeEnv [4] [1 # 10]%Q 3 2 tape0 with
  | Ok ([res], _) =>
      Some (res_n res, res_f res, res_avg_convergence_round res,
            map st_convergence_round (res_trial_results res))
  | _ => None
  end = Some (4, 0, Some (4 # 2)%Q, [Some 2; Some 2]).
Proof. vm_compute. reflexivity. Qed.

(** The sweep of [n = 10] at ratio 4/10: [f = 4 >= 10/3], no record, the
    tape untouched. *)
Example sweep_of_ten_on_tape :
  run_experiment TapeEnv [10] [4 # 10]%Q 3 2 tape0 = Ok ([], tape0).
Proof. vm_compute. reflexivity. Qed.

(** The Byzantine count is taken from the binary64 product. The float
    [0.35] lies below 35/100, yet [20 * 0.35] rounds to 7.0: [f = 7] is
    not below [20 / 3] and the pair is skipped. The product [100 * 0.29]
    rounds to 28.999999999999996: [f = 28] is below [100 / 3] and the
    pair is run. *)
Example byzantine_count_of_rounded_products :
  byzantine_count 20 (float_literal (35 # 100)) = Ok 7 /\
  byzantine_count 10 (float_literal (3 # 10)) = Ok 3 /\
  byzantine_count 100 (float_literal (29 # 100)) = Ok 28 /\
  byzantine_count 625 (float_literal (3344 # 10000)) = Ok 208 /\
  byzantine_count 10 (float_literal (4 # 10)) = Ok 4 /\
  skipped 20 (float_literal (35 # 100)) = Ok true /\
  skipped 10 (float_literal (3 # 10)) = Ok false /\
  skipped 100 (float_literal (29 # 100)) = Ok false /\
  skipped 625 (float_literal (3344 # 10000)) = Ok false /\
  skipped 10 (float_literal (4 # 10)) = Ok true.
Proof. repeat split; vm_compute; reflexivity. Qed.

(** The truncation of the exact product is another number on these
    configurations, be it the product with the float (20 and 10) or with
    the decimal fraction (100 and 625). *)
Example exact_products_truncate_otherwise :
  py_int (inject_Z 20 * float_literal (35 # 100)) = 6 /\
  py_int (inject_Z 10 * float_literal (3 # 10)) = 2 /\
  py_int (inject_Z 100 * (29 # 100)) = 29 /\
  py_int (inject_Z 625 * (3344 # 10000)) = 209.
Proof. repeat split; vm_compute; reflexivity. Qed.

(** The sweep of [n = 20] at ratio 0.35 on the tape: [f = 7], no record,
    the tape untouched. *)
Example sweep_of_twenty_on_tape :
  run_experiment TapeEnv [20] [float_literal (35 # 100)] 3 2 tape0 =
    Ok ([], tape0).
Proof. vm_compute. reflexivity. Qed.

(** An [n] too large for a float stops the sweep at the product. *)
Example sweep_of_a_huge_network :
  byzantine_count (2 ^ 1024) (1 # 2) = Raise OverflowError /\
  run_experiment TapeEnv [2 ^ 1024] [1 # 2]%Q 3 2 tape0 =
    Raise OverflowError.
Proof. split; vm_compute; reflexivity. Qed.

(** On these configurations [round64] gives the product and the quotient
    of the Standard Library's binary64 arithmetic: the literals 0.35,
    0.3, 0.29 and 0.3344, the products [n * f_ratio], and the bounds
    [n / 3]. *)
Example round64_agrees_with_SpecFloat :
  let mul n literal m :=
    same_float
      (binary64_value
         (SpecFloat.SFmul 53 1024 (binary64 n 0) (binary64 m (-54))))
      (round64 (inject_Z n * float_literal literal)) in
  let third n :=
    same_float
      (binary64_value
         (SpecFloat.SFdiv 53 1024 (binary64 n 0) (binary64 3 0)))
      (round64 (inject_Z n / inject_Z 3)) in
  float_literal (35 # 100) = Qmake 6305039478318694 (2 ^ 54) /\
  float_literal (3 # 10) = Qmake 5404319552844595 (2 ^ 54) /\
  float_literal (29 # 100) = Qmake 5224175567749775 (2 ^ 54) /\
  float_literal (3344 # 10000) = Qmake 6024014861570775 (2 ^ 54) /\
  mul 20 (35 # 100)%Q 6305039478318694 = true /\
  mul 10 (3 # 10)%Q 5404319552844595 = true /\
  mul 100 (29 # 100)%Q 5224175567749775 = true /\
  mul 625 (3344 # 10000)%Q 6024014861570775 = true /\
  third 20 = true /\ third 10 = true /\ third 100 = true /\
  third 625 = true.
Proof. repeat split; vm_compute; reflexivity. Qed.

Lemma handle_summary_rule_witness :
  (is_byzantine honest0 = false /\ local_view honest0 = Some stale5 /\
   view summary19 = Some lie19) /\
  exists r' self' w',
    _handle_summary TapeEnv net3 honest0 summary19 tape3 =
      Ok ((r', self'), w') /\
    ledger_view self' = ledger_view net3 /\
    (version lie19 > version stale5 \/
     (version lie19 = version stale5 /\ doc_hash lie19 <> doc_hash stale5) ->
       ledger_queries r' = ledger_queries honest0 + 1 /\
       total_ledger_queries self' = total_ledger_queries net3 + 1 /\
       local_view r' =
         Some {| did := did (ledger_view net3);
                 version := version (ledger_view net3);
                 doc_hash := doc_hash (ledger_view net3);
                 timestamp := fst (time_time TapeEnv tape3) |} /\
       w' = snd (time_time TapeEnv tape3)) /\
    (version lie19 < version stale5 \/
     (version lie19 = version stale5 /\ doc_hash lie19 = doc_hash stale5) ->
       local_view r' = local_view honest0 /\
       ledger_queries r' = ledger_queries honest0 /\
       total_ledger_queries self' = total_ledger_queries net3 /\
       w' = tape3).
Proof.
  split; [repeat split; reflexivity|].
  apply (handle_summary_rule TapeEnv net3 honest0 summary19 stale5 lie19 tape3);
    reflexivity.
Defined.

Lemma conservative_adoption_witness :
  (EnvOK TapeEnv /\ well_formed net3) /\
  (exists b self' w',
     run_round TapeEnv net3 tape3 = Ok ((b, self'), w') /\
     forall i a,
       agents net3 !! i = Some a -> is_byzantine a = false ->
       exists a',
         agents self' !! i = Some a' /\ is_byzantine a' = false /\
         (local_view a' = local_view a \/
          exists v, local_view a' = Some v /\
                    __eq__ v (ledger_view net3) = true)) /\
  (forall msgs w0 s w1,
     phase2 TapeEnv net3 msgs w0 = Ok (s, w1) ->
     forall i a,
       agents net3 !! i = Some a -> is_byzantine a = false ->
       exists a',
         agents s !! i = Some a' /\ is_byzantine a' = false /\
         (local_view a' = local_view a \/
          exists v, local_view a' = Some v /\
                    __eq__ v (ledger_view net3) = true)).
Proof.
  split; [split; [exact TapeEnv_ok|exact net3_well_formed]|].
  apply (conservative_adoption TapeEnv TapeEnv_ok net3 tape3 net3_well_formed).
Defined.

Lemma one_view_per_sender_per_round_witness :
  (List.NoDup (map agent_id (agents net3)) /\
   exists s rm w',
     phase1 TapeEnv (set_round_num net3 1) tape3 = Ok ((s, rm), w') /\
     length rm = 6%nat /\
     (forall m1 m2,
        In m1 rm -> In m2 rm -> sender m1 = sender m2 -> view m1 = view m2) /\
     (forall m,
        In m rm ->
        exists a, In a (agents (set_round_num net3 1)) /\
                  sender m = agent_id a /\
                  (is_byzantine a = false -> view m = local_view a) /\
                  (is_byzantine a = true ->
                   exists w1 msg w2,
                     _byzantine_agent_summary TapeEnv (set_round_num net3 1)
                       a w1 = Ok (msg, w2) /\
                     view m = view msg))).
Proof.
  assert (Hnd : List.NoDup (map agent_id (agents net3))).
  { simpl. repeat constructor; simpl; intuition discriminate. }
  split; [exact Hnd|].
  destruct (phase1 TapeEnv (set_round_num net3 1) tape3)
    as [[[s rm] w']|e] eqn:Hrun; [|vm_compute in Hrun; discriminate].
  exists s, rm, w'. split; [reflexivity|]. split.
  - vm_compute in Hrun. injection Hrun as _ <- _. reflexivity.
  - apply (one_view_per_sender_per_round TapeEnv (set_round_num net3 1)
             tape3 s rm w' Hnd Hrun).
Defined.

Lemma message_accounting_witness :
  (EnvOK TapeEnv /\ 0 <= 3 /\ 0 <= 2 /\
   __init__ TapeEnv 3 1 2 "did:example:123" tape0 = Ok (net3, tape3)) /\
  exists bs net' w',
    run_rounds TapeEnv 3 net3 tape3 = Ok ((bs, net'), w') /\
    round_num net' = Z.of_nat 3 /\
    total_messages net' = sum_sent (agents net') /\
    total_messages net' = Z.min 2 (3 - 1) * 3 * Z.of_nat 3 /\
    Forall (fun a => messages_sent a = Z.min 2 (3 - 1) * Z.of_nat 3)
           (agents net').
Proof.
  assert (Hinit :
    __init__ TapeEnv 3 1 2 "did:example:123" tape0 = Ok (net3, tape3))
    by (vm_compute; reflexivity).
  split; [split; [exact TapeEnv_ok|]; split; [lia|]; split; [lia|exact Hinit]|].
  apply (message_accounting TapeEnv TapeEnv_ok 3 1 2 "did:example:123"
           tape0 net3 tape3 3 tape3); [lia|lia|exact Hinit].
Defined.

Lemma convergence_round_set_once_witness :
  (EnvOK TapeEnv /\ well_formed net3 /\ conv_inv net3) /\
  exists bs self' w' k m,
    run_rounds TapeEnv 3 net3 tape3 = Ok ((bs, self'), w') /\
    bs = replicate k false ++ replicate m true /\
    (k + m)%nat = 3%nat /\
    (convergence_round net3 <> None -> k = 0%nat) /\
    convergence_round self' =
      match convergence_round net3 with
      | Some c => Some c
      | None =>
          match m with
          | O => None
          | S _ => Some (round_num net3 + Z.of_nat k + 1)
          end
      end /\
    (convergence_round self' <> None ->
     honest_at_ledger self' /\ check_convergence self' = (true, self')).
Proof.
  assert (Hinv : conv_inv net3).
  { intros H. exfalso. apply H. reflexivity. }
  split; [split; [exact TapeEnv_ok|];
          split; [exact net3_well_formed|exact Hinv]|].
  apply (convergence_round_set_once TapeEnv TapeEnv_ok net3 3 tape3
           net3_well_formed Hinv).
Defined.

Lemma idempotent_convergence_witness :
  (EnvOK TapeEnv /\ well_formed net3_converged /\
   honest_at_ledger net3_converged) /\
  exists self' w',
    run_round TapeEnv net3_converged tape3_converged =
      Ok ((true, self'), w') /\
    honest_at_ledger self' /\
    convergence_round self' <> None /\
    forall i a,
      agents net3_converged !! i = Some a -> is_byzantine a = false ->
      exists a' v v',
        agents self' !! i = Some a' /\
        local_view a = Some v /\ local_view a' = Some v' /\
        __eq__ v' v = true /\
        (v' = v \/ exists t, v' = restamp (ledger_view net3_converged) t).
Proof.
  split; [split; [exact TapeEnv_ok|];
          split; [exact net3_converged_well_formed
                 |exact net3_converged_at_ledger]|].
  apply (idempotent_convergence TapeEnv TapeEnv_ok net3_converged
           tape3_converged net3_converged_well_formed
           net3_converged_at_ledger).
Defined.

Lemma empty_honest_set_converges_witness :
  (EnvOK TapeEnv /\ 0 < 2 /\ 0 <= 1 /\ 0 < 50) /\
  (forall self,
     List.filter (fun a => negb (is_byzantine a)) (agents self) = [] ->
     fst (check_convergence self) = true /\
     (convergence_round self = None ->
      convergence_round (snd (check_convergence self)) =
        Some (round_num self))) /\
  exists net w1 stats net' w2,
    __init__ TapeEnv 2 2 1 "did:example:123" tape0 = Ok (net, w1) /\
    List.filter (fun a => negb (is_byzantine a)) (agents net) = [] /\
    run_until_convergence TapeEnv net 50 w1 = Ok ((stats, net'), w2) /\
    st_honest_agents stats = 0 /\
    st_rounds stats = 1 /\
    st_converged stats = true /\
    st_convergence_round stats = Some 1.
Proof.
  split; [split; [exact TapeEnv_ok|]; lia|].
  apply (empty_honest_set_converges TapeEnv TapeEnv_ok 2 1 "did:example:123"
           50 tape0); lia.
Defined.

Lemma all_non_converged_divides_by_zero_witness :
  (EnvOK TapeEnv /\ 0 <= 5) /\
  (forall n f f_ratio l,
     Forall (fun r => st_converged r = false) l ->
     aggregate n f f_ratio 5 10 l = Raise ZeroDivisionError) /\
  run_experiment TapeEnv [1] [inject_Z 0] 5 10 tape0 =
    Raise ZeroDivisionError.
Proof.
  split; [split; [exact TapeEnv_ok|lia]|].
  apply (all_non_converged_divides_by_zero TapeEnv 5 10 tape0 TapeEnv_ok).
  lia.
Defined.

(** * Further properties of the simulator *)

(** ** Books kept by deliveries and rounds *)

Section Books.

Context (E : Env).

Lemma py_sum_map_insert (f : Agent -> Z) l j a a' :
  l !! j = Some a ->
  py_sum (map f (<[j := a']> l)) = py_sum (map f l) - f a + f a'.
Proof.
  revert j. induction l as [|x l IH]; intros j Hj; [discriminate|].
  destruct j as [|j]; simpl in *.
  - injection Hj as ->. rewrite !py_sum_cons. lia.
  - rewrite !py_sum_cons, (IH j Hj). lia.
Qed.

Lemma py_sum_map_ext (f : Agent -> Z) (R : Agent -> Agent -> Prop) l l' :
  (forall a a', R a a' -> f a' = f a) ->
  Forall2 R l l' -> py_sum (map f l') = py_sum (map f l).
Proof.
  intros HR. induction 1 as [|a a' l l' Ha _ IH]; [reflexivity|].
  cbn [map]. rewrite !py_sum_cons, IH, (HR _ _ Ha). reflexivity.
Qed.

Lemma delivered_refl a : delivered a a.
Proof. unfold delivered. repeat split; auto; lia. Qed.

Lemma delivered_trans a b c : delivered a b -> delivered b c -> delivered a c.
Proof.
  unfold delivered, is_byzantine.
  intros (Hi1 & Ht1 & Hq1 & Hb1 & Hv1) (Hi2 & Ht2 & Hq2 & Hb2 & Hv2).
  split; [congruence|]. split; [congruence|]. split; [lia|]. split.
  - intros Hb. destruct (Hb1 Hb) as [Hv Hq].
    destruct Hb2 as [Hv' Hq']; [rewrite Ht1; exact Hb|]. split; congruence.
  - intros Hq. transitivity (local_view b); [apply Hv2; lia|apply Hv1; lia].
Qed.

Lemma same_core_delivered a b : same_core a b -> delivered a b.
Proof.
  unfold same_core, delivered. intros (? & ? & ? & Hr & Hq).
  repeat split; auto; lia.
Qed.

(** The exact effect of one delivery. *)
Lemma deliver_cases self m w self' w' :
  deliver E self m w = Ok (self', w') ->
  exists i r0,
    py_getitem (agents self) (receiver m) = Ok (i, r0) /\
    agents self !! i = Some r0 /\
    let r := set_messages_received r0 (messages_received r0 + 1) in
    (self' = set_agents self (<[i := r]> (agents self)) /\ w' = w) \/
    (is_byzantine r0 = false /\
     self' =
       set_agents
         (set_total_ledger_queries self (total_ledger_queries self + 1))
         (<[i := set_local_view
                   (set_ledger_queries r (ledger_queries r0 + 1))
                   (Some (ledger_copy self (fst (time_time E w))))]>
            (agents self)) /\
     w' = snd (time_time E w)).
Proof.
  unfold deliver. intros H.
  apply bind_Ok in H as ([i r0] & w1 & Hget & H).
  apply lift_result_Ok in Hget as [Hget Hw]. simpl in Hget, Hw. subst w1.
  apply bind_Ok in H as ([r1 self1] & w2 & Hh & H).
  injection H as <- <-.
  exists i, r0. split; [exact Hget|].
  split; [eapply py_getitem_Ok; eauto|].
  apply handle_summary_cases in Hh.
  destruct Hh as [(-> & -> & ->)|(Hb & -> & -> & ->)]; [left|right]; auto.
Qed.

Lemma deliver_session self m w self' w' :
  deliver E self m w = Ok (self', w') ->
  Forall2 delivered (agents self) (agents self') /\
  sum_received (agents self') = sum_received (agents self) + 1 /\
  total_messages self' = total_messages self /\
  total_ledger_queries self' - sum_queries (agents self') =
    total_ledger_queries self - sum_queries (agents self).
Proof.
  intros H. apply deliver_cases in H as (i & r0 & _ & Hi & H).
  assert (Hdiag : Forall2 delivered (agents self) (agents self)).
  { apply Forall_Forall2_diag, Forall_forall. intros; apply delivered_refl. }
  unfold sum_received, sum_queries.
  destruct H as [(-> & ->)|(Hb & -> & ->)]; simpl;
    rewrite !(py_sum_map_insert _ _ _ _ _ Hi); simpl.
  - split; [|lia]. apply Forall2_insert_r; [exact Hdiag|].
    intros x Hx. rewrite Hi in Hx. injection Hx as <-.
    unfold delivered. simpl. repeat split; auto; lia.
  - split; [|lia]. apply Forall2_insert_r; [exact Hdiag|].
    intros x Hx. rewrite Hi in Hx. injection Hx as <-.
    unfold delivered. simpl.
    repeat split; intros; try lia; try congruence.
Qed.

Lemma phase2_session self msgs w s w' :
  phase2 E self msgs w = Ok (s, w') ->
  Forall2 delivered (agents self) (agents s) /\
  sum_received (agents s) =
    sum_received (agents self) + Z.of_nat (length msgs) /\
  total_messages s = total_messages self /\
  total_ledger_queries s - sum_queries (agents s) =
    total_ledger_queries self - sum_queries (agents self).
Proof.
  unfold phase2. revert self w.
  induction msgs as [|m msgs IH]; intros self w H.
  - injection H as <- <-. split; [|simpl; lia].
    apply Forall_Forall2_diag, Forall_forall. intros; apply delivered_refl.
  - cbn [foldM] in H. apply bind_Ok in H as (s1 & w1 & Hd & H).
    apply deliver_session in Hd as (HF1 & Hr1 & Ht1 & Hq1).
    apply IH in H as (HF2 & Hr2 & Ht2 & Hq2).
    split; [|cbn [length]; lia].
    eapply Forall2_trans; [|exact HF1|exact HF2].
    intros; eapply delivered_trans; eauto.
Qed.

(** Phase 1 counts every message it queues. *)
Lemma phase1_count self w s rm w' :
  phase1 E self w = Ok ((s, rm), w') ->
  total_messages s = total_messages self + Z.of_nat (length rm).
Proof.
  unfold phase1. intros H.
  apply (phase1_from_ind E
           (fun _ st => total_messages (fst st) =
                        total_messages self + Z.of_nat (length (snd st))))
    in H; [exact H| |reflexivity|simpl; lia].
  intros j a [s0 rm0] w0 s1 w1 HP _ He. simpl in *.
  apply emit_Ok in He as (ps & w2 & msg & _ & _ & ->). simpl.
  rewrite length_app, length_map. lia.
Qed.

Lemma run_round_session self w b self' w' :
  run_round E self w = Ok ((b, self'), w') -> session_rel self self'.
Proof.
  unfold run_round. intros Hrun.
  apply bind_Ok in Hrun as ([s2 rm] & w1 & H1 & Hrun).
  apply bind_Ok in Hrun as (s3 & w2 & H2 & Hrun).
  injection Hrun as Hcc <-.
  pose proof (check_convergence_frame s3) as Hc. rewrite Hcc in Hc.
  destruct Hc as (Hag & Hfr' & _ & Htm & Htq & _).
  pose proof (phase1_frame _ _ _ _ _ _ H1) as [Hp HF1]. simpl in Hp, HF1.
  pose proof (phase1_count _ _ _ _ _ H1) as Hcnt. simpl in Hcnt.
  pose proof (phase2_session _ _ _ _ _ H2) as (HF2 & Hr2 & Ht2 & Hq2).
  pose proof (phase2_Ok _ _ _ _ _ _ H2) as (Hfr & _ & _ & _ & Had).
  destruct Hp as (Hn1 & Hf1 & Hfo1 & Hd1 & HL1 & _ & Hq1 & _).
  simpl in Hn1, Hf1, Hfo1, Hd1, HL1, Hq1.
  unfold session_rel. rewrite Hag, Htm, Htq.
  split.
  { destruct Hfr as (? & ? & ? & ? & ?), Hfr' as (? & ? & ? & ? & ?).
    unfold round_frame. repeat split; congruence. }
  split.
  { rewrite HL1 in Had. eapply Forall2_trans; [|exact HF1|exact Had].
    intros x y z Hxy Hyz. eapply adopts_trans; [|exact Hyz].
    apply same_core_adopts. exact Hxy. }
  split.
  { eapply Forall2_trans; [|exact HF1|exact HF2].
    intros x y z Hxy Hyz. eapply delivered_trans; [|exact Hyz].
    apply same_core_delivered. exact Hxy. }
  unfold sum_received, sum_queries in *.
  rewrite <- (py_sum_map_ext messages_received same_core _ _
                (fun a a' H => proj1 (proj2 (proj2 (proj2 H)))) HF1).
  rewrite <- (py_sum_map_ext ledger_queries same_core _ _
                (fun a a' H => proj2 (proj2 (proj2 (proj2 H)))) HF1).
  lia.
Qed.


Lemma session_rel_refl s : session_rel s s.
Proof.
  unfold session_rel, round_frame. repeat split.
  - apply Forall_Forall2_diag, Forall_forall. intros; apply adopts_refl.
  - apply Forall_Forall2_diag, Forall_forall. intros; apply delivered_refl.
Qed.

Lemma session_rel_trans s1 s2 s3 :
  session_rel s1 s2 -> session_rel s2 s3 -> session_rel s1 s3.
Proof.
  intros (Hf1 & Ha1 & Hd1 & Hr1 & Hq1) (Hf2 & Ha2 & Hd2 & Hr2 & Hq2).
  pose proof Hf1 as (? & ? & ? & ? & HL).
  pose proof Hf2 as (? & ? & ? & ? & ?).
  split; [unfold round_frame; repeat split; congruence|].
  split.
  { rewrite HL in Ha2. eapply Forall2_trans; [|exact Ha1|exact Ha2].
    intros; eapply adopts_trans; eauto. }
  split; [|lia].
  eapply Forall2_trans; [|exact Hd1|exact Hd2].
  intros; eapply delivered_trans; eauto.
Qed.

(** A session of [r] rounds, when it returns. *)
Lemma run_rounds_session r self w bs self' w' :
  run_rounds E r self w = Ok ((bs, self'), w') ->
  session_rel self self' /\
  round_num self' = round_num self + Z.of_nat r /\
  convergence_round self' =
    match convergence_round self with
    | Some c => Some c
    | None => convergence_round self'
    end /\
  length bs = r.
Proof.
  revert self w bs self' w'.
  induction r as [|r IH]; intros self w bs self' w' H.
  - injection H as <- <- <-. split; [apply session_rel_refl|].
    split; [lia|]. split; [|reflexivity].
    destruct (convergence_round self); reflexivity.
  - cbn [run_rounds] in H.
    apply bind_Ok in H as ([b s1] & w1 & H1 & H).
    apply bind_Ok in H as ([bs1 s2] & w2 & H2 & H).
    injection H as <- <- <-. simpl in H2.
    pose proof (run_round_session _ _ _ _ _ H1) as Hs1.
    pose proof (run_round_conv _ _ _ _ _ _ H1) as (Hr1 & _ & _ & Hc1).
    apply IH in H2 as (Hs2 & Hr2 & Hc2 & Hl).
    split; [eapply session_rel_trans; eauto|]. split; [lia|].
    split; [|simpl; lia].
    destruct (convergence_round self); [|reflexivity].
    rewrite Hc1 in Hc2. exact Hc2.
Qed.

(** A session on a well-formed network returns. *)
Lemma run_rounds_total (HE : EnvOK E) r self w :
  well_formed self ->
  exists bs self' w',
    run_rounds E r self w = Ok ((bs, self'), w') /\ well_formed self'.
Proof.
  revert self w. induction r as [|r IH]; intros self w Hwf.
  - exists [], self, w. auto.
  - destruct (run_round_total E HE self w Hwf)
      as (b & s1 & w1 & Hrun & Hwf1 & _).
    destruct (IH s1 w1 Hwf1) as (bs & s2 & w2 & Hrest & Hwf2).
    exists (b :: bs), s2, w2. split; [|exact Hwf2].
    exact (run_rounds_S E r self w (b, s1) w1 (bs, s2) w2 Hrun Hrest).
Qed.

(** X1. No delivery and no round ever changes the local view or the
    query counter of a Byzantine agent. *)
Theorem byzantine_agents_never_update (HE : EnvOK E) self r w :
  well_formed self ->
  (exists bs self' w',
     run_rounds E r self w = Ok ((bs, self'), w') /\
     forall i a,
       agents self !! i = Some a -> is_byzantine a = true ->
       exists a',
         agents self' !! i = Some a' /\ is_byzantine a' = true /\
         local_view a' = local_view a /\
         ledger_queries a' = ledger_queries a) /\
  (forall msgs w0 s w1,
     phase2 E self msgs w0 = Ok (s, w1) ->
     forall i a,
       agents self !! i = Some a -> is_byzantine a = true ->
       exists a',
         agents s !! i = Some a' /\ is_byzantine a' = true /\
         local_view a' = local_view a /\
         ledger_queries a' = ledger_queries a).
Proof.
  intros Hwf.
  assert (Hstep : forall l',
    Forall2 delivered (agents self) l' ->
    forall i a, agents self !! i = Some a -> is_byzantine a = true ->
    exists a', l' !! i = Some a' /\ is_byzantine a' = true /\
      local_view a' = local_view a /\ ledger_queries a' = ledger_queries a).
  { intros l' HF i a Ha Hb.
    destruct (Forall2_lookup_l _ _ _ _ _ HF Ha) as (a' & Ha' & Hd).
    destruct Hd as (_ & Hty & _ & Hbyz & _). destruct (Hbyz Hb) as [Hv Hq].
    exists a'. split; [exact Ha'|]. split; [|auto].
    unfold is_byzantine in *. rewrite Hty. exact Hb. }
  split.
  - destruct (run_rounds_total HE r self w Hwf) as (bs & self' & w' & Hrun & _).
    exists bs, self', w'. split; [exact Hrun|].
    apply run_rounds_session in Hrun as ((_ & _ & HF & _) & _).
    apply Hstep. exact HF.
  - intros msgs w0 s w1 H2.
    apply phase2_session in H2 as (HF & _). apply Hstep. exact HF.
Qed.

(** X2. Across any number of rounds an honest agent's view is the view
    it started with or a view equal to the ledger's, and once it equals
    the ledger's view it does so after every later round, whatever the
    other agents hold and send. *)
Theorem ledger_view_is_absorbing (HE : EnvOK E) self r w :
  well_formed self ->
  exists bs self' w',
    run_rounds E r self w = Ok ((bs, self'), w') /\
    forall i a,
      agents self !! i = Some a -> is_byzantine a = false ->
      exists a',
        agents self' !! i = Some a' /\ is_byzantine a' = false /\
        (local_view a' = local_view a \/
         exists v', local_view a' = Some v' /\
                    __eq__ v' (ledger_view self) = true) /\
        (forall v, local_view a = Some v ->
                   __eq__ v (ledger_view self) = true ->
                   exists v', local_view a' = Some v' /\
                              __eq__ v' (ledger_view self) = true).
Proof.
  intros Hwf.
  destruct (run_rounds_total HE r self w Hwf) as (bs & self' & w' & Hrun & _).
  exists bs, self', w'. split; [exact Hrun|].
  apply run_rounds_session in Hrun as ((_ & HF & _) & _).
  intros i a Ha Hb.
  destruct (Forall2_lookup_l _ _ _ _ _ HF Ha) as (a' & Ha' & Had).
  exists a'. split; [exact Ha'|]. split.
  { destruct Had as (_ & Hty & _). unfold is_byzantine in *.
    rewrite Hty. exact Hb. }
  pose proof (adopts_dichotomy _ _ _ Had) as Hdi.
  split; [exact Hdi|]. intros v Hv Heq.
  destruct Hdi as [Hsame|Hled]; [|exact Hled].
  exists v. rewrite Hsame. auto.
Qed.

(** X3. No round writes the ledger's view, the population size, the
    Byzantine count, the fanout or the subject, nor any agent's identity
    or role; each round advances the round counter by one. *)
Theorem rounds_keep_the_frame (HE : EnvOK E) self r w :
  well_formed self ->
  exists bs self' w',
    run_rounds E r self w = Ok ((bs, self'), w') /\
    length bs = r /\
    round_num self' = round_num self + Z.of_nat r /\
    ledger_view self' = ledger_view self /\
    n_agents self' = n_agents self /\
    f_byzantine self' = f_byzantine self /\
    fanout self' = fanout self /\
    net_did self' = net_did self /\
    map agent_id (agents self') = map agent_id (agents self) /\
    map agent_type (agents self') = map agent_type (agents self).
Proof.
  intros Hwf.
  destruct (run_rounds_total HE r self w Hwf) as (bs & self' & w' & Hrun & _).
  exists bs, self', w'. split; [exact Hrun|].
  apply run_rounds_session in Hrun
    as (((Hn & Hf & Hfo & Hd & HL) & _ & HF & _) & Hr & _ & Hl).
  repeat (split; [assumption|]).
  clear -HF. induction HF as [|a a' l l' (Hi & Ht & _) _ [IH1 IH2]].
  - split; reflexivity.
  - cbn [map]. rewrite Hi, Ht, IH1, IH2. split; reflexivity.
Qed.

End Books.

(** ** What the constructor builds *)

Section Population.

Context (E : Env).

Lemma initial_view_constructed did0 a w :
  exists a' w',
    initial_view E did0 a w = Ok (a', w') /\ constructed E did0 a a'.
Proof.
  unfold initial_view, constructed. destruct (is_byzantine a) eqn:Hb.
  - unfold bind, randint, now, lift, ret.
    destruct (random_randint E 5 15 w) as [v w1] eqn:Hv.
    destruct (time_time E w1) as [t w2].
    eexists _, _. split; [reflexivity|]. eexists. split; [reflexivity|].
    simpl. split; [reflexivity|]. split; [reflexivity|]. intros HE.
    pose proof (randint_range E HE 5 15 w) as Hr. rewrite Hv in Hr.
    apply Hr. lia.
  - unfold bind, randint, now, uniform, lift, ret.
    destruct (random_randint E 5 9 w) as [v w1] eqn:Hv.
    destruct (time_time E w1) as [t w2].
    destruct (random_uniform E (inject_Z 10) (inject_Z 100) w2) as [u w3].
    eexists _, _. split; [reflexivity|]. eexists. split; [reflexivity|].
    simpl. split; [reflexivity|]. split; [reflexivity|]. intros HE.
    pose proof (randint_range E HE 5 9 w) as Hr. rewrite Hv in Hr.
    apply Hr. lia.
Qed.

Lemma initialize_views_constructed did0 l w :
  exists l' w',
    _initialize_views E did0 l w = Ok (l', w') /\
    Forall2 (constructed E did0) l l'.
Proof.
  unfold _initialize_views.
  assert (H : forall acc w, exists l' w',
    foldM (fun done agent =>
             agent' <- initial_view E did0 agent ;; ret (done ++ [agent']))
          l acc w = Ok (acc ++ l', w') /\
    Forall2 (constructed E did0) l l').
  { clear w. induction l as [|a l IH]; intros acc w.
    - exists [], w. rewrite app_nil_r. split; [reflexivity|constructor].
    - destruct (initial_view_constructed did0 a w) as (a' & w1 & Hrun & Ha).
      destruct (IH (acc ++ [a']) w1) as (l' & w2 & Hrest & HF).
      exists (a' :: l'), w2. split.
      + cbn [foldM]. unfold bind at 1. unfold bind at 1. rewrite Hrun.
        unfold ret at 1. rewrite Hrest, <- app_assoc. reflexivity.
      + constructor; assumption. }
  destruct (H [] w) as (l' & w' & Hrun & HF). exists l', w'. auto.
Qed.

(** The constructor, when it returns: the sample drawn and the network
    built from it. *)
Lemma init_constructed n f fanout0 did0 w net w' :
  __init__ E n f fanout0 did0 w = Ok (net, w') ->
  exists ids w1,
    random_sample E (py_range n) f w = Ok (ids, w1) /\
    Forall2 (fun i a' =>
               constructed E did0
                 (new_Agent i (if existsb (Z.eqb i) ids
                               then BYZANTINE else HONEST)) a')
            (py_range n) (agents net) /\
    ledger_view net =
      {| did := did0; version := 10;
         doc_hash := _compute_hash E "ledger_doc_v10";
         timestamp := fst (time_time E w1) |}.
Proof.
  unfold __init__. intros H.
  apply bind_Ok in H as (ids & w1 & Hs & H).
  apply bind_Ok in H as (t & w2 & Ht & H).
  apply bind_Ok in H as (l' & w3 & Hi & H).
  injection H as <- <-. exists ids, w1. split; [exact Hs|]. simpl.
  unfold now, lift in Ht. injection Ht as Ht.
  split; [|rewrite Ht; reflexivity].
  destruct (initialize_views_constructed did0
              (map (fun i => new_Agent i (if existsb (Z.eqb i) ids
                                          then BYZANTINE else HONEST))
                   (py_range n)) w2)
    as (l'' & w4 & Hrun & HF).
  rewrite Hrun in Hi. injection Hi as <- <-.
  apply Forall2_map_left in HF. exact HF.
Qed.

Lemma filter_length_Permutation {A : Type} (p : A -> bool) l l' :
  Permutation l l' ->
  length (List.filter p l) = length (List.filter p l').
Proof.
  induction 1; simpl.
  - reflexivity.
  - destruct (p x); simpl; congruence.
  - destruct (p x), (p y); reflexivity.
  - congruence.
Qed.

(** A sample of [range(n)] marks as many identities as it has elements. *)
Lemma sample_marks ids rest n :
  Permutation (ids ++ rest) (py_range n) ->
  length (List.filter (fun i => existsb (Z.eqb i) ids) (py_range n)) =
  length ids.
Proof.
  intros Hperm.
  rewrite <- (filter_length_Permutation
                (fun i => existsb (Z.eqb i) ids) _ _ Hperm).
  rewrite List.filter_app, length_app.
  assert (Hnd : List.NoDup (ids ++ rest)).
  { eapply Permutation_NoDup; [symmetry; exact Hperm|apply py_range_NoDup]. }
  assert (H1 : List.filter (fun i => existsb (Z.eqb i) ids) ids = ids).
  { apply forallb_filter_id. apply forallb_forall. intros i Hi.
    apply existsb_exists. exists i. split; [exact Hi|apply Z.eqb_refl]. }
  assert (H2 : List.filter (fun i => existsb (Z.eqb i) ids) rest = []).
  { clear H1 Hperm. induction rest as [|x rest IH]; [reflexivity|].
    simpl. destruct (existsb (Z.eqb x) ids) eqn:Hex.
    - exfalso. apply existsb_exists in Hex as (y & Hy & Heq).
      apply Z.eqb_eq in Heq. subst y.
      apply NoDup_remove_2 in Hnd. apply Hnd. apply in_or_app. auto.
    - apply IH. apply NoDup_remove_1 in Hnd. exact Hnd. }
  rewrite H1, H2. simpl. lia.
Qed.


Lemma constructed_fields did0 i ty a' :
  constructed E did0 (new_Agent i ty) a' ->
  agent_id a' = i /\ agent_type a' = ty /\ peers a' = [] /\
  messages_sent a' = 0 /\ messages_received a' = 0 /\
  ledger_queries a' = 0 /\
  exists v, local_view a' = Some v /\ did v = did0 /\
    if is_byzantine a' then
      (EnvOK E -> 5 <= version v <= 15) /\
      doc_hash v = _compute_hash E ("fake_doc_" +:+ pretty (agent_id a'))
    else
      (EnvOK E -> 5 <= version v <= 9) /\
      doc_hash v = _compute_hash E ("ledger_doc_v" +:+ pretty (version v)).
Proof.
  intros (v & -> & Hd & H). simpl. repeat (split; [reflexivity|]).
  exists v. split; [reflexivity|]. split; [exact Hd|].
  change (is_byzantine (set_local_view (new_Agent i ty) (Some v)))
    with (is_byzantine (new_Agent i ty)).
  destruct (is_byzantine (new_Agent i ty)); tauto.
Qed.

Lemma py_sum_map_zero (f : Agent -> Z) l :
  Forall (fun a => f a = 0) l -> py_sum (map f l) = 0.
Proof.
  induction 1 as [|a l Ha _ IH]; [reflexivity|].
  cbn [map]. rewrite py_sum_cons, Ha, IH. reflexivity.
Qed.

Lemma py_sum_map_le (f g : Agent -> Z) l :
  Forall (fun a => f a <= g a) l -> py_sum (map f l) <= py_sum (map g l).
Proof.
  induction 1 as [|a l Ha _ IH]; [reflexivity|].
  cbn [map]. rewrite !py_sum_cons. lia.
Qed.

(** A network fresh from its constructor has empty books. *)
Lemma init_zero_books n f fanout0 did0 w net w' :
  __init__ E n f fanout0 did0 w = Ok (net, w') ->
  Forall (fun a => messages_received a = 0 /\ ledger_queries a = 0)
         (agents net) /\
  sum_received (agents net) = 0 /\ sum_queries (agents net) = 0 /\
  total_messages net = 0 /\ total_ledger_queries net = 0.
Proof.
  intros H. pose proof (init_Ok E _ _ _ _ _ _ _ H)
    as (_ & _ & _ & _ & _ & _ & _ & _ & Ht & Hq & _).
  apply init_constructed in H as (ids & w1 & _ & HF & _).
  assert (Hz : Forall (fun a => messages_received a = 0 /\
                                ledger_queries a = 0) (agents net)).
  { eapply Forall2_Forall_r; [exact HF|]. apply Forall_forall.
    intros i _ a Ha. apply constructed_fields in Ha. tauto. }
  split; [exact Hz|]. unfold sum_received, sum_queries.
  split; [|split; [|split; assumption]]; apply py_sum_map_zero;
    eapply Forall_impl; try exact Hz; simpl; tauto.
Qed.

Lemma honest_count_complement (l : list Agent) :
  (length (List.filter (fun a => negb (is_byzantine a)) l) +
   length (List.filter is_byzantine l) = length l)%nat.
Proof.
  induction l as [|a l IH]; [reflexivity|]. simpl.
  destruct (is_byzantine a); simpl; lia.
Qed.

(** The constructor marks exactly [f] agents Byzantine. *)
Lemma init_counts (HE : EnvOK E) n f fanout0 did0 w net w' :
  0 <= f <= n ->
  __init__ E n f fanout0 did0 w = Ok (net, w') ->
  Z.of_nat (length (List.filter is_byzantine (agents net))) = f /\
  Z.of_nat (length (List.filter (fun a => negb (is_byzantine a))
                                (agents net))) = n - f.
Proof.
  intros Hf Hinit.
  apply init_constructed in Hinit as (ids & w1 & Hs & HF & _).
  destruct (sample_ok E HE (py_range n) f w)
    as (ids' & w1' & Hs' & Hlen & rest & Hperm).
  { rewrite py_range_length. lia. }
  rewrite Hs' in Hs. injection Hs as -> ->.
  assert (Hbyz : length (List.filter is_byzantine (agents net)) =
                 length (List.filter (fun i => existsb (Z.eqb i) ids)
                                     (py_range n))).
  { clear -HF. induction HF as [|i a l l' Ha _ IH]; [reflexivity|].
    apply constructed_fields in Ha as (_ & Hty & _). simpl.
    unfold is_byzantine at 1. rewrite Hty.
    destruct (existsb (Z.eqb i) ids); simpl; rewrite IH; reflexivity. }
  rewrite (sample_marks ids rest n Hperm) in Hbyz.
  pose proof (honest_count_complement (agents net)) as Hfl.
  assert (Hlen' : length (agents net) = Z.to_nat n).
  { apply Forall2_length in HF. rewrite <- HF. apply py_range_length. }
  lia.
Qed.

(** X4. For [0 <= f <= n] the constructor returns a network of [n]
    agents with identities [0 .. n-1] in order, exactly [f] of them
    Byzantine, empty counters and peer sets, honest views of a version
    between 5 and 9 with the digest of that version, a ledger view of
    version 10, and no convergence round; with at least one honest agent
    the fresh network is not converged. *)
Theorem constructor_population (HE : EnvOK E) n f fanout0 did0 w :
  0 <= f <= n ->
  exists net w',
    __init__ E n f fanout0 did0 w = Ok (net, w') /\
    n_agents net = n /\ f_byzantine net = f /\
    fanout net = Z.min fanout0 (n - 1) /\ net_did net = did0 /\
    round_num net = 0 /\ total_messages net = 0 /\
    total_ledger_queries net = 0 /\ convergence_round net = None /\
    map agent_id (agents net) = py_range n /\
    Z.of_nat (length (List.filter is_byzantine (agents net))) = f /\
    Z.of_nat (length (List.filter (fun a => negb (is_byzantine a))
                                  (agents net))) = n - f /\
    Forall (fun a =>
              peers a = [] /\ messages_sent a = 0 /\
              messages_received a = 0 /\ ledger_queries a = 0 /\
              exists v, local_view a = Some v /\ did v = did0 /\
                if is_byzantine a then
                  5 <= version v <= 15 /\
                  doc_hash v =
                    _compute_hash E ("fake_doc_" +:+ pretty (agent_id a))
                else
                  5 <= version v <= 9 /\
                  doc_hash v =
                    _compute_hash E ("ledger_doc_v" +:+ pretty (version v)))
           (agents net) /\
    did (ledger_view net) = did0 /\ version (ledger_view net) = 10 /\
    doc_hash (ledger_view net) = _compute_hash E "ledger_doc_v10" /\
    (f < n -> fst (check_convergence net) = false).
Proof.
  intros Hf.
  destruct (init_total E HE n f fanout0 did0 w Hf) as (net & w' & Hinit).
  exists net, w'. split; [exact Hinit|].
  pose proof (init_Ok E _ _ _ _ _ _ _ Hinit)
    as (_ & _ & _ & Hn & Hfb & Hfo & Hd & Hr & Ht & Hq & Hc & _).
  repeat (split; [assumption|]).
  destruct (init_counts HE n f fanout0 did0 w net w' Hf Hinit)
    as [Hbyz Hhon].
  apply init_constructed in Hinit as (ids & w1 & Hs & HF & HL).
  assert (Hids : map agent_id (agents net) = py_range n).
  { clear -HF. induction HF as [|i a l l' Ha _ IH]; [reflexivity|].
    apply constructed_fields in Ha as (Hi & _). cbn [map].
    rewrite Hi, IH. reflexivity. }
  assert (Hall : Forall (fun a =>
              peers a = [] /\ messages_sent a = 0 /\
              messages_received a = 0 /\ ledger_queries a = 0 /\
              exists v, local_view a = Some v /\ did v = did0 /\
                if is_byzantine a then
                  5 <= version v <= 15 /\
                  doc_hash v =
                    _compute_hash E ("fake_doc_" +:+ pretty (agent_id a))
                else
                  5 <= version v <= 9 /\
                  doc_hash v =
                    _compute_hash E ("ledger_doc_v" +:+ pretty (version v)))
           (agents net)).
  { eapply Forall2_Forall_r; [exact HF|]. apply Forall_forall.
    intros i _ a Ha.
    apply constructed_fields in Ha
      as (_ & _ & Hp & Hms & Hmr & Hlq & v & Hv & Hdv & Hcase).
    repeat (split; [assumption|]). exists v. split; [exact Hv|].
    split; [exact Hdv|]. destruct (is_byzantine a); split; tauto. }
  split; [exact Hids|]. split; [exact Hbyz|]. split; [exact Hhon|].
  split; [exact Hall|]. rewrite HL. simpl.
  repeat (split; [reflexivity|]).
  intros Hlt. unfold check_convergence.
  destruct (List.filter (fun a => negb (is_byzantine a)) (agents net))
    as [|a l] eqn:Hfil; [simpl in Hhon; lia|].
  assert (Hin : In a (List.filter (fun a => negb (is_byzantine a))
                                  (agents net)))
    by (rewrite Hfil; left; reflexivity).
  apply filter_In in Hin as [Hin Hb]. apply negb_true_iff in Hb.
  eapply Forall_forall in Hall; [|apply list_elem_of_In; exact Hin].
  destruct Hall as (_ & _ & _ & _ & v & Hv & _ & Hcase).
  rewrite Hb in Hcase. destruct Hcase as [Hver _].
  simpl. rewrite Hv. simpl. unfold __eq__. rewrite HL. simpl.
  destruct (Z.eqb_spec (version v) 10) as [Heq|_]; [lia|].
  rewrite andb_false_r. reflexivity.
Qed.

(** X5. In a session started by the constructor the network's query
    total is the sum of the agents' query counters; a Byzantine agent
    never queries; an agent has queried at most once per message it
    received; so the query total never exceeds the message total. *)
Theorem only_honest_agents_query
    (HE : EnvOK E) n f fanout0 did0 w0 net w1 r w :
  0 <= fanout0 ->
  __init__ E n f fanout0 did0 w0 = Ok (net, w1) ->
  exists bs net' w',
    run_rounds E r net w = Ok ((bs, net'), w') /\
    total_ledger_queries net' = sum_queries (agents net') /\
    Forall (fun a => (is_byzantine a = true -> ledger_queries a = 0) /\
                     0 <= ledger_queries a <= messages_received a)
           (agents net') /\
    total_ledger_queries net' <= total_messages net'.
Proof.
  intros Hfan Hinit.
  destruct (init_well_formed E _ _ _ _ _ _ _ Hinit (or_intror Hfan))
    as [Hwf _].
  apply init_zero_books in Hinit as (Hz & Hsr & Hsq & Ht & Hq).
  destruct (run_rounds_total E HE r net w Hwf) as (bs & net' & w' & Hrun & _).
  exists bs, net', w'. split; [exact Hrun|].
  apply run_rounds_session in Hrun as ((_ & _ & HF & Hr & Hq') & _).
  assert (Hall : Forall (fun a =>
            (is_byzantine a = true -> ledger_queries a = 0) /\
            0 <= ledger_queries a <= messages_received a) (agents net')).
  { eapply Forall2_Forall_r; [exact HF|].
    eapply Forall_impl; [exact Hz|].
    intros a [Hra Hqa] a' (_ & Hty & Hb & Hbyz & _). split; [|lia].
    intros Hb'. destruct Hbyz as [_ Hsame]; [|lia].
    unfold is_byzantine in *. rewrite <- Hty. exact Hb'. }
  split; [lia|]. split; [exact Hall|].
  assert (sum_queries (agents net') <= sum_received (agents net')).
  { apply py_sum_map_le. eapply Forall_impl; [exact Hall|]. simpl. lia. }
  lia.
Qed.

(** X6. In a session started by the constructor every message sent has
    been received by the end of its round: after any number of rounds the
    sum of the agents' received counters equals the message total. *)
Theorem every_message_is_received
    (HE : EnvOK E) n f fanout0 did0 w0 net w1 r w :
  0 <= fanout0 ->
  __init__ E n f fanout0 did0 w0 = Ok (net, w1) ->
  exists bs net' w',
    run_rounds E r net w = Ok ((bs, net'), w') /\
    sum_received (agents net') = total_messages net'.
Proof.
  intros Hfan Hinit.
  destruct (init_well_formed E _ _ _ _ _ _ _ Hinit (or_intror Hfan))
    as [Hwf _].
  apply init_zero_books in Hinit as (_ & Hsr & _ & Ht & _).
  destruct (run_rounds_total E HE r net w Hwf) as (bs & net' & w' & Hrun & _).
  exists bs, net', w'. split; [exact Hrun|].
  apply run_rounds_session in Hrun as ((_ & _ & _ & Hr & _) & _). lia.
Qed.

End Population.

(** ** The budget of [run_until_convergence] *)

Section Budget.

Context (E : Env).

(** The loop of [run_until_convergence], when it returns, on a network
    that has not converged before. *)
Lemma rounds_until_Ok budget self w self' w' :
  rounds_until E budget self w = Ok (self', w') ->
  convergence_round self = None ->
  session_rel self self' /\
  match convergence_round self' with
  | Some c =>
      c = round_num self' /\
      round_num self < c <= round_num self + Z.of_nat budget /\
      honest_at_ledger self'
  | None =>
      round_num self' = round_num self + Z.of_nat budget /\
      (budget <> O -> ~ honest_at_ledger self')
  end.
Proof.
  revert self w. induction budget as [|k IH]; intros self w H Hc.
  - injection H as <- <-. split; [apply session_rel_refl|].
    rewrite Hc. split; [lia | congruence].
  - cbn [rounds_until] in H.
    apply bind_Ok in H as ([b s1] & w1 & Hr & H).
    pose proof (run_round_session E _ _ _ _ _ Hr) as Hs.
    pose proof (run_round_conv E _ _ _ _ _ Hr) as (Hn & Hb & _ & Hc1).
    rewrite Hc in Hc1. destruct b.
    + injection H as <- <-. split; [exact Hs|]. rewrite Hc1.
      split; [lia|]. split; [lia|]. apply Hb. reflexivity.
    + destruct (IH _ _ H Hc1) as [Hs' Hm].
      split; [eapply session_rel_trans; eassumption|].
      destruct (convergence_round self') as [c|].
      * destruct Hm as (-> & Hrange & Hh). split; [reflexivity|].
        split; [lia | exact Hh].
      * destruct Hm as [Hrn Hnh]. split; [lia|]. intros _.
        destruct k as [|k']; [|apply Hnh; discriminate].
        injection H as <- <-. intros Hh. apply Hb in Hh. discriminate.
Qed.

(** The loop returns on every well-formed network, and the message total
    has grown by one message per agent, fanout slot and round run. *)
Lemma rounds_until_total (HE : EnvOK E) budget self w :
  well_formed self ->
  exists self' w',
    rounds_until E budget self w = Ok (self', w') /\
    well_formed self' /\
    total_messages self' =
      total_messages self +
      fanout self * Z.of_nat (length (agents self)) *
        (round_num self' - round_num self).
Proof.
  revert self w. induction budget as [|k IH]; intros self w Hwf.
  - exists self, w. split; [reflexivity|]. split; [exact Hwf | lia].
  - destruct (run_round_total E HE self w Hwf)
      as (b & s1 & w1 & Hr & Hwf1 & Ht & _).
    pose proof (run_round_session E _ _ _ _ _ Hr)
      as ((_ & _ & Hfo & _) & Had & _).
    apply Forall2_length in Had.
    pose proof (run_round_conv E _ _ _ _ _ Hr) as (Hrn & _).
    cbn [rounds_until]. rewrite (bind_run _ _ _ _ _ Hr). destruct b.
    + exists s1, w1. split; [reflexivity|]. split; [exact Hwf1|].
      rewrite Ht, Hrn. lia.
    + destruct (IH s1 w1 Hwf1) as (self' & w' & Hrest & Hwf' & Ht').
      exists self', w'. split; [exact Hrest|]. split; [exact Hwf'|].
      rewrite Ht', Ht, Hfo, <- Had, Hrn. lia.
Qed.


Lemma get_statistics_Ok self stats :
  get_statistics self = Ok stats ->
  n_agents self <> 0 /\
  st_n_agents stats = n_agents self /\
  st_f_byzantine stats = f_byzantine self /\
  st_byzantine_agents stats = f_byzantine self /\
  st_fanout stats = fanout self /\
  st_rounds stats = round_num self /\
  st_converged stats =
    match convergence_round self with Some _ => true | None => false end /\
  st_convergence_round stats = convergence_round self /\
  st_total_messages stats = total_messages self /\
  st_total_ledger_queries stats = total_ledger_queries self /\
  st_avg_messages_per_agent stats =
    (inject_Z (total_messages self) / inject_Z (n_agents self))%Q /\
  st_avg_ledger_queries_per_agent stats =
    (inject_Z (total_ledger_queries self) / inject_Z (n_agents self))%Q /\
  st_honest_agents stats =
    Z.of_nat (length (List.filter (fun a => negb (is_byzantine a))
                                  (agents self))) /\
  st_trial stats = None.
Proof.
  unfold get_statistics, py_truediv.
  destruct (Z.eqb_spec (n_agents self) 0) as [|Hn]; [discriminate|].
  intros [= <-]. simpl. repeat split; auto.
Qed.

Lemma honest_count_adopts L l l' :
  Forall2 (adopts L) l l' ->
  length (List.filter (fun a => negb (is_byzantine a)) l') =
  length (List.filter (fun a => negb (is_byzantine a)) l).
Proof.
  induction 1 as [|a a' l l' (_ & Hty & _) _ IH]; [reflexivity|].
  assert (Hb : is_byzantine a' = is_byzantine a)
    by (unfold is_byzantine; rewrite Hty; reflexivity).
  simpl. rewrite Hb.
  destruct (is_byzantine a); simpl; rewrite IH; reflexivity.
Qed.

Lemma Qdiv_le_pos a b n :
  0 < n -> a <= b -> (inject_Z a / inject_Z n <= inject_Z b / inject_Z n)%Q.
Proof.
  intros Hn Hab. destruct n as [|p|p]; try lia.
  unfold Qle, Qdiv, Qmult, Qinv, inject_Z. simpl. nia.
Qed.

Lemma Qdiv_mult_pos a n :
  0 < n -> (inject_Z (a * n) / inject_Z n == inject_Z a)%Q.
Proof.
  intros Hn. destruct n as [|p|p]; try lia.
  unfold Qeq, Qdiv, Qmult, Qinv, inject_Z. simpl. nia.
Qed.

(** X7. On a well-formed, populated network that has not converged
    before, [run_until_convergence] returns; it runs at most [max_rounds]
    rounds; if it reports convergence, the convergence round is the round
    it stopped in, at least one round was run and every honest agent
    holds the ledger's view; if it does not, it has used the whole budget
    and, when the budget is positive, some honest agent still differs
    from the ledger. *)
Theorem run_until_convergence_budget (HE : EnvOK E) self max_rounds w :
  well_formed self -> n_agents self <> 0 -> convergence_round self = None ->
  exists stats self' w',
    run_until_convergence E self max_rounds w = Ok ((stats, self'), w') /\
    st_rounds stats = round_num self' /\
    round_num self <= st_rounds stats <= round_num self + Z.max 0 max_rounds /\
    if st_converged stats then
      st_convergence_round stats = Some (st_rounds stats) /\
      round_num self < st_rounds stats /\
      honest_at_ledger self'
    else
      st_convergence_round stats = None /\
      st_rounds stats = round_num self + Z.max 0 max_rounds /\
      (0 < max_rounds -> ~ honest_at_ledger self').
Proof.
  intros Hwf Hn Hc.
  destruct (rounds_until_total HE (Z.to_nat max_rounds) self w Hwf)
    as (self' & w' & Hloop & _ & _).
  pose proof (rounds_until_Ok _ _ _ _ _ Hloop Hc) as [((Hn' & _) & _) Hm].
  destruct (get_statistics self') as [stats|e] eqn:Hst.
  2:{ exfalso. revert Hst. unfold get_statistics, py_truediv.
      destruct (Z.eqb_spec (n_agents self') 0); [congruence | discriminate]. }
  exists stats, self', w'. split.
  { unfold run_until_convergence. rewrite (bind_run _ _ _ _ _ Hloop).
    unfold bind, lift_result. rewrite Hst. reflexivity. }
  apply get_statistics_Ok in Hst
    as (_ & _ & _ & _ & _ & Hr & Hcv & Hcr & _).
  rewrite Hr, Hcv, Hcr. split; [reflexivity|].
  destruct (convergence_round self') as [c|].
  - destruct Hm as (-> & Hrange & Hh). split; [lia|].
    split; [reflexivity|]. split; [lia | exact Hh].
  - destruct Hm as [Hrn Hnh]. split; [lia|]. split; [reflexivity|].
    split; [lia|]. intros Hpos. apply Hnh. lia.
Qed.

(** X8. The statistics of a trial: a network built for [0 < n] agents,
    [0 <= f <= n] of them Byzantine, and run until convergence reports
    the constructor's parameters, [n - f] honest agents (the list of
    honest agents is counted, the Byzantine count is the parameter, and
    the two add up to [n]), exactly [fanout * n] messages per round run,
    hence [fanout] messages per agent and round on average, and no more
    ledger queries than messages. *)
Theorem trial_statistics (HE : EnvOK E) n f fanout0 did0 max_rounds w :
  0 < n -> 0 <= f <= n -> 0 <= fanout0 ->
  exists net w1 stats net' w2,
    __init__ E n f fanout0 did0 w = Ok (net, w1) /\
    run_until_convergence E net max_rounds w1 = Ok ((stats, net'), w2) /\
    st_n_agents stats = n /\ st_f_byzantine stats = f /\
    st_byzantine_agents stats = f /\ st_honest_agents stats = n - f /\
    st_fanout stats = Z.min fanout0 (n - 1) /\
    0 <= st_rounds stats <= Z.max 0 max_rounds /\
    st_total_messages stats = st_fanout stats * st_rounds stats * n /\
    (st_avg_messages_per_agent stats ==
       inject_Z (st_fanout stats * st_rounds stats))%Q /\
    0 <= st_total_ledger_queries stats <= st_total_messages stats /\
    (st_avg_ledger_queries_per_agent stats <=
       st_avg_messages_per_agent stats)%Q.
Proof.
  intros Hn Hf Hfan.
  destruct (init_total E HE n f fanout0 did0 w Hf) as (net & w1 & Hinit).
  exists net, w1.
  pose proof (init_Ok E _ _ _ _ _ _ _ Hinit)
    as (_ & _ & _ & Hna & Hfb & Hfo & _ & Hr0 & _ & _ & Hc0 & _).
  destruct (init_counts E HE n f fanout0 did0 w net w1 Hf Hinit)
    as [_ Hhon].
  destruct (init_well_formed E _ _ _ _ _ _ _ Hinit (or_intror Hfan))
    as [Hwf _].
  pose proof (init_zero_books E _ _ _ _ _ _ _ Hinit)
    as (Hz & Hsr & Hsq & Ht0 & Hq0).
  destruct (rounds_until_total HE (Z.to_nat max_rounds) net w1 Hwf)
    as (net' & w2 & Hloop & _ & Ht).
  pose proof (rounds_until_Ok _ _ _ _ _ Hloop Hc0)
    as [((Hn' & Hfb' & Hfo' & _) & Had & Hdel & Hrec & Hqs) Hm].
  assert (Hrounds : 0 <= round_num net' <= Z.max 0 max_rounds).
  { destruct (convergence_round net') as [c|];
      [destruct Hm as (Hc' & Hrange & _) | destruct Hm as [Hrn _]]; lia. }
  assert (Hlen : Z.of_nat (length (agents net)) = n)
    by (rewrite (wf_length _ Hwf), Hna; lia).
  destruct (get_statistics net') as [stats|e] eqn:Hst.
  2:{ exfalso. revert Hst. unfold get_statistics, py_truediv.
      destruct (Z.eqb_spec (n_agents net') 0); [lia | discriminate]. }
  exists stats, net', w2. split; [exact Hinit|]. split.
  { unfold run_until_convergence. rewrite (bind_run _ _ _ _ _ Hloop).
    unfold bind, lift_result. rewrite Hst. reflexivity. }
  apply get_statistics_Ok in Hst
    as (_ & Hsn & Hsf & Hsb & Hsfo & Hsr' & _ & _ & Hstm & Hstq & Ham & Haq
        & Hsh & _).
  rewrite Hsn, Hsf, Hsb, Hsfo, Hsr', Hstm, Hstq, Ham, Haq, Hsh.
  rewrite (honest_count_adopts _ _ _ Had), Hn', Hfb', Hfo', Hna, Hfb, Hfo.
  assert (Htot : total_messages net' =
                 Z.min fanout0 (n - 1) * round_num net' * n).
  { rewrite Ht, Ht0, Hfo, Hlen, Hr0. lia. }
  assert (Hq : 0 <= total_ledger_queries net' <= total_messages net').
  { assert (Hall : Forall (fun a => 0 <= ledger_queries a
                                      <= messages_received a) (agents net')).
    { eapply Forall2_Forall_r; [exact Hdel|].
      eapply Forall_impl; [exact Hz|].
      intros a [Hra Hqa] a' (_ & _ & Hb & _). lia. }
    assert (0 <= sum_queries (agents net')).
    { unfold sum_queries.
      rewrite <- (py_sum_map_zero (fun _ => 0) (agents net'))
        by (apply Forall_forall; reflexivity).
      apply py_sum_map_le. eapply Forall_impl; [exact Hall|]. simpl. lia. }
    assert (sum_queries (agents net') <= sum_received (agents net')).
    { apply py_sum_map_le. eapply Forall_impl; [exact Hall|]. simpl. lia. }
    lia. }
  repeat (split; [first [reflexivity | exact Hhon | lia]|]).
  split.
  { rewrite Htot. apply Qdiv_mult_pos. exact Hn. }
  split; [exact Hq|]. apply Qdiv_le_pos; lia.
Qed.

(** X9. A network of no agents can be built and converges at once, but
    asking for its statistics divides by zero: [run_until_convergence]
    raises [ZeroDivisionError] whatever the fanout and the budget. *)
Theorem empty_population_statistics_raise
    (HE : EnvOK E) fanout0 did0 max_rounds w :
  exists net w1,
    __init__ E 0 0 fanout0 did0 w = Ok (net, w1) /\
    agents net = [] /\
    fst (check_convergence net) = true /\
    get_statistics net = Raise ZeroDivisionError /\
    run_until_convergence E net max_rounds w1 = Raise ZeroDivisionError.
Proof.
  destruct (init_total E HE 0 0 fanout0 did0 w) as (net & w1 & Hinit);
    [lia|].
  exists net, w1. split; [exact Hinit|].
  pose proof (init_Ok E _ _ _ _ _ _ _ Hinit)
    as (_ & _ & _ & Hna & _).
  destruct (init_well_formed E _ _ _ _ _ _ _ Hinit) as [Hwf _]; [lia|].
  assert (Hag : agents net = []).
  { pose proof (wf_length _ Hwf) as Hl. rewrite Hna in Hl.
    destruct (agents net); [reflexivity | discriminate]. }
  split; [exact Hag|]. split.
  { unfold check_convergence. rewrite Hag. reflexivity. }
  assert (Hraise : forall s, n_agents s = 0 ->
                             get_statistics s = Raise ZeroDivisionError).
  { intros s Hs. unfold get_statistics, py_truediv. rewrite Hs.
    reflexivity. }
  split; [apply Hraise; exact Hna|].
  destruct (rounds_until_total HE (Z.to_nat max_rounds) net w1 Hwf)
    as (net' & w2 & Hloop & _ & _).
  unfold run_until_convergence. rewrite (bind_run _ _ _ _ _ Hloop).
  assert (Hn' : n_agents net' = 0).
  { revert Hloop. clear - Hna. generalize (Z.to_nat max_rounds).
    intros k. revert net w1 Hna.
    induction k as [|k IH]; intros net w1 Hna H.
    - injection H as <- _. exact Hna.
    - cbn [rounds_until] in H.
      apply bind_Ok in H as ([b s1] & w1' & Hr & H).
      pose proof (run_round_session E _ _ _ _ _ Hr) as ((Hn & _) & _).
      destruct b; [injection H as <- _; lia|].
      eapply IH; [|exact H]. lia. }
  unfold bind, lift_result. rewrite (Hraise _ Hn'). reflexivity.
Qed.

End Budget.

(** ** Agreement without the ledger *)

Section Quiet.

Context (E : Env).

(** A Summary that reports the receiver's own version and digest is
    counted and nothing else. *)
Lemma handle_summary_quiet self r0 m w sv lv :
  is_byzantine r0 = false ->
  view m = Some sv -> local_view r0 = Some lv ->
  version sv = version lv -> doc_hash sv = doc_hash lv ->
  _handle_summary E self r0 m w =
  Ok ((set_messages_received r0 (messages_received r0 + 1), self), w).
Proof.
  intros Hb Hv Hl Hver Hh. unfold _handle_summary.
  change (is_byzantine (set_messages_received r0 (messages_received r0 + 1)))
    with (is_byzantine r0).
  rewrite Hb, Hv. cbn [attr_of]. unfold bind at 1. unfold ret at 1.
  cbn [local_view set_messages_received]. rewrite Hl. cbn [attr_of].
  unfold bind, ret. rewrite Hver, Hh.
  replace (version lv >? version lv) with false by (symmetry; lia).
  rewrite Z.eqb_refl, String.eqb_refl. reflexivity.
Qed.

Lemma agreed_insert ver h l j a a' :
  agreed ver h l -> l !! j = Some a ->
  agent_type a' = agent_type a -> local_view a' = local_view a ->
  agreed ver h (<[j := a']> l).
Proof.
  intros Hl Hj Hty Hv. unfold agreed. apply Forall_insert; [exact Hl|].
  eapply Forall_lookup_1 in Hl as [Hb Hview]; [|exact Hj].
  split; [unfold is_byzantine in *; rewrite Hty; exact Hb|].
  rewrite Hv. exact Hview.
Qed.

(** Phase 1 of an agreed population queues only Summaries of the agreed
    version and digest. *)
Lemma phase1_agreed ver h self w s rm w' :
  agreed ver h (agents self) ->
  phase1 E self w = Ok ((s, rm), w') ->
  agreed ver h (agents s) /\
  Forall (fun m => exists v, view m = Some v /\
                             version v = ver /\ doc_hash v = h) rm.
Proof.
  intros Hag H. unfold phase1 in H.
  pose proof (phase1_from_ind E
    (fun _ st => agreed ver h (agents (fst st)) /\
                 Forall (fun m => exists v, view m = Some v /\
                                   version v = ver /\ doc_hash v = h)
                        (snd st))) as Hind.
  eapply (Hind) with (i := 0%nat) (st := (self, [])) in H;
    [exact H | | reflexivity | split; [exact Hag | constructor]].
  clear. intros j a [s rm] w0 [s' rm'] w0' [Hag Hrm] Hj Hemit.
  cbn [fst snd] in *.
  apply emit_Ok in Hemit as (ps & w1 & msg & _ & Hmsg & Hst).
  injection Hst as -> ->. cbn [fst snd].
  pose proof (Forall_lookup_1 _ _ _ _ Hag Hj) as [Hb (v & Hv & Hver & Hh)].
  split.
  - cbn [agents set_total_messages set_agents].
    eapply agreed_insert; [exact Hag | exact Hj | reflexivity..].
  - apply Forall_app. split; [exact Hrm|].
    rewrite Hb in Hmsg. destruct Hmsg as [-> _].
    apply Forall_forall. intros m Hm.
    apply list_elem_of_In, in_map_iff in Hm as (p & <- & _).
    exists v. cbn. auto.
Qed.

(** A delivery of such a Summary in an agreed population changes no view
    and asks the ledger nothing. *)
Lemma deliver_agreed ver h self m w self' w' :
  agreed ver h (agents self) ->
  (exists v, view m = Some v /\ version v = ver /\ doc_hash v = h) ->
  deliver E self m w = Ok (self', w') ->
  agreed ver h (agents self') /\
  Forall2 untouched (agents self) (agents self') /\
  total_ledger_queries self' = total_ledger_queries self.
Proof.
  intros Hag (sv & Hsv & Hver & Hh) H. unfold deliver in H.
  apply bind_Ok in H as ([i r0] & w1 & Hget & H).
  apply lift_result_Ok in Hget as [Hget Hw]. cbn [fst snd] in Hget, Hw.
  subst w1. apply py_getitem_Ok in Hget.
  pose proof (Forall_lookup_1 _ _ _ _ Hag Hget)
    as [Hb (lv & Hlv & Hver' & Hh')].
  cbn beta iota in H.
  apply bind_Ok in H as ([r1 s1] & w2 & Hhs & H).
  rewrite (handle_summary_quiet self r0 m w sv lv Hb Hsv Hlv) in Hhs
    by congruence.
  injection Hhs as <- <- <-. cbn in H. injection H as <- <-.
  cbn [agents set_agents total_ledger_queries].
  split; [eapply agreed_insert; [exact Hag | exact Hget | reflexivity..]|].
  split; [|reflexivity].
  apply Forall2_insert_r.
  - apply Forall_Forall2_diag, Forall_forall. intros a _. split; reflexivity.
  - intros x Hx. rewrite Hget in Hx. injection Hx as <-. split; reflexivity.
Qed.

Lemma untouched_refl a : untouched a a.
Proof. split; reflexivity. Qed.

Lemma untouched_trans a b c : untouched a b -> untouched b c -> untouched a c.
Proof. intros [H1 H2] [H3 H4]. split; congruence. Qed.

Lemma phase2_agreed ver h self msgs w s w' :
  agreed ver h (agents self) ->
  Forall (fun m => exists v, view m = Some v /\
                             version v = ver /\ doc_hash v = h) msgs ->
  phase2 E self msgs w = Ok (s, w') ->
  agreed ver h (agents s) /\
  Forall2 untouched (agents self) (agents s) /\
  total_ledger_queries s = total_ledger_queries self.
Proof.
  intros Hag Hmsgs H. unfold phase2 in H.
  eapply (foldM_ind E (deliver E)
            (fun b => agreed ver h (agents b) /\
                      Forall2 untouched (agents self) (agents b) /\
                      total_ledger_queries b = total_ledger_queries self))
    in H; [exact H | |].
  - intros b m w0 b' w0' (Hb & Hu & Hq) Hin Hd.
    eapply Forall_forall in Hmsgs; [|apply list_elem_of_In; exact Hin].
    destruct (deliver_agreed ver h b m w0 b' w0' Hb Hmsgs Hd)
      as (Hb' & Hu' & Hq').
    split; [exact Hb'|]. split; [|congruence].
    eapply Forall2_trans; [|exact Hu|exact Hu'].
    intros x y z. apply untouched_trans.
  - split; [exact Hag|]. split; [|reflexivity].
    apply Forall_Forall2_diag, Forall_forall. intros a _.
    apply untouched_refl.
Qed.

(** One round of an agreed population. *)
Lemma run_round_agreed ver h self w b self' w' :
  agreed ver h (agents self) ->
  run_round E self w = Ok ((b, self'), w') ->
  agreed ver h (agents self') /\
  Forall2 untouched (agents self) (agents self') /\
  total_ledger_queries self' = total_ledger_queries self.
Proof.
  intros Hag Hrun. unfold run_round in Hrun.
  apply bind_Ok in Hrun as ([s2 rm] & w1 & H1 & Hrun).
  apply bind_Ok in Hrun as (s3 & w2 & H2 & Hrun).
  injection Hrun as Hcc <-.
  pose proof (check_convergence_frame s3) as Hc. rewrite Hcc in Hc.
  destruct Hc as (Hags & _ & _ & _ & Htq & _).
  pose proof (phase1_frame E _ _ _ _ _ H1) as [Hp HF1]. simpl in Hp, HF1.
  destruct Hp as (_ & _ & _ & _ & _ & _ & Hq1 & _). simpl in Hq1.
  destruct (phase1_agreed ver h (set_round_num self (round_num self + 1))
              _ _ _ _ Hag H1) as [Hag2 Hrm].
  destruct (phase2_agreed ver h _ _ _ _ _ Hag2 Hrm H2)
    as (Hag3 & Hu & Hq3).
  rewrite Hags, Htq. split; [exact Hag3|]. split; [|congruence].
  eapply Forall2_trans; [|exact HF1|exact Hu].
  intros x y z (_ & _ & Hv & _ & Hq) [Hv' Hq']. split; congruence.
Qed.

Lemma untouched_honest_at_ledger ver h s s' :
  agreed ver h (agents s') ->
  Forall2 untouched (agents s) (agents s') ->
  ledger_view s' = ledger_view s ->
  honest_at_ledger s' -> honest_at_ledger s.
Proof.
  intros Hag Hu HL Hh. unfold honest_at_ledger in *.
  apply Forall_lookup_2. intros i a Hi _.
  destruct (Forall2_lookup_l _ _ _ _ _ Hu Hi) as (a' & Hi' & [Hv _]).
  pose proof (Forall_lookup_1 _ _ _ _ Hag Hi') as [Hb _].
  pose proof (Forall_lookup_1 _ _ _ _ Hh Hi' Hb) as Hview.
  rewrite <- Hv, <- HL. exact Hview.
Qed.

(** A session whose rounds all report no convergence is a run of the
    loop of [run_until_convergence] that uses its whole budget. *)
Lemma rounds_until_exhausted k self w self' w' :
  run_rounds E k self w = Ok ((replicate k false, self'), w') ->
  rounds_until E k self w = Ok (self', w').
Proof.
  revert self w. induction k as [|k IH]; intros self w H.
  - injection H as <- <-. reflexivity.
  - cbn [run_rounds] in H.
    apply bind_Ok in H as ([b s1] & w1 & Hr & H).
    apply bind_Ok in H as ([bs s2] & w2 & Hrest & H).
    cbn [fst snd] in Hrest, H. injection H as Hb Hbs <- <-.
    subst b bs. cbn [rounds_until]. rewrite (bind_run _ _ _ _ _ Hr).
    apply IH. exact Hrest.
Qed.

Lemma run_rounds_agreed (HE : EnvOK E) ver h r self w :
  well_formed self -> agreed ver h (agents self) ->
  exists bs self' w',
    run_rounds E r self w = Ok ((bs, self'), w') /\
    agreed ver h (agents self') /\
    Forall2 untouched (agents self) (agents self') /\
    total_ledger_queries self' = total_ledger_queries self /\
    n_agents self' = n_agents self /\
    round_num self' = round_num self + Z.of_nat r /\
    (~ honest_at_ledger self ->
     bs = replicate r false /\
     convergence_round self' = convergence_round self /\
     ~ honest_at_ledger self').
Proof.
  revert self w. induction r as [|r IH]; intros self w Hwf Hag.
  - exists [], self, w. split; [reflexivity|]. split; [exact Hag|].
    split.
    { apply Forall_Forall2_diag, Forall_forall. intros a _.
      apply untouched_refl. }
    repeat split; auto; lia.
  - destruct (run_round_total E HE self w Hwf)
      as (b & s1 & w1 & Hrun & Hwf1 & _).
    destruct (run_round_agreed ver h _ _ _ _ _ Hag Hrun)
      as (Hag1 & Hu1 & Hq1).
    pose proof (run_round_session E _ _ _ _ _ Hrun)
      as ((Hn1 & _ & _ & _ & HL1) & _).
    pose proof (run_round_conv E _ _ _ _ _ Hrun) as (Hrn & Hb & _ & Hcr).
    destruct (IH s1 w1 Hwf1 Hag1)
      as (bs & s2 & w2 & Hrest & Hag2 & Hu2 & Hq2 & Hn2 & Hrn2 & Hnever).
    exists (b :: bs), s2, w2.
    split; [exact (run_rounds_S E r self w (b, s1) w1 (bs, s2) w2 Hrun Hrest)|].
    split; [exact Hag2|]. split.
    { eapply Forall2_trans; [|exact Hu1|exact Hu2].
      intros x y z. apply untouched_trans. }
    split; [congruence|]. split; [congruence|]. split; [lia|].
    intros Hnh.
    assert (Hnh1 : ~ honest_at_ledger s1).
    { intros Hh. apply Hnh.
      exact (untouched_honest_at_ledger ver h self s1 Hag1 Hu1 HL1 Hh). }
    destruct (Hnever Hnh1) as (-> & Hc2 & Hnh2).
    assert (b = false) as ->.
    { destruct b; [|reflexivity]. exfalso. apply Hnh1, Hb. reflexivity. }
    split; [reflexivity|]. split; [|exact Hnh2].
    rewrite Hc2, Hcr. destruct (convergence_round self); reflexivity.
Qed.

(** X10. A population without Byzantine agents whose views all carry the
    same version and digest never asks the ledger: no round changes a
    view or a query counter. If that common view is not the ledger's,
    no round reports convergence, and [run_until_convergence] uses its
    whole budget and reports failure. *)
Theorem agreed_population_never_asks (HE : EnvOK E) ver h self w :
  well_formed self -> agreed ver h (agents self) ->
  (forall r,
     exists bs self' w',
       run_rounds E r self w = Ok ((bs, self'), w') /\
       Forall2 untouched (agents self) (agents self') /\
       total_ledger_queries self' = total_ledger_queries self /\
       (~ honest_at_ledger self ->
        bs = replicate r false /\
        convergence_round self' = convergence_round self)) /\
  (n_agents self <> 0 -> convergence_round self = None ->
   ~ honest_at_ledger self ->
   forall max_rounds,
     exists stats self' w',
       run_until_convergence E self max_rounds w = Ok ((stats, self'), w') /\
       st_converged stats = false /\
       st_convergence_round stats = None /\
       st_rounds stats = round_num self + Z.max 0 max_rounds /\
       st_total_ledger_queries stats = total_ledger_queries self /\
       Forall2 untouched (agents self) (agents self')).
Proof.
  intros Hwf Hag. split.
  - intros r.
    destruct (run_rounds_agreed HE ver h r self w Hwf Hag)
      as (bs & self' & w' & Hrun & _ & Hu & Hq & _ & _ & Hnever).
    exists bs, self', w'. split; [exact Hrun|]. split; [exact Hu|].
    split; [exact Hq|]. intros Hnh. destruct (Hnever Hnh) as (? & ? & _).
    auto.
  - intros Hn Hc Hnh max_rounds.
    destruct (run_rounds_agreed HE ver h (Z.to_nat max_rounds) self w Hwf Hag)
      as (bs & self' & w' & Hrun & _ & Hu & Hq & Hn' & Hrn & Hnever).
    destruct (Hnever Hnh) as (-> & Hc' & _).
    apply rounds_until_exhausted in Hrun.
    destruct (get_statistics self') as [stats|e] eqn:Hst.
    2:{ exfalso. revert Hst. unfold get_statistics, py_truediv.
        destruct (Z.eqb_spec (n_agents self') 0); [congruence|discriminate]. }
    exists stats, self', w'. split.
    { unfold run_until_convergence. rewrite (bind_run _ _ _ _ _ Hrun).
      unfold bind, lift_result. rewrite Hst. reflexivity. }
    apply get_statistics_Ok in Hst
      as (_ & _ & _ & _ & _ & Hr & Hcv & Hcr & _ & Hsq & _).
    rewrite Hr, Hcv, Hcr, Hsq, Hc', Hc, Hq, Hrn.
    repeat split; auto. lia.
Qed.

End Quiet.

(** ** Peers and routing *)

Section Routing.

Context (E : Env).

Lemma py_range_In n p : 0 <= p < n -> In p (py_range n).
Proof.
  intros Hp. unfold py_range. apply in_map_iff.
  exists (Z.to_nat p). split; [lia|]. apply in_seq. lia.
Qed.

Lemma others_length_NoDup (l : list Z) (x : Z) :
  List.NoDup l ->
  (length (List.filter (fun i => negb (i =? x)%Z) l) +
   (if existsb (Z.eqb x) l then 1 else 0) = length l)%nat.
Proof.
  induction 1 as [|a l Hnin _ IH]; [reflexivity|]. cbn [List.filter existsb].
  destruct (Z.eqb_spec a x) as [->|Hne].
  - rewrite Z.eqb_refl. cbn [negb orb].
    destruct (existsb (Z.eqb x) l) eqn:Hex.
    + apply existsb_exists in Hex as (y & Hy & Heq).
      apply Z.eqb_eq in Heq. subst y. contradiction.
    + cbn [length]. lia.
  - replace (x =? a) with false by (symmetry; apply Z.eqb_neq; congruence).
    cbn [negb orb length]. lia.
Qed.

(** The candidates of [_select_peers]: everybody but [id]. *)
Lemma others_length n id :
  Z.of_nat (length (List.filter (fun i => negb (i =? id)) (py_range n))) =
  if (0 <=? id) && (id <? n) then n - 1 else Z.max 0 n.
Proof.
  pose proof (others_length_NoDup (py_range n) id (py_range_NoDup n)) as H.
  rewrite py_range_length in H.
  destruct (existsb (Z.eqb id) (py_range n)) eqn:Hex.
  - apply existsb_exists in Hex as (y & Hy & Heq).
    apply Z.eqb_eq in Heq. subst y. apply py_range_bounds in Hy.
    replace ((0 <=? id) && (id <? n)) with true
      by (symmetry; apply andb_true_iff; split; lia).
    lia.
  - destruct ((0 <=? id) && (id <? n)) eqn:Hin; [|lia].
    apply andb_true_iff in Hin as [H0 H1].
    assert (Hid : In id (py_range n)) by (apply py_range_In; lia).
    assert (existsb (Z.eqb id) (py_range n) = true).
    { apply existsb_exists. exists id. split; [exact Hid|].
      apply Z.eqb_refl. }
    congruence.
Qed.

Lemma select_peers_spec (HE : EnvOK E) self id w :
  0 <= fanout self ->
  exists ps w',
    _select_peers E self id w = Ok (ps, w') /\
    List.NoDup ps /\
    Forall (fun p => 0 <= p < n_agents self /\ p <> id) ps /\
    Z.of_nat (length ps) =
      Z.min (fanout self)
            (if (0 <=? id) && (id <? n_agents self)
             then n_agents self - 1 else Z.max 0 (n_agents self)).
Proof.
  intros Hfan. unfold _select_peers, sample.
  set (others := List.filter (fun i => negb (i =? id))
                             (py_range (n_agents self))).
  destruct (sample_ok E HE others
              (Z.min (fanout self) (Z.of_nat (length others))) w)
    as (ps & w' & Hs & Hlen & rest & Hperm); [lia|].
  exists ps, w'. split; [exact Hs|].
  assert (Hnd : List.NoDup others)
    by (apply List.NoDup_filter, py_range_NoDup).
  split.
  { apply (NoDup_app_remove_r ps rest).
    eapply Permutation_NoDup; [symmetry; exact Hperm | exact Hnd]. }
  split.
  { apply Forall_forall. intros p Hp. apply list_elem_of_In in Hp.
    assert (Hin : In p others).
    { eapply Permutation_in; [exact Hperm|]. apply in_or_app. auto. }
    apply filter_In in Hin as [Hr Hne]. apply py_range_bounds in Hr.
    split; [exact Hr|]. apply negb_true_iff, Z.eqb_neq in Hne. exact Hne. }
  rewrite Hlen. unfold others. rewrite others_length. reflexivity.
Qed.

(** X11. With a non-negative fanout, [_select_peers] returns: the peers
    it selects are pairwise distinct identities of the population, none
    of them the agent's own, and there are [fanout] of them or, if fewer
    candidates exist, as many as there are candidates. *)
Theorem selected_peers_are_distinct_others (HE : EnvOK E) self id w :
  0 <= fanout self ->
  exists ps w',
    _select_peers E self id w = Ok (ps, w') /\
    List.NoDup ps /\
    Forall (fun p => 0 <= p < n_agents self /\ p <> id) ps /\
    Z.of_nat (length ps) =
      Z.min (fanout self)
            (if (0 <=? id) && (id <? n_agents self)
             then n_agents self - 1 else Z.max 0 (n_agents self)).
Proof. exact (select_peers_spec HE self id w). Qed.


(** Phase 1 on a well-formed network: who sends what to whom. *)
Lemma phase1_routing (HE : EnvOK E) self w :
  well_formed self ->
  exists s rm w',
    phase1 E self w = Ok ((s, rm), w') /\
    map (fun m => (sender m, receiver m)) rm = routes (agents s) /\
    Forall (fun a =>
              Z.of_nat (length (peers a)) = fanout self /\
              List.NoDup (peers a) /\
              Forall (fun p => 0 <= p < n_agents self /\ p <> agent_id a)
                     (peers a))
           (agents s) /\
    Forall (fun m =>
              msg_type m = "SUMMARY" /\ msg_round_num m = round_num self /\
              operations m = [] /\ receiver m <> sender m /\
              0 <= receiver m < n_agents self)
           rm.
Proof.
  intros Hwf.
  set (agentOK := fun a : Agent =>
         Z.of_nat (length (peers a)) = fanout self /\
         List.NoDup (peers a) /\
         Forall (fun p => 0 <= p < n_agents self /\ p <> agent_id a)
                (peers a)).
  set (msgOK := fun m : Message =>
         msg_type m = "SUMMARY" /\ msg_round_num m = round_num self /\
         operations m = [] /\ receiver m <> sender m /\
         0 <= receiver m < n_agents self).
  pose proof (phase1_from_total E
    (fun j st =>
       n_agents (fst st) = n_agents self /\
       fanout (fst st) = fanout self /\
       round_num (fst st) = round_num self /\
       length (agents (fst st)) = length (agents self) /\
       map (fun m => (sender m, receiver m)) (snd st) =
         routes (take j (agents (fst st))) /\
       Forall agentOK (take j (agents (fst st))) /\
       Forall msgOK (snd st))) as Htot.
  destruct (Htot) with (rest := agents self) (i := 0%nat)
                       (st := (self, @nil Message)) (w := w)
    as ([s rm] & w' & Hrun & _ & _ & _ & Hlen & Hroutes & Hags & Hmsgs).
  - clear Htot. intros j a [s rm] w0 (Hn & Hfo & Hrn & Hlen & Hr & Ha & Hm) Hj.
    cbn [fst snd] in *.
    assert (Hjlt : (j < length (agents s))%nat)
      by (eapply lookup_lt_Some; exact Hj).
    pose proof (wf_length _ Hwf) as Hl.
    pose proof (wf_fanout _ Hwf) as Hf0.
    pose proof (wf_fanout_cap _ Hwf) as Hcap.
    assert (Hfan : 0 <= fanout s) by lia.
    destruct (select_peers_spec HE s (agent_id a) w0 Hfan)
      as (ps & w1 & Hsel & Hnd & Hps & Hpl).
    rewrite Hn, Hfo in Hpl.
    assert (Hpl' : Z.of_nat (length ps) = fanout self).
    { destruct ((0 <=? agent_id a) && (agent_id a <? n_agents self)); lia. }
    assert (Hmsg : exists msg w2,
               (if is_byzantine a
                then _byzantine_agent_summary E s (set_peers a ps) w1
                     = Ok (msg, w2)
                else msg = _honest_agent_summary s (set_peers a ps) /\
                     w2 = w1) /\
               sender msg = agent_id a /\ msg_type msg = "SUMMARY" /\
               msg_round_num msg = round_num s).
    { destruct (is_byzantine a).
      - destruct (byzantine_summary_run E s (set_peers a ps) w1)
          as (v & w2 & Hbs).
        eexists _, w2. split; [exact Hbs|]. repeat split.
      - eexists _, w1. split; [split; reflexivity|]. repeat split. }
    destruct Hmsg as (msg & w2 & Hmsg & Hsender & Hty & Hround).
    eexists _, w2.
    split; [exact (emit_run E j a s rm w0 ps w1 msg w2 Hsel Hmsg)|].
    cbn [fst snd agents n_agents fanout round_num set_total_messages
         set_agents].
    set (a2 := set_messages_sent (set_peers a ps)
                 (messages_sent a + Z.of_nat (length ps))).
    assert (Htake : take (S j) (<[j := a2]> (agents s)) =
                    take j (agents s) ++ [a2]).
    { rewrite (take_S_r _ j a2)
        by (apply list_lookup_insert_eq; exact Hjlt).
      rewrite take_insert_ge by lia. reflexivity. }
    rewrite Htake, length_insert.
    repeat (split; [assumption|]).
    split.
    { unfold routes in *. rewrite map_app, flat_map_app, Hr. f_equal.
      cbn [flat_map a2 peers agent_id set_messages_sent set_peers].
      rewrite app_nil_r, map_map. cbn [msg_copy sender receiver].
      rewrite Hsender. reflexivity. }
    split.
    { apply Forall_app. split; [exact Ha|]. constructor; [|constructor].
      unfold agentOK.
      cbn [a2 peers agent_id set_messages_sent set_peers].
      rewrite Hn in Hps. auto. }
    apply Forall_app. split; [exact Hm|].
    apply Forall_forall. intros m Hin.
    apply list_elem_of_In, in_map_iff in Hin as (p & <- & Hp).
    eapply Forall_forall in Hps; [|apply list_elem_of_In; exact Hp].
    rewrite Hn in Hps. unfold msgOK. cbn [msg_copy msg_type msg_round_num
      operations receiver sender].
    rewrite Hsender, Hty, Hround, Hrn. repeat split; tauto.
  - reflexivity.
  - cbn [fst snd]. do 5 (split; [reflexivity|]). split; constructor.
  - exists s, rm, w'. cbn [fst snd] in *. split; [exact Hrun|].
    rewrite Nat.add_0_l, <- Hlen, firstn_all in Hroutes, Hags.
    auto.
Qed.

(** X12. Phase 1 of a round on a well-formed network returns. Its queue
    holds, agent by agent in list order, exactly one Summary for each
    peer the agent has just selected; every agent has selected [fanout]
    pairwise distinct peers of the population, none of them itself; and
    every queued message is a Summary of the current round addressed to
    an identity of the population other than its sender. *)
Theorem round_queue_routing (HE : EnvOK E) self w :
  well_formed self ->
  exists s rm w',
    phase1 E self w = Ok ((s, rm), w') /\
    map (fun m => (sender m, receiver m)) rm = routes (agents s) /\
    Forall (fun a =>
              Z.of_nat (length (peers a)) = fanout self /\
              List.NoDup (peers a) /\
              Forall (fun p => 0 <= p < n_agents self /\ p <> agent_id a)
                     (peers a))
           (agents s) /\
    Forall (fun m =>
              msg_type m = "SUMMARY" /\ msg_round_num m = round_num self /\
              operations m = [] /\ receiver m <> sender m /\
              0 <= receiver m < n_agents self)
           rm.
Proof. exact (phase1_routing HE self w). Qed.

End Routing.

(** ** The records of a sweep *)

Section Sweep.

Context (E : Env).

Lemma run_until_convergence_Ok self max_rounds w stats self' w' :
  run_until_convergence E self max_rounds w = Ok ((stats, self'), w') ->
  rounds_until E (Z.to_nat max_rounds) self w = Ok (self', w') /\
  get_statistics self' = Ok stats.
Proof.
  unfold run_until_convergence. intros H.
  apply bind_Ok in H as (s1 & w1 & Hloop & H).
  apply bind_Ok in H as (st & w2 & Hst & H).
  injection H as <- <- <-.
  apply lift_result_Ok in Hst as [Hst Hw]. cbn [fst snd] in Hst, Hw.
  subst w2. auto.
Qed.

Lemma run_trial_Ok n f fanout0 acc trial w trs w' :
  run_trial E n f fanout0 acc trial w = Ok (trs, w') ->
  exists st, trs = acc ++ [st] /\ st_trial st = Some trial /\ trial_ok n f st.
Proof.
  unfold run_trial. intros H.
  apply bind_Ok in H as (net & w1 & Hinit & H).
  apply bind_Ok in H as ([stats net'] & w2 & Hruc & H).
  injection H as <- <-. cbn [fst].
  exists (set_trial stats trial). split; [reflexivity|].
  split; [reflexivity|].
  apply run_until_convergence_Ok in Hruc as [Hloop Hst].
  pose proof (init_Ok E _ _ _ _ _ _ _ Hinit)
    as (_ & _ & _ & Hna & Hfb & _ & _ & Hr0 & _ & _ & Hc0 & _).
  pose proof (rounds_until_Ok E _ _ _ _ _ Hloop Hc0)
    as [((Hn' & Hfb' & _) & _) Hm].
  apply get_statistics_Ok in Hst
    as (_ & Hsn & Hsf & _ & _ & Hsr & Hcv & Hcr & _).
  unfold trial_ok. cbn [set_trial st_n_agents st_f_byzantine
    st_convergence_round st_converged st_rounds].
  rewrite Hsn, Hsf, Hsr, Hcv, Hcr.
  split; [congruence|]. split; [congruence|].
  destruct (convergence_round net') as [c|].
  - destruct Hm as (Hc & Hrange & _). split; [reflexivity|].
    split; [exact Hc|]. lia.
  - destruct Hm as [Hrn _]. split; [reflexivity|]. lia.
Qed.

(** The trial loop, when it returns: one statistics record per trial
    index, in order. *)
Lemma trials_Ok n f fanout0 l acc w trs w' :
  foldM (run_trial E n f fanout0) l acc w = Ok (trs, w') ->
  exists new,
    trs = acc ++ new /\ map st_trial new = map Some l /\
    Forall (trial_ok n f) new.
Proof.
  revert acc w. induction l as [|t l IH]; intros acc w H.
  - injection H as <- <-. exists []. rewrite app_nil_r.
    split; [reflexivity|]. split; [reflexivity | constructor].
  - cbn [foldM] in H. apply bind_Ok in H as (acc1 & w1 & Ht & H).
    apply run_trial_Ok in Ht as (st & -> & Htr & Hok).
    apply IH in H as (new & -> & Hmap & HF).
    exists (st :: new). rewrite <- app_assoc. split; [reflexivity|].
    split; [cbn [map]; rewrite Htr, Hmap; reflexivity|].
    constructor; assumption.
Qed.

Lemma sum_convergence_rounds_cons r l :
  sum_convergence_rounds (r :: l) =
  if st_converged r then
    match st_convergence_round r, sum_convergence_rounds l with
    | Some c, Ok s => Ok (c + s)
    | None, _ => Raise TypeError
    | Some _, Raise e => Raise e
    end
  else sum_convergence_rounds l.
Proof.
  unfold sum_convergence_rounds. cbn [List.filter].
  destruct (st_converged r); [|reflexivity].
  cbn [fold_left].
  set (g := fun (acc : result Z) (r0 : Stats) =>
              match acc, st_convergence_round r0 with
              | Ok s, Some c => Ok (s + c)
              | Ok _, None => Raise TypeError
              | Raise e, _ => Raise e
              end).
  assert (Hraise : forall k e, fold_left g k (Raise e) = Raise e).
  { induction k as [|x k IHk]; intros e; [reflexivity|]. apply IHk. }
  assert (Hshift : forall k s c,
             fold_left g k (Ok (c + s)) =
             match fold_left g k (Ok s) with
             | Ok t => Ok (c + t)
             | Raise e => Raise e
             end).
  { induction k as [|x k IHk]; intros s c; [reflexivity|].
    cbn [fold_left]. unfold g at 2 4.
    destruct (st_convergence_round x) as [d|].
    - replace (c + s + d) with (c + (s + d)) by lia. apply IHk.
    - rewrite !Hraise. reflexivity. }
  destruct (st_convergence_round r) as [c|].
  - replace (0 + c) with (c + 0) by lia. rewrite Hshift.
    destruct (fold_left g _ (Ok 0)); reflexivity.
  - apply Hraise.
Qed.

Lemma converged_count l :
  py_sum (map (fun r : Stats => if st_converged r then 1 else 0) l) =
  Z.of_nat (length (List.filter (fun r => st_converged r) l)).
Proof.
  induction l as [|r l IH]; [reflexivity|].
  cbn [map List.filter]. rewrite py_sum_cons, IH.
  destruct (st_converged r); cbn [length]; lia.
Qed.

(** Every convergence round of a trial lies in the budget, so their sum
    lies between the number of converged trials and 50 times it. *)
Lemma sum_convergence_rounds_bounds n f l total :
  Forall (trial_ok n f) l ->
  sum_convergence_rounds l = Ok total ->
  let count := Z.of_nat (length (List.filter (fun r => st_converged r) l)) in
  count <= total <= 50 * count.
Proof.
  intros HF. revert total.
  induction HF as [|r l Hr _ IH]; intros total H.
  - injection H as <-. simpl. lia.
  - rewrite sum_convergence_rounds_cons in H. cbn [List.filter].
    destruct Hr as (_ & _ & Hr).
    destruct (st_converged r) eqn:Hc.
    + destruct (st_convergence_round r) as [c|]; [|discriminate].
      destruct (sum_convergence_rounds l) as [s|e]; [|discriminate].
      injection H as <-. specialize (IH s eq_refl). cbn [length] in *.
      lia.
    + apply IH. exact H.
Qed.

Lemma Qdiv_bounds a b lo hi :
  0 < b -> lo * b <= a <= hi * b ->
  (inject_Z lo <= inject_Z a / inject_Z b <= inject_Z hi)%Q.
Proof.
  intros Hb Hab. destruct b as [|p|p]; try lia.
  unfold Qle, Qdiv, Qmult, Qinv, inject_Z. simpl. nia.
Qed.

Lemma Qdiv_pos a b : 0 < b -> 0 < a -> (0 < inject_Z a / inject_Z b)%Q.
Proof.
  intros Hb Ha. destruct b as [|p|p]; try lia.
  unfold Qlt, Qdiv, Qmult, Qinv, inject_Z. simpl. nia.
Qed.

(** The aggregation of a configuration, when it returns a record. *)
Lemma aggregate_record n f f_ratio fanout0 trials l res :
  Forall (trial_ok n f) l -> Z.of_nat (length l) = Z.max 0 trials ->
  aggregate n f f_ratio fanout0 trials l = Ok res ->
  0 < trials /\
  (0 < res_convergence_rate res <= 1)%Q /\
  exists avg, res_avg_convergence_round res = Some avg /\ (1 <= avg <= 50)%Q.
Proof.
  intros HF Hlen. unfold aggregate.
  destruct (sum_convergence_rounds l) as [total|e] eqn:Hsum; [|discriminate].
  pose proof (sum_convergence_rounds_bounds n f l total HF Hsum) as Hb.
  cbv zeta in Hb. rewrite converged_count.
  set (count := Z.of_nat (length (List.filter (fun r => st_converged r) l)))
    in *.
  assert (Hcount : 0 <= count <= Z.of_nat (length l)).
  { unfold count. pose proof (List.filter_length_le
      (fun r => st_converged r) l). lia. }
  unfold py_truediv.
  destruct (Z.eqb_spec count 0) as [|Hc]; [discriminate|].
  destruct (Z.eqb_spec trials 0) as [|Ht]; [discriminate|].
  intros [= <-]. cbn [res_convergence_rate res_avg_convergence_round].
  assert (Htr : 0 < trials) by lia.
  split; [exact Htr|]. split.
  - split; [apply Qdiv_pos; lia|].
    apply (Qdiv_bounds count trials 0 1); lia.
  - exists (inject_Z total / inject_Z count)%Q. split.
    + replace (Qeq_bool _ _) with true; [reflexivity|].
      symmetry. apply Qeq_bool_iff. reflexivity.
    + apply (Qdiv_bounds total count 1 50); lia.
Qed.


(** One pair of the sweep, when it returns: the results are untouched or
    one well-formed record longer. *)
Lemma run_config_record fanout0 trials n results f_ratio w results' w' :
  run_config E fanout0 trials n results f_ratio w = Ok (results', w') ->
  (results' = results /\ skipped n f_ratio = Ok true) \/
  (exists res,
     results' = results ++ [res] /\ skipped n f_ratio = Ok false /\
     res_n res = n /\ res_f_ratio res = f_ratio /\
     byzantine_count n f_ratio = Ok (res_f res) /\
     res_fanout res = fanout0 /\ res_trials res = trials /\ 0 < trials /\
     map st_trial (res_trial_results res) = map Some (py_range trials) /\
     Forall (trial_ok n (res_f res)) (res_trial_results res) /\
     (0 < res_convergence_rate res <= 1)%Q /\
     exists avg,
       res_avg_convergence_round res = Some avg /\ (1 <= avg <= 50)%Q).
Proof.
  intros H. unfold run_config in H.
  apply bind_Ok in H as (f & w01 & Hf0 & H).
  apply lift_result_Ok in Hf0 as [Hf0 Hw01]. simpl in Hf0, Hw01. subst w01.
  apply bind_Ok in H as (bound & w02 & Hb & H).
  apply lift_result_Ok in Hb as [Hb Hw02]. simpl in Hb, Hw02. subst w02.
  unfold skipped. rewrite Hf0, Hb.
  destruct (Qle_bool bound (inject_Z f)) eqn:Hg.
  - injection H as <- <-. left. split; reflexivity.
  - right.
    apply bind_Ok in H as (l & w1 & Hl & H).
    apply bind_Ok in H as (res & w2 & Hagg & H). injection H as <- <-.
    apply lift_result_Ok in Hagg as [Hagg _]. cbn [fst] in Hagg.
    apply trials_Ok in Hl as (new & Hnew & Hmap & HF).
    cbn [app] in Hnew. subst new.
    assert (Hlen : Z.of_nat (length l) = Z.max 0 trials).
    { rewrite <- (length_map st_trial l), Hmap, length_map, py_range_length.
      lia. }
    pose proof (aggregate_record n f f_ratio fanout0 trials l res HF Hlen
                  Hagg) as (Htr & Hrate & Havg).
    apply aggregate_Ok in Hagg as (Hn & Hf & Hr & Hfo & Ht & Hl).
    exists res. split; [reflexivity|]. split; [reflexivity|].
    rewrite Hn, Hf, Hr, Hfo, Ht, Hl. repeat (split; [auto; fail|]).
    auto.
Qed.

(** A pair that is not skipped has [3 f < n], for every [n] a float holds
    exactly. *)
Lemma not_skipped_bound n f_ratio f :
  byzantine_count n f_ratio = Ok f ->
  skipped n f_ratio = Ok false ->
  - 2 ^ 53 < n < 2 ^ 53 ->
  3 * f < n.
Proof.
  intros Hf Hsk Hn. unfold skipped in Hsk. rewrite Hf in Hsk.
  destruct (round64_third n f Hn) as (bound & Hr & Hiff).
  unfold py_truediv64 in Hsk. cbn [Z.eqb] in Hsk. rewrite Hr in Hsk.
  injection Hsk as Hsk.
  destruct (Z.le_gt_cases n (3 * f)) as [Hle|Hgt]; [|lia].
  apply Hiff, Qle_bool_iff in Hle. congruence.
Qed.

(** The records of a sweep, when it returns. *)
Lemma run_experiment_records n_values f_ratios fanout0 trials w results w' :
  run_experiment E n_values f_ratios fanout0 trials w = Ok (results, w') ->
  Forall (fun res =>
            In (res_n res) n_values /\ In (res_f_ratio res) f_ratios /\
            byzantine_count (res_n res) (res_f_ratio res) =
              Ok (res_f res) /\
            skipped (res_n res) (res_f_ratio res) = Ok false /\
            (- 2 ^ 53 < res_n res < 2 ^ 53 -> 3 * res_f res < res_n res) /\
            res_fanout res = fanout0 /\ res_trials res = trials /\
            0 < trials /\
            map st_trial (res_trial_results res) =
              map Some (py_range trials) /\
            Forall (trial_ok (res_n res) (res_f res))
                   (res_trial_results res) /\
            (0 < res_convergence_rate res <= 1)%Q /\
            exists avg,
              res_avg_convergence_round res = Some avg /\
              (1 <= avg <= 50)%Q)
         results.
Proof.
  unfold run_experiment. intros H.
  eapply (foldM_ind E _ (Forall _)) in H; [exact H | | constructor].
  intros results0 n w0 results1 w1 HF0 Hn Hinner.
  eapply (foldM_ind E _ (Forall _)) in Hinner; [exact Hinner | | exact HF0].
  intros rs0 ratio w2 rs1 w3 HFr Hratio Hcfg.
  apply run_config_record in Hcfg
    as [[-> _] | (res & -> & Hsk & Hrn & Hrr & Hrf & Hfo & Ht & Htr & Hmap
                  & Htrials & Hrate & Havg)]; [exact HFr|].
  apply Forall_app. split; [exact HFr|]. constructor; [|constructor].
  rewrite Hrn, Hrr. split; [exact Hn|]. split; [exact Hratio|].
  split; [exact Hrf|]. split; [exact Hsk|]. split.
  { apply (not_skipped_bound n ratio); assumption. }
  auto 10.
Qed.

(** X13. Every record a sweep returns belongs to a pair ([n], [f_ratio])
    of its inputs; its [f] is the [int(n * f_ratio)] the driver computed,
    the product being the binary64 one; the guard [f >= n / 3] was
    computed false for it, which for every [n] a float holds exactly
    means [3 f < n]; the sweep ran a positive number of trials for it,
    numbered [0 .. trials-1] in order, each with a budget of 50 rounds;
    at least one of them converged, so the convergence rate lies in
    (0, 1]; and the average convergence round is always present (the
    branch that would store [None] is never taken) and lies between 1
    and 50. *)
Theorem sweep_records n_values f_ratios fanout0 trials w results w' :
  run_experiment E n_values f_ratios fanout0 trials w = Ok (results, w') ->
  Forall (fun res =>
            In (res_n res) n_values /\ In (res_f_ratio res) f_ratios /\
            byzantine_count (res_n res) (res_f_ratio res) =
              Ok (res_f res) /\
            skipped (res_n res) (res_f_ratio res) = Ok false /\
            (- 2 ^ 53 < res_n res < 2 ^ 53 -> 3 * res_f res < res_n res) /\
            res_fanout res = fanout0 /\ res_trials res = trials /\
            0 < trials /\
            map st_trial (res_trial_results res) =
              map Some (py_range trials) /\
            Forall (trial_ok (res_n res) (res_f res))
                   (res_trial_results res) /\
            (0 < res_convergence_rate res <= 1)%Q /\
            exists avg,
              res_avg_convergence_round res = Some avg /\
              (1 <= avg <= 50)%Q)
         results.
Proof. apply run_experiment_records. Qed.

Lemma run_config_without_trials fanout0 trials n results f_ratio w :
  trials <= 0 ->
  run_config E fanout0 trials n results f_ratio w =
  match skipped n f_ratio with
  | Ok true => Ok (results, w)
  | Ok false => Raise ZeroDivisionError
  | Raise e => Raise e
  end.
Proof.
  intros Ht. unfold skipped, run_config.
  unfold bind at 1, lift_result at 1.
  destruct (byzantine_count n f_ratio) as [f|e]; [|reflexivity].
  unfold bind at 1, lift_result at 1.
  destruct (py_truediv64 n 3) as [bound|e]; [|reflexivity].
  destruct (Qle_bool bound (inject_Z f)); [reflexivity|].
  unfold py_range. replace (Z.to_nat trials) with O by lia.
  cbn [seq map foldM]. unfold bind at 1. unfold ret at 1.
  unfold bind, lift_result.
  rewrite aggregate_no_converged by constructor. reflexivity.
Qed.

Lemma first_failure_app l1 l2 :
  first_failure (l1 ++ l2) =
  match first_failure l1 with
  | None => first_failure l2
  | Some e => Some e
  end.
Proof.
  induction l1 as [|[n r] l1 IH]; [reflexivity|].
  cbn [app first_failure].
  destruct (skipped n r) as [[|]|e]; [exact IH|reflexivity|reflexivity].
Qed.

(** X14. A sweep asked for no trials ([trials <= 0]) goes through the
    pairs of its inputs in the order of its loops and stops at the first
    pair that is not skipped, where it averages over an empty list of
    trials and raises [ZeroDivisionError], or whose guard raises (an [n]
    too large for a float, a product that is infinite); it returns the
    empty list if the guard skips every pair. The guard is the computed
    one, with the binary64 product and quotient. *)
Theorem sweep_without_trials n_values f_ratios fanout0 trials w :
  trials <= 0 ->
  run_experiment E n_values f_ratios fanout0 trials w =
  match first_failure (sweep_pairs n_values f_ratios) with
  | None => Ok ([], w)
  | Some e => Raise e
  end.
Proof.
  intros Ht. unfold run_experiment, sweep_pairs.
  generalize (@nil ConfigResult).
  assert (Hinner : forall n rs results,
             foldM (run_config E fanout0 trials n) rs results w =
             match first_failure (map (pair n) rs) with
             | None => Ok (results, w)
             | Some e => Raise e
             end).
  { intros n rs. induction rs as [|r rs IH]; intros results;
      [reflexivity|].
    cbn [foldM map first_failure]. unfold bind.
    rewrite (run_config_without_trials _ _ _ _ _ _ Ht).
    destruct (skipped n r) as [[|]|e]; [apply IH|reflexivity|reflexivity]. }
  induction n_values as [|n ns IH]; intros results; [reflexivity|].
  cbn [foldM flat_map]. unfold bind. rewrite Hinner, first_failure_app.
  destruct (first_failure (map (pair n) f_ratios)); [reflexivity|apply IH].
Qed.

End Sweep.

(** ** Equality and hashing of views *)

(** X15. [DIDView.__eq__] is an equivalence on views that does not look
    at the time stamp, and [__hash__] agrees with it: views that compare
    equal have the same hash, whatever Python's [hash] is. *)
Theorem equal_views_hash_alike
    (py_hash : string * Z * string -> Z) (a b c : DIDView) (t : Q) :
  __eq__ a a = true /\
  __eq__ a b = __eq__ b a /\
  (__eq__ a b = true -> __eq__ b c = true -> __eq__ a c = true) /\
  (__eq__ a b = true -> __hash__ py_hash a = __hash__ py_hash b) /\
  __eq__ (restamp a t) a = true /\
  __hash__ py_hash (restamp a t) = __hash__ py_hash a.
Proof.
  split; [apply DIDView_eq_iff; auto|].
  split.
  { apply Bool.eq_iff_eq_true. rewrite !DIDView_eq_iff.
    split; intros (? & ? & ?); auto. }
  split.
  { rewrite !DIDView_eq_iff. intros (? & ? & ?) (? & ? & ?).
    repeat split; congruence. }
  split.
  { rewrite DIDView_eq_iff. intros (Hd & Hv & Hh). unfold __hash__.
    rewrite Hd, Hv, Hh. reflexivity. }
  split; [apply DIDView_eq_iff; auto | reflexivity].
Qed.

(** ** Parameters the simulator rejects *)

Lemma TapeEnv_strict : EnvStrict TapeEnv.
Proof.
  split. intros pop k w Hk. simpl. unfold tape_sample.
  destruct ((0 <=? k) && (k <=? Z.of_nat (length pop))) eqn:Hin;
    [|reflexivity].
  apply andb_true_iff in Hin as [H0 H1]. lia.
Qed.

Section Rejected.

Context (E : Env).

(** X16. The constructor rejects a Byzantine count that is negative or
    larger than the population: it raises [ValueError] when it draws the
    Byzantine identities, before any agent is built. *)
Theorem constructor_rejects_bad_count
    (HS : EnvStrict E) n f fanout0 did0 w :
  f < 0 \/ Z.max 0 n < f ->
  __init__ E n f fanout0 did0 w = Raise ValueError.
Proof.
  intros Hf. unfold __init__, sample, bind.
  rewrite (sample_err E HS); [reflexivity|].
  rewrite py_range_length. lia.
Qed.

(** X17. The constructor accepts a negative fanout, but the network it
    builds cannot run: with at least one agent, the first peer selection
    of the first round asks for a negative number of peers and raises
    [ValueError], and so does [run_until_convergence] with a positive
    budget. *)
Theorem negative_fanout_round_raises
    (HE : EnvOK E) (HS : EnvStrict E) n f fanout0 did0 w :
  0 < n -> 0 <= f <= n -> fanout0 < 0 ->
  exists net w1,
    __init__ E n f fanout0 did0 w = Ok (net, w1) /\
    fanout net = fanout0 /\
    forall w2,
      run_round E net w2 = Raise ValueError /\
      forall max_rounds, 0 < max_rounds ->
        run_until_convergence E net max_rounds w2 = Raise ValueError.
Proof.
  intros Hn Hf Hfan.
  destruct (init_total E HE n f fanout0 did0 w Hf) as (net & w1 & Hinit).
  exists net, w1. split; [exact Hinit|].
  pose proof (init_Ok E _ _ _ _ _ _ _ Hinit)
    as (_ & _ & _ & Hna & _ & Hfo & _).
  destruct (init_constructed E _ _ _ _ _ _ _ Hinit) as (ids & w1' & _ & HF & _).
  apply Forall2_length in HF. rewrite py_range_length in HF.
  split; [lia|]. intros w2.
  assert (Hround : run_round E net w2 = Raise ValueError).
  { unfold run_round, phase1.
    cbn [agents set_round_num].
    destruct (agents net) as [|a rest] eqn:Hag; [simpl in HF; lia|].
    cbn [phase1_from]. unfold emit, _select_peers, sample.
    cbn [fanout n_agents set_round_num].
    unfold bind at 1. unfold bind at 1. unfold bind at 1.
    rewrite (sample_err E HS); [reflexivity|]. lia. }
  split; [exact Hround|]. intros max_rounds Hpos.
  unfold run_until_convergence.
  destruct (Z.to_nat max_rounds) as [|k] eqn:Hk; [lia|].
  cbn [rounds_until]. unfold bind. rewrite Hround. reflexivity.
Qed.

End Rejected.

(** ** Rounds in which everybody talks to everybody *)

Section FullBroadcast.

Context (E : Env).

(** [_handle_summary] at an honest receiver, by the test it makes. *)
Lemma handle_summary_exact self r0 m w lv r1 self1 w' :
  is_byzantine r0 = false -> local_view r0 = Some lv ->
  _handle_summary E self r0 m w = Ok ((r1, self1), w') ->
  let r := set_messages_received r0 (messages_received r0 + 1) in
  exists sv,
    view m = Some sv /\
    if beats sv lv then
      r1 = set_local_view (set_ledger_queries r (ledger_queries r0 + 1))
             (Some (ledger_copy self (fst (time_time E w)))) /\
      self1 = set_total_ledger_queries self (total_ledger_queries self + 1)
    else r1 = r /\ self1 = self.
Proof.
  intros Hb Hl. unfold _handle_summary.
  change (is_byzantine (set_messages_received r0 (messages_received r0 + 1)))
    with (is_byzantine r0).
  rewrite Hb. destruct (view m) as [sv|]; [|discriminate].
  cbn [attr_of]. unfold bind at 1. unfold ret at 1.
  cbn [local_view set_messages_received]. rewrite Hl. cbn [attr_of].
  unfold bind at 1. unfold ret at 1. unfold beats.
  intros H. exists sv. split; [reflexivity|].
  destruct (version sv >? version lv); cbn [orb].
  { rewrite query_ledger_run in H. injection H as <- <- _. auto. }
  destruct (version sv =? version lv); cbn [andb].
  - destruct (negb (String.eqb (doc_hash sv) (doc_hash lv))).
    + rewrite query_ledger_run in H. injection H as <- <- _. auto.
    + injection H as <- <- _. auto.
  - injection H as <- <- _. auto.
Qed.

(** One delivery, seen from the honest agent at position [j]. *)
Lemma deliver_at self m w self' w' j a lv :
  deliver E self m w = Ok (self', w') ->
  0 <= receiver m < Z.of_nat (length (agents self)) ->
  agents self !! j = Some a -> is_byzantine a = false ->
  local_view a = Some lv ->
  exists a',
    agents self' !! j = Some a' /\ is_byzantine a' = false /\
    if beaten_in [m] j lv then
      at_ledger_copy (ledger_view self) a' /\
      ledger_queries a' = ledger_queries a + 1
    else local_view a' = local_view a /\
         ledger_queries a' = ledger_queries a.
Proof.
  intros H Hrange Hj Hb Hl. unfold beaten_in. cbn [existsb].
  rewrite orb_false_r.
  assert (Hjlt : (j < length (agents self))%nat)
    by (eapply lookup_lt_Some; exact Hj).
  destruct (py_getitem_run (agents self) (receiver m) Hrange)
    as (r0 & Hr0 & Hget).
  unfold deliver in H. apply bind_Ok in H as ([i r0'] & w1 & Hget' & H).
  apply lift_result_Ok in Hget' as [Hget' Hw]. cbn [fst snd] in Hget', Hw.
  rewrite Hget in Hget'. injection Hget' as <- <-. subst w1.
  cbn beta iota in H. apply bind_Ok in H as ([r1 s1] & w2 & Hhs & H).
  cbn in H. injection H as <- <-. cbn [agents set_agents].
  destruct (Z.eqb_spec (receiver m) (Z.of_nat j)) as [Heq|Hne].
  - rewrite Heq, Nat2Z.id in Hr0. rewrite Heq, Nat2Z.id. rewrite Hj in Hr0.
    injection Hr0 as <-.
    destruct (handle_summary_exact _ _ _ _ _ _ _ _ Hb Hl Hhs)
      as (sv & Hsv & Hcase).
    rewrite Hsv. cbn [andb].
    assert (Hlen : length (agents s1) = length (agents self)).
    { destruct (beats sv lv); destruct Hcase as [_ ->]; reflexivity. }
    exists r1. split; [apply list_lookup_insert_eq; lia|].
    destruct (beats sv lv); destruct Hcase as [-> ->].
    + split; [exact Hb|]. split; [|reflexivity].
      eexists. reflexivity.
    + split; [exact Hb|]. split; reflexivity.
  - cbn [andb]. exists a.
    assert (Hags : agents s1 = agents self).
    { apply handle_summary_cases in Hhs as [(_ & -> & _)|(_ & _ & -> & _)];
        reflexivity. }
    rewrite Hags. split; [|auto].
    rewrite list_lookup_insert_ne by lia. exact Hj.
Qed.

(** Phase 2 never takes a copy of the ledger's view away. *)
Lemma phase2_keeps_ledger_copy self msgs w s w' j a :
  phase2 E self msgs w = Ok (s, w') ->
  agents self !! j = Some a -> at_ledger_copy (ledger_view self) a ->
  exists a',
    agents s !! j = Some a' /\ agent_type a' = agent_type a /\
    at_ledger_copy (ledger_view self) a' /\
    ledger_queries a <= ledger_queries a'.
Proof.
  intros H Hj Hc.
  pose proof (phase2_Ok E _ _ _ _ _ H) as (_ & _ & _ & _ & Had).
  pose proof (phase2_session E _ _ _ _ _ H) as (Hdel & _).
  destruct (Forall2_lookup_l _ _ _ _ _ Had Hj) as (a' & Hj' & _ & Hty & Hv).
  destruct (Forall2_lookup_l _ _ _ _ _ Hdel Hj)
    as (a'' & Hj'' & _ & _ & Hq & _).
  rewrite Hj' in Hj''. injection Hj'' as <-.
  exists a'. split; [exact Hj'|]. split; [exact Hty|]. split; [|lia].
  destruct Hv as [Hv | (t & _ & Hv)].
  - destruct Hc as [t Hc]. exists t. congruence.
  - exists t. exact Hv.
Qed.

(** Phase 2, seen from the honest agent at position [j]: it ends with a
    copy of the ledger's view if some message addressed to it beats the
    view it held, and with that view otherwise. *)
Lemma phase2_receiver msgs : forall self w s w' j a lv,
  phase2 E self msgs w = Ok (s, w') ->
  Forall (fun m => 0 <= receiver m < Z.of_nat (length (agents self))) msgs ->
  agents self !! j = Some a -> is_byzantine a = false ->
  local_view a = Some lv ->
  exists a',
    agents s !! j = Some a' /\ is_byzantine a' = false /\
    if beaten_in msgs j lv then
      at_ledger_copy (ledger_view self) a' /\
      ledger_queries a < ledger_queries a'
    else local_view a' = local_view a /\
         ledger_queries a' = ledger_queries a.
Proof.
  induction msgs as [|m msgs IH]; intros self w s w' j a lv H Hr Hj Hb Hl.
  - injection H as <- <-. exists a. cbn. auto.
  - unfold phase2 in H. cbn [foldM] in H.
    apply bind_Ok in H as (s1 & w1 & Hd & Hrest).
    apply Forall_cons in Hr as [Hrm Hr].
    destruct (deliver_at _ _ _ _ _ _ _ _ Hd Hrm Hj Hb Hl)
      as (a1 & Hj1 & Hb1 & Hcase).
    pose proof (deliver_Ok E _ _ _ _ _ Hd)
      as (i & r0 & r1 & _ & Hags & _ & _ & (_ & _ & _ & _ & HL) & _).
    assert (Hlen : length (agents s1) = length (agents self))
      by (rewrite Hags; apply length_insert).
    rewrite <- Hlen in Hr.
    change (beaten_in (m :: msgs) j lv)
      with (((receiver m =? Z.of_nat j) &&
             match view m with Some sv => beats sv lv | None => false end)
            || beaten_in msgs j lv).
    unfold beaten_in in Hcase at 1. cbn [existsb] in Hcase.
    rewrite orb_false_r in Hcase.
    destruct ((receiver m =? Z.of_nat j) &&
              match view m with Some sv => beats sv lv | None => false end).
    + cbn [orb]. destruct Hcase as [Hc Hq]. rewrite <- HL in Hc.
      destruct (phase2_keeps_ledger_copy _ _ _ _ _ _ _ Hrest Hj1 Hc)
        as (a' & Hj' & Hty & Hc' & Hq').
      exists a'. split; [exact Hj'|]. split.
      { unfold is_byzantine in *. rewrite Hty. exact Hb1. }
      rewrite <- HL. split; [exact Hc' | lia].
    + cbn [orb]. destruct Hcase as [Hv Hq].
      assert (Hl1 : local_view a1 = Some lv) by congruence.
      destruct (IH _ _ _ _ _ _ _ Hrest Hr Hj1 Hb1 Hl1)
        as (a' & Hj' & Hb' & Hcase').
      exists a'. split; [exact Hj'|]. split; [exact Hb'|].
      rewrite HL in Hcase'.
      destruct (beaten_in msgs j lv).
      * destruct Hcase' as [Hc' Hq']. split; [exact Hc' | lia].
      * destruct Hcase' as [Hv' Hq']. split; congruence.
Qed.

End FullBroadcast.

Section FullBroadcastRound.

Context (E : Env).

Lemma beats_irrefl v : beats v v = false.
Proof.
  unfold beats. rewrite String.eqb_refl, andb_false_r, orb_false_r. lia.
Qed.

Lemma py_range_lookup n i :
  (i < Z.to_nat n)%nat -> py_range n !! i = Some (Z.of_nat i).
Proof.
  intros Hi. unfold py_range. rewrite list_lookup_fmap.
  rewrite lookup_seq_lt by exact Hi. reflexivity.
Qed.

Lemma ids_lookup (l : list Agent) n i a :
  map agent_id l = py_range n -> l !! i = Some a -> agent_id a = Z.of_nat i.
Proof.
  intros Hids Hi.
  assert (Hlen : length l = Z.to_nat n).
  { rewrite <- (length_map agent_id), Hids. apply py_range_length. }
  assert (Hlt : (i < Z.to_nat n)%nat).
  { rewrite <- Hlen. eapply lookup_lt_Some. exact Hi. }
  pose proof (py_range_lookup n i Hlt) as Hr. rewrite <- Hids in Hr.
  change (map agent_id l) with (agent_id <$> l) in Hr.
  rewrite list_lookup_fmap, Hi in Hr. injection Hr as Hr. exact Hr.
Qed.

Lemma adopts_ids L l l' :
  Forall2 (adopts L) l l' -> map agent_id l' = map agent_id l.
Proof.
  induction 1 as [|a a' l l' (Hid & _) _ IH]; [reflexivity|].
  cbn [map]. rewrite Hid, IH. reflexivity.
Qed.

Lemma adopts_honest L l l' :
  Forall2 (adopts L) l l' ->
  Forall (fun a => is_byzantine a = false) l ->
  Forall (fun a => is_byzantine a = false) l'.
Proof.
  induction 1 as [|a a' l l' (_ & Hty & _) _ IH]; intros HF;
    [constructor|].
  apply Forall_cons in HF as [Ha HF]. constructor; [|apply IH; exact HF].
  unfold is_byzantine in *. rewrite Hty. exact Ha.
Qed.

(** An agent that selected [n - 1] peers selected everybody else. *)
Lemma full_peers n id ps q :
  List.NoDup ps -> Z.of_nat (length ps) = n - 1 ->
  Forall (fun p => 0 <= p < n /\ p <> id) ps ->
  0 <= id < n -> 0 <= q < n -> q <> id -> In q ps.
Proof.
  intros Hnd Hlen Hps Hid Hq Hne.
  set (others := List.filter (fun i => negb (i =? id)) (py_range n)).
  assert (Hincl : incl others ps).
  { apply NoDup_length_incl; [exact Hnd| |].
    - pose proof (others_length n id) as Hol. fold others in Hol.
      replace ((0 <=? id) && (id <? n)) with true in Hol
        by (symmetry; apply andb_true_iff; split; lia).
      lia.
    - intros p Hp. apply filter_In.
      eapply Forall_forall in Hps; [|apply list_elem_of_In; exact Hp].
      split; [apply py_range_In; tauto|].
      apply negb_true_iff, Z.eqb_neq. tauto. }
  apply Hincl, filter_In. split; [apply py_range_In; exact Hq|].
  apply negb_true_iff, Z.eqb_neq. exact Hne.
Qed.

(** The queue of phase 1 when nobody is Byzantine: every agent's own
    view, once for each of its peers. *)
Lemma phase1_honest_queue self w s rm w' :
  Forall (fun a => is_byzantine a = false) (agents self) ->
  phase1 E self w = Ok ((s, rm), w') ->
  rm = flat_map (fun a' => map (summary_to (round_num self) a') (peers a'))
                (agents s).
Proof.
  intros Hh H.
  pose proof (phase1_frame E _ _ _ _ _ H) as [_ HF].
  apply Forall2_length in HF.
  unfold phase1 in H.
  pose proof (phase1_from_ind E
    (fun j st =>
       round_num (fst st) = round_num self /\
       Forall (fun a => is_byzantine a = false) (agents (fst st)) /\
       snd st =
         flat_map (fun a' => map (summary_to (round_num self) a') (peers a'))
                  (take j (agents (fst st))))) as Hind.
  eapply Hind with (i := 0%nat) (st := (self, [])) in H;
    [ | | reflexivity | split; [reflexivity | split; [exact Hh | reflexivity]]].
  - cbn [fst snd] in H. destruct H as (_ & _ & ->).
    rewrite Nat.add_0_l, HF, firstn_all. reflexivity.
  - clear. intros j a [s rm] w0 [s' rm'] w0' (Hrn & Hh & Hrm) Hj Hemit.
    cbn [fst snd] in *.
    assert (Hjlt : (j < length (agents s))%nat)
      by (eapply lookup_lt_Some; exact Hj).
    pose proof (Forall_lookup_1 _ _ _ _ Hh Hj) as Hb.
    apply emit_Ok in Hemit as (ps & w1 & msg & _ & Hmsg & Hst).
    rewrite Hb in Hmsg. destruct Hmsg as [-> ->].
    injection Hst as -> ->.
    cbn [agents round_num set_total_messages set_agents].
    set (a2 := set_messages_sent (set_peers a ps)
                 (messages_sent a + Z.of_nat (length ps))).
    split; [exact Hrn|]. split.
    { apply Forall_insert; [exact Hh | exact Hb]. }
    rewrite (take_S_r _ j a2) by (apply list_lookup_insert_eq; exact Hjlt).
    rewrite take_insert_ge by lia.
    rewrite flat_map_app, <- Hrm. f_equal. cbn [flat_map].
    rewrite app_nil_r. cbn [a2 peers set_messages_sent set_peers].
    apply map_ext. intros p. unfold msg_copy, summary_to,
      _honest_agent_summary. cbn. rewrite Hrn. reflexivity.
Qed.


Lemma well_formed_set_round_num self r :
  well_formed self -> well_formed (set_round_num self r).
Proof. intros [H1 H2 H3 H4]. split; assumption. Qed.

(** One round of such a network, agent by agent. *)
Lemma full_broadcast_round (HE : EnvOK E) self w :
  full_honest self ->
  exists b self' w',
    run_round E self w = Ok ((b, self'), w') /\
    full_honest self' /\ ledger_view self' = ledger_view self /\
    forall j a,
      agents self !! j = Some a ->
      exists a',
        agents self' !! j = Some a' /\
        if beaten_by (agents self) a then
          at_ledger_copy (ledger_view self) a' /\
          ledger_queries a < ledger_queries a'
        else local_view a' = local_view a /\
             ledger_queries a' = ledger_queries a.
Proof.
  intros (Hwf & Hh & Hids & Hfull).
  destruct (run_round_total E HE self w Hwf)
    as (b & self' & w' & Hrun & Hwf' & _).
  exists b, self', w'. split; [exact Hrun|].
  pose proof (run_round_session E _ _ _ _ _ Hrun)
    as ((Hn' & _ & Hfo' & _ & HL') & Had & _).
  split.
  { split; [exact Hwf'|]. split; [exact (adopts_honest _ _ _ Had Hh)|].
    split; [|congruence].
    rewrite (adopts_ids _ _ _ Had), Hn'. exact Hids. }
  split; [exact HL'|].
  unfold run_round in Hrun.
  apply bind_Ok in Hrun as ([s2 rm] & w1 & H1 & Hrun).
  apply bind_Ok in Hrun as (s3 & w2 & H2 & Hrun).
  injection Hrun as Hcc _.
  pose proof (check_convergence_frame s3) as Hc. rewrite Hcc in Hc.
  destruct Hc as (Hags & _).
  set (self1 := set_round_num self (round_num self + 1)) in *.
  destruct (phase1_routing E HE self1 w
              (well_formed_set_round_num self _ Hwf))
    as (s2' & rm' & w1' & H1' & _ & Hpeers & Hmsgs).
  rewrite H1 in H1'. injection H1' as <- <- <-.
  pose proof (phase1_frame E _ _ _ _ _ H1) as [Hp HF1].
  destruct Hp as (_ & _ & _ & _ & HL1 & _).
  cbn [agents n_agents fanout ledger_view self1 set_round_num]
    in HF1, Hpeers, Hmsgs, HL1.
  pose proof (phase1_honest_queue self1 w s2 rm w1 Hh H1) as Hrm.
  assert (Hlen2 : length (agents s2) = Z.to_nat (n_agents self)).
  { rewrite <- (wf_length _ Hwf). symmetry.
    exact (Forall2_length _ _ _ HF1). }
  assert (Hrange : Forall (fun m => 0 <= receiver m
                                    < Z.of_nat (length (agents s2))) rm).
  { eapply Forall_impl; [exact Hmsgs|]. simpl. intros m Hm. lia. }
  intros j a Hj.
  destruct (Forall2_lookup_l _ _ _ _ _ HF1 Hj)
    as (a2 & Hj2 & Hid2 & Hty2 & Hv2 & _ & Hq2).
  pose proof (Forall_lookup_1 _ _ _ _ Hh Hj) as Hb.
  assert (Hb2 : is_byzantine a2 = false)
    by (unfold is_byzantine in *; rewrite Hty2; exact Hb).
  destruct (local_view a) as [lv|] eqn:Hlv.
  2:{ exfalso.
      exact (Forall_lookup_1 _ _ _ _ (wf_views _ Hwf) Hj Hlv). }
  destruct (phase2_receiver E rm s2 w1 s3 w2 j a2 lv H2 Hrange Hj2 Hb2 Hv2)
    as (a' & Hj' & _ & Hcase).
  exists a'. rewrite Hags. split; [exact Hj'|].
  rewrite HL1, Hv2, Hq2 in Hcase.
  assert (Hjn : (j < Z.to_nat (n_agents self))%nat).
  { rewrite <- (wf_length _ Hwf). eapply lookup_lt_Some. exact Hj. }
  replace (beaten_by (agents self) a) with (beaten_in rm j lv);
    [exact Hcase|].
  apply Bool.eq_iff_eq_true. unfold beaten_in, beaten_by.
  rewrite !existsb_exists. split.
  - intros (m & Hin & Hm). apply andb_true_iff in Hm as [_ Hm].
    rewrite Hrm in Hin. apply in_flat_map in Hin as (b2 & Hb2in & Hin).
    apply in_map_iff in Hin as (p & <- & _). cbn [summary_to view] in Hm.
    apply list_elem_of_In, list_elem_of_lookup_1 in Hb2in as [i Hi2].
    destruct (Forall2_lookup_r _ _ _ _ _ HF1 Hi2)
      as (b0 & Hi0 & _ & _ & Hv0 & _).
    exists b0. split.
    { apply list_elem_of_In. eapply list_elem_of_lookup_2. exact Hi0. }
    rewrite <- Hv0, Hlv. exact Hm.
  - intros (b0 & Hin & Hm).
    apply list_elem_of_In, list_elem_of_lookup_1 in Hin as [i Hi0].
    destruct (local_view b0) as [sv|] eqn:Hsv; [|discriminate].
    rewrite Hlv in Hm.
    assert (Hij : i <> j).
    { intros ->. rewrite Hj in Hi0. injection Hi0 as <-.
      rewrite Hlv in Hsv. injection Hsv as <-.
      rewrite beats_irrefl in Hm. discriminate. }
    destruct (Forall2_lookup_l _ _ _ _ _ HF1 Hi0)
      as (b2 & Hi2 & Hidb & _ & Hvb & _).
    pose proof (ids_lookup _ _ _ _ Hids Hi0) as Hidi.
    assert (Hin : (i < Z.to_nat (n_agents self))%nat).
    { rewrite <- (wf_length _ Hwf). eapply lookup_lt_Some. exact Hi0. }
    pose proof (Forall_lookup_1 _ _ _ _ Hpeers Hi2) as (Hpl & Hnd & Hps).
    rewrite Hidb, Hidi in Hps.
    assert (Hjp : In (Z.of_nat j) (peers b2)).
    { apply (full_peers (n_agents self) (Z.of_nat i)); try assumption; lia. }
    exists (summary_to (round_num self1) b2 (Z.of_nat j)). split.
    + rewrite Hrm. apply in_flat_map. exists b2. split.
      { apply list_elem_of_In. eapply list_elem_of_lookup_2. exact Hi2. }
      apply in_map. exact Hjp.
    + cbn [summary_to receiver view]. rewrite Z.eqb_refl, Hvb, Hsv.
      exact Hm.
Qed.

End FullBroadcastRound.

Section TwoRounds.

Context (E : Env).

(** Some agent of a non-empty population holds a highest version. *)
Lemma highest_version (l : list Agent) :
  l <> [] -> Forall (fun a => local_view a <> None) l ->
  exists a va,
    In a l /\ local_view a = Some va /\
    forall b vb, In b l -> local_view b = Some vb -> version vb <= version va.
Proof.
  induction l as [|x l IH]; [congruence|]. intros _ HF.
  apply Forall_cons in HF as [Hx HF].
  destruct (local_view x) as [vx|] eqn:Hvx; [|congruence].
  destruct l as [|y l'].
  - exists x, vx. split; [left; reflexivity|]. split; [exact Hvx|].
    intros b vb [<-|[]] Hb. rewrite Hvx in Hb. injection Hb as <-. lia.
  - destruct (IH ltac:(discriminate) HF) as (a & va & Hin & Hva & Hmax).
    destruct (Z.le_gt_cases (version vx) (version va)) as [Hle|Hgt].
    + exists a, va. split; [right; exact Hin|]. split; [exact Hva|].
      intros b vb [<-|Hb] Hvb; [|eauto].
      rewrite Hvx in Hvb. injection Hvb as <-. exact Hle.
    + exists x, vx. split; [left; reflexivity|]. split; [exact Hvx|].
      intros b vb [<-|Hb] Hvb.
      * rewrite Hvx in Hvb. injection Hvb as <-. lia.
      * specialize (Hmax b vb Hb Hvb). lia.
Qed.

Lemma at_ledger_copy_eq L a :
  at_ledger_copy L a -> exists v, local_view a = Some v /\ __eq__ v L = true.
Proof.
  intros [t Ht]. eexists. split; [exact Ht|]. apply DIDView_eq_iff. auto.
Qed.

(** Without Byzantine agents and with everybody talking to everybody,
    stale views of differing versions are gone after exactly two
    rounds. *)
Lemma two_round_convergence (HE : EnvOK E) self w :
  full_honest self -> stale (ledger_view self) (agents self) ->
  consistent (agents self) -> differing (agents self) ->
  convergence_round self = None ->
  exists s1 w1 s2 w2,
    run_round E self w = Ok ((false, s1), w1) /\
    run_round E s1 w1 = Ok ((true, s2), w2) /\
    round_num s2 = round_num self + 2 /\
    convergence_round s2 = Some (round_num self + 2) /\
    n_agents s2 = n_agents self /\
    honest_at_ledger s2.
Proof.
  intros Hfh Hstale Hcons Hdiff Hc0.
  pose proof Hfh as (Hwf & Hh & _).
  destruct (full_broadcast_round E HE self w Hfh)
    as (b1 & s1 & w1 & Hrun1 & Hfh1 & HL1 & Hstep1).
  destruct (full_broadcast_round E HE s1 w1 Hfh1)
    as (b2 & s2 & w2 & Hrun2 & Hfh2 & HL2 & Hstep2).
  pose proof (run_round_conv E _ _ _ _ _ Hrun1) as (Hrn1 & Hb1 & _ & Hcr1).
  pose proof (run_round_conv E _ _ _ _ _ Hrun2) as (Hrn2 & Hb2 & _ & Hcr2).
  pose proof (run_round_session E _ _ _ _ _ Hrun1) as ((Hn1 & _) & _).
  pose proof (run_round_session E _ _ _ _ _ Hrun2) as ((Hn2 & _) & _).
  (* somebody is left behind by the first round *)
  assert (Hb1f : b1 = false).
  { destruct b1; [|reflexivity]. exfalso.
    assert (Hne : agents self <> []).
    { destruct Hdiff as (a & _ & _ & _ & Hin & _).
      intros Hnil. rewrite Hnil in Hin. exact Hin. }
    destruct (highest_version (agents self) Hne (wf_views _ Hwf))
      as (a & va & Hin & Hva & Hmax).
    apply list_elem_of_In, list_elem_of_lookup_1 in Hin as [j Hj].
    destruct (Hstep1 j a Hj) as (a1 & Hj1 & Hcase).
    assert (Hnb : beaten_by (agents self) a = false).
    { unfold beaten_by. apply not_true_is_false. intros Hex.
      apply existsb_exists in Hex as (b & Hbin & Hbeats).
      destruct (local_view b) as [vb|] eqn:Hvb; [|discriminate].
      rewrite Hva in Hbeats. unfold beats in Hbeats.
      pose proof (Hmax b vb Hbin Hvb) as Hle.
      apply orb_true_iff in Hbeats as [Hgt|Heq]; [lia|].
      apply andb_true_iff in Heq as [Heq Hne'].
      apply Z.eqb_eq in Heq.
      assert (Hina : In a (agents self)).
      { apply list_elem_of_In. eapply list_elem_of_lookup_2. exact Hj. }
      rewrite (Hcons b a vb va Hbin Hina Hvb Hva Heq) in Hne'.
      rewrite String.eqb_refl in Hne'. discriminate. }
    rewrite Hnb in Hcase. destruct Hcase as [Hv1 _].
    assert (Hhl : honest_at_ledger s1) by (apply Hb1; reflexivity).
    destruct Hfh1 as (_ & Hh1 & _).
    pose proof (Forall_lookup_1 _ _ _ _ Hhl Hj1
                  (Forall_lookup_1 _ _ _ _ Hh1 Hj1)) as (v & Hv & Heq).
    rewrite Hv1, Hva in Hv. injection Hv as <-.
    apply DIDView_eq_iff in Heq as (_ & Hver & _).
    pose proof (Forall_lookup_1 _ _ _ _ Hstale Hj) as (va' & Hva' & Hlt).
    rewrite Hva in Hva'. injection Hva' as <-. rewrite HL1 in Hver. lia. }
  subst b1.
  (* somebody holds the ledger's view after the first round *)
  assert (Hsome : exists i c, agents s1 !! i = Some c /\
                              at_ledger_copy (ledger_view self) c).
  { destruct Hdiff as (a & b & va & vb & Hina & Hinb & Hva & Hvb & Hlt).
    apply list_elem_of_In, list_elem_of_lookup_1 in Hina as [j Hj].
    destruct (Hstep1 j a Hj) as (a1 & Hj1 & Hcase).
    assert (Hbt : beaten_by (agents self) a = true).
    { apply existsb_exists. exists b. split; [exact Hinb|].
      rewrite Hvb, Hva. unfold beats. apply orb_true_iff. left. lia. }
    rewrite Hbt in Hcase. exists j, a1. tauto. }
  assert (Hall : Forall (at_ledger_copy (ledger_view self)) (agents s2)).
  { apply Forall_lookup_2. intros j a2 Hj2.
    assert (Hjlt : (j < length (agents s1))%nat).
    { destruct Hfh1 as (Hwf1 & _), Hfh2 as (Hwf2 & _).
      rewrite (wf_length _ Hwf1), <- Hn2, <- (wf_length _ Hwf2).
      eapply lookup_lt_Some. exact Hj2. }
    destruct (lookup_lt_is_Some_2 _ _ Hjlt) as [a1 Hj1].
    destruct (Hstep2 j a1 Hj1) as (a2' & Hj2' & Hcase).
    rewrite Hj2 in Hj2'. injection Hj2' as <-. rewrite HL1 in Hcase.
    destruct (beaten_by (agents s1) a1) eqn:Hbt; [tauto|].
    destruct Hcase as [Hv2 _].
    (* not beaten in the second round: it held the ledger's view *)
    assert (Hjlt0 : (j < length (agents self))%nat).
    { destruct Hfh1 as (Hwf1 & _).
      rewrite (wf_length _ Hwf), <- Hn1, <- (wf_length _ Hwf1). exact Hjlt. }
    destruct (lookup_lt_is_Some_2 _ _ Hjlt0) as [a0 Hj0].
    destruct (Hstep1 j a0 Hj0) as (a1' & Hj1' & Hcase1).
    rewrite Hj1 in Hj1'. injection Hj1' as <-.
    destruct (beaten_by (agents self) a0).
    { destruct Hcase1 as [[t Ht] _]. exists t. congruence. }
    exfalso. destruct Hcase1 as [Hv1 _].
    pose proof (Forall_lookup_1 _ _ _ _ Hstale Hj0) as (v0 & Hv0 & Hlt).
    destruct Hsome as (i & c & Hi & [t Hc]).
    assert (Hex : beaten_by (agents s1) a1 = true).
    { apply existsb_exists. exists c. split.
      { apply list_elem_of_In. eapply list_elem_of_lookup_2. exact Hi. }
      rewrite Hc, Hv1, Hv0. unfold beats. apply orb_true_iff. left.
      cbn [version]. lia. }
    congruence. }
  assert (Hhl2 : honest_at_ledger s2).
  { unfold honest_at_ledger. rewrite HL2, HL1.
    eapply Forall_impl; [exact Hall|]. intros a Ha _.
    apply at_ledger_copy_eq. exact Ha. }
  assert (Hb2t : b2 = true) by (apply Hb2; exact Hhl2).
  subst b2. exists s1, w1, s2, w2.
  split; [exact Hrun1|]. split; [exact Hrun2|]. split; [lia|].
  split.
  { rewrite Hcr2, Hcr1, Hc0. f_equal. lia. }
  split; [congruence | exact Hhl2].
Qed.


(** X18. One round of a network without Byzantine agents in which
    everybody talks to everybody else: an agent ends the round with a
    copy of the ledger's view, having asked the ledger, if some agent
    held a view that beats its own when the round began (a higher
    version, or the same version with another digest); otherwise it
    keeps its view and asks nothing. *)
Theorem full_broadcast_round_outcome (HE : EnvOK E) self w :
  full_honest self ->
  exists b self' w',
    run_round E self w = Ok ((b, self'), w') /\
    forall j a,
      agents self !! j = Some a ->
      exists a',
        agents self' !! j = Some a' /\
        if beaten_by (agents self) a then
          at_ledger_copy (ledger_view self) a' /\
          ledger_queries a < ledger_queries a'
        else local_view a' = local_view a /\
             ledger_queries a' = ledger_queries a.
Proof.
  intros Hfh.
  destruct (full_broadcast_round E HE self w Hfh)
    as (b & self' & w' & Hrun & _ & _ & Hstep).
  exists b, self', w'. auto.
Qed.

Lemma run_until_convergence_run self max_rounds w self' w' :
  rounds_until E (Z.to_nat max_rounds) self w = Ok (self', w') ->
  n_agents self' <> 0 ->
  exists stats,
    run_until_convergence E self max_rounds w = Ok ((stats, self'), w') /\
    get_statistics self' = Ok stats.
Proof.
  intros Hloop Hn.
  destruct (get_statistics self') as [stats|e] eqn:Hst.
  2:{ exfalso. revert Hst. unfold get_statistics, py_truediv.
      destruct (Z.eqb_spec (n_agents self') 0); [congruence|discriminate]. }
  exists stats. split; [|reflexivity].
  unfold run_until_convergence. rewrite (bind_run _ _ _ _ _ Hloop).
  unfold bind, lift_result. rewrite Hst. reflexivity.
Qed.

Lemma filter_nil_Forall {A : Type} (p : A -> bool) l :
  List.filter p l = [] -> Forall (fun a => p a = false) l.
Proof.
  induction l as [|a l IH]; [constructor|]. cbn [List.filter].
  destruct (p a) eqn:Hp; [discriminate|]. intros H.
  constructor; [exact Hp | apply IH; exact H].
Qed.

(** What the constructor builds when asked for no Byzantine agent and a
    fanout that reaches everybody. *)
Lemma init_full_honest (HE : EnvOK E) n fanout0 did0 w net w1 :
  0 < n -> n - 1 <= fanout0 ->
  __init__ E n 0 fanout0 did0 w = Ok (net, w1) ->
  full_honest net /\ stale (ledger_view net) (agents net) /\
  consistent (agents net) /\ convergence_round net = None /\
  n_agents net = n /\ round_num net = 0.
Proof.
  intros Hn Hfan Hinit.
  pose proof (init_Ok E _ _ _ _ _ _ _ Hinit)
    as (_ & _ & _ & Hna & _ & Hfo & _ & Hr0 & _ & _ & Hc0 & HL & _).
  destruct (init_well_formed E _ _ _ _ _ _ _ Hinit) as [Hwf _]; [lia|].
  destruct (init_counts E HE n 0 fanout0 did0 w net w1 ltac:(lia) Hinit)
    as [Hbyz _].
  assert (Hh : Forall (fun a => is_byzantine a = false) (agents net)).
  { apply filter_nil_Forall.
    destruct (List.filter is_byzantine (agents net)); [reflexivity|].
    simpl in Hbyz. lia. }
  destruct (init_constructed E _ _ _ _ _ _ _ Hinit) as (ids & w' & _ & HF & _).
  assert (Hids : map agent_id (agents net) = py_range n).
  { clear -HF. induction HF as [|i a l l' Ha _ IH]; [reflexivity|].
    apply constructed_fields in Ha as (Hi & _). cbn [map].
    rewrite Hi, IH. reflexivity. }
  assert (Hviews : Forall (fun a => exists v,
              local_view a = Some v /\ 5 <= version v <= 9 /\
              doc_hash v =
                _compute_hash E ("ledger_doc_v" +:+ pretty (version v)))
            (agents net)).
  { apply Forall_lookup_2. intros j a Hj.
    destruct (Forall2_lookup_r _ _ _ _ _ HF Hj) as (i & _ & Ha).
    apply constructed_fields in Ha as (_ & _ & _ & _ & _ & _ & v & Hv & _ & Hc).
    rewrite (Forall_lookup_1 _ _ _ _ Hh Hj) in Hc.
    exists v. split; [exact Hv|]. tauto. }
  split.
  { split; [exact Hwf|]. split; [exact Hh|]. split; [congruence | lia]. }
  split.
  { eapply Forall_impl; [exact Hviews|]. intros a (v & Hv & Hver & _).
    exists v. split; [exact Hv | lia]. }
  split; [|auto].
  intros a b va vb Ha Hb Hva Hvb Heq.
  apply list_elem_of_In in Ha, Hb.
  pose proof (proj1 (Forall_forall _ _) Hviews a Ha) as (va' & Hva' & _ & Hha).
  pose proof (proj1 (Forall_forall _ _) Hviews b Hb) as (vb' & Hvb' & _ & Hhb).
  rewrite Hva in Hva'. injection Hva' as <-.
  rewrite Hvb in Hvb'. injection Hvb' as <-.
  rewrite Hha, Hhb, Heq. reflexivity.
Qed.

(** X19. A network built without Byzantine agents and with a fanout that
    reaches everybody converges in exactly two rounds if two agents
    start from different versions: the first round leaves the holders of
    the highest version behind, the second brings them to the ledger's
    view. If all agents start from the same version, nobody ever asks
    the ledger and the network never converges. *)
Theorem honest_full_broadcast_takes_two_rounds
    (HE : EnvOK E) n fanout0 did0 max_rounds w net w1 w2 :
  0 < n -> n - 1 <= fanout0 ->
  __init__ E n 0 fanout0 did0 w = Ok (net, w1) ->
  (differing (agents net) -> 2 <= max_rounds ->
   exists stats net' w3,
     run_until_convergence E net max_rounds w2 = Ok ((stats, net'), w3) /\
     st_converged stats = true /\ st_convergence_round stats = Some 2 /\
     st_rounds stats = 2 /\ honest_at_ledger net') /\
  (~ differing (agents net) ->
   exists stats net' w3,
     run_until_convergence E net max_rounds w2 = Ok ((stats, net'), w3) /\
     st_converged stats = false /\ st_convergence_round stats = None /\
     st_rounds stats = Z.max 0 max_rounds /\
     st_total_ledger_queries stats = 0).
Proof.
  intros Hn Hfan Hinit.
  destruct (init_full_honest HE n fanout0 did0 w net w1 Hn Hfan Hinit)
    as (Hfh & Hstale & Hcons & Hc0 & Hna & Hr0).
  pose proof (init_zero_books E _ _ _ _ _ _ _ Hinit) as (_ & _ & _ & _ & Hq0).
  pose proof Hfh as (Hwf & Hh & _).
  split.
  - intros Hdiff Hmax.
    destruct (two_round_convergence HE net w2 Hfh Hstale Hcons Hdiff Hc0)
      as (s1 & w3 & s2 & w4 & Hrun1 & Hrun2 & Hrn & Hcr & Hn2 & Hhl).
    assert (Hloop : rounds_until E (Z.to_nat max_rounds) net w2
                    = Ok (s2, w4)).
    { destruct (Z.to_nat max_rounds) as [|[|k]] eqn:Hk; try lia.
      cbn [rounds_until]. rewrite (bind_run _ _ _ _ _ Hrun1).
      cbn beta iota. rewrite (bind_run _ _ _ _ _ Hrun2). reflexivity. }
    destruct (run_until_convergence_run net max_rounds w2 s2 w4 Hloop)
      as (stats & Hruc & Hst); [lia|].
    exists stats, s2, w4. split; [exact Hruc|].
    apply get_statistics_Ok in Hst
      as (_ & _ & _ & _ & _ & Hr & Hcv & Hcround & _).
    rewrite Hr, Hcv, Hcround, Hcr, Hrn, Hr0. auto.
  - intros Hnd.
    assert (Hex : exists a0, In a0 (agents net)).
    { pose proof (wf_length _ Hwf) as Hl.
      destruct (agents net) as [|a0 rest];
        [simpl in Hl; lia | exists a0; left; reflexivity]. }
    destruct Hex as [a0 Hin0].
    pose proof (proj1 (List.Forall_forall _ _) Hstale a0 Hin0)
      as (v0 & Hv0 & Hlt0).
    assert (Hagreed : agreed (version v0) (doc_hash v0) (agents net)).
    { apply List.Forall_forall. intros b Hb.
      split; [exact (proj1 (List.Forall_forall _ _) Hh b Hb)|].
      pose proof (proj1 (List.Forall_forall _ _) Hstale b Hb)
        as (vb & Hvb & _).
      exists vb. split; [exact Hvb|].
      assert (Hver : version vb = version v0).
      { destruct (Z.lt_trichotomy (version vb) (version v0))
          as [Hlt|[Heq|Hgt]]; [|exact Heq|]; exfalso; apply Hnd.
        - exists b, a0, vb, v0. repeat split; auto; lia.
        - exists a0, b, v0, vb. repeat split; auto; lia. }
      split; [exact Hver|].
      exact (Hcons b a0 vb v0 Hb Hin0 Hvb Hv0 Hver). }
    assert (Hnh : ~ honest_at_ledger net).
    { intros Hhl. unfold honest_at_ledger in Hhl.
      pose proof (proj1 (List.Forall_forall _ _) Hhl a0 Hin0
                    (proj1 (List.Forall_forall _ _) Hh a0 Hin0))
        as (v & Hv & Heq).
      rewrite Hv0 in Hv. injection Hv as <-.
      apply DIDView_eq_iff in Heq as (_ & Hver & _). lia. }
    destruct (run_rounds_agreed E HE _ _ (Z.to_nat max_rounds) net w2
                Hwf Hagreed)
      as (bs & net' & w3 & Hrun & _ & _ & Hq & Hn' & Hrn & Hnever).
    destruct (Hnever Hnh) as (-> & Hc' & _).
    apply rounds_until_exhausted in Hrun.
    destruct (run_until_convergence_run net max_rounds w2 net' w3 Hrun)
      as (stats & Hruc & Hst); [lia|].
    exists stats, net', w3. split; [exact Hruc|].
    apply get_statistics_Ok in Hst
      as (_ & _ & _ & _ & _ & Hr & Hcv & Hcround & _ & Hsq & _).
    rewrite Hr, Hcv, Hcround, Hsq, Hc', Hc0, Hq, Hq0, Hrn, Hr0.
    repeat split; auto. lia.
Qed.

End TwoRounds.

(** ** The runner's convergence summary *)

(** X20. The experiment runner prints its convergence summary for every
    record of a sweep: the guard on the convergence rate never filters a
    record out, and the average convergence round it formats is never
    [None]. *)
Theorem convergence_summary_prints_every_record
    (E : Env) n_values f_ratios fanout0 trials w results w' :
  run_experiment E n_values f_ratios fanout0 trials w = Ok (results, w') ->
  exists lines,
    convergence_summary results = Ok lines /\
    map (fun l => fst (fst (fst (fst l)))) lines = map res_n results /\
    map (fun l => Some (snd (fst l))) lines =
      map res_avg_convergence_round results.
Proof.
  intros H. apply run_experiment_records in H.
  induction H as [|r rs Hr _ IH]; [exists []; auto|].
  destruct IH as (lines & Hlines & Hn & Havg).
  destruct Hr as (_ & _ & _ & _ & _ & _ & _ & _ & _ & _ & [Hpos _]
                  & avg & Hsome & _).
  cbn [convergence_summary].
  replace (Qle_bool (res_convergence_rate r) 0) with false.
  2:{ symmetry. apply not_true_is_false. intros Hle.
      apply Qle_bool_iff in Hle. apply Qlt_not_le in Hpos. contradiction. }
  cbn [negb]. rewrite Hsome, Hlines. eexists. split; [reflexivity|].
  cbn [map fst snd]. rewrite Hn, Havg, Hsome. auto.
Qed.

(** ** The properties on concrete inputs *)

Lemma net3_built :
  __init__ TapeEnv 3 1 2 "did:example:123" tape0 = Ok (net3, tape3).
Proof. vm_compute. reflexivity. Qed.

Lemma honest3_built :
  __init__ TapeEnv 3 0 2 "did:example:123" tape0 = Ok (honest3, honest3_tape).
Proof. vm_compute. reflexivity. Qed.

Lemma honest3_well_formed : well_formed honest3.
Proof.
  split.
  - reflexivity.
  - right. simpl. lia.
  - simpl. lia.
  - repeat constructor; discriminate.
Qed.

Lemma honest3_full_honest : full_honest honest3.
Proof.
  split; [exact honest3_well_formed|].
  split; [repeat constructor|]. split; reflexivity.
Qed.

Lemma honest3_differing : differing (agents honest3).
Proof.
  exists (nth 0 (agents honest3) (new_Agent 0 HONEST)),
         (nth 1 (agents honest3) (new_Agent 0 HONEST)).
  eexists _, _. split; [left; reflexivity|].
  split; [right; left; reflexivity|].
  split; [reflexivity|]. split; [reflexivity|]. simpl. lia.
Qed.

Lemma agreed3_well_formed : well_formed agreed3.
Proof.
  split.
  - reflexivity.
  - right. simpl. lia.
  - simpl. lia.
  - repeat constructor; discriminate.
Qed.

Lemma agreed3_agreed : agreed 5 "ledger_doc_v5" (agents agreed3).
Proof.
  repeat constructor; eexists; split; try reflexivity; split; reflexivity.
Qed.

Lemma agreed3_not_at_ledger : ~ honest_at_ledger agreed3.
Proof.
  intros H. apply check_convergence_true_iff in H. vm_compute in H.
  discriminate.
Qed.

Lemma byzantine_agents_never_update_witness :
  (EnvOK TapeEnv /\ well_formed net3) /\
  exists bs self' w',
    run_rounds TapeEnv 3 net3 tape3 = Ok ((bs, self'), w') /\
    forall i a,
      agents net3 !! i = Some a -> is_byzantine a = true ->
      exists a',
        agents self' !! i = Some a' /\ is_byzantine a' = true /\
        local_view a' = local_view a /\
        ledger_queries a' = ledger_queries a.
Proof.
  split; [split; [exact TapeEnv_ok | exact net3_well_formed]|].
  exact (proj1 (byzantine_agents_never_update TapeEnv TapeEnv_ok net3 3
                  tape3 net3_well_formed)).
Defined.

Lemma ledger_view_is_absorbing_witness :
  (EnvOK TapeEnv /\ well_formed net3) /\
  exists bs self' w',
    run_rounds TapeEnv 3 net3 tape3 = Ok ((bs, self'), w') /\
    forall i a,
      agents net3 !! i = Some a -> is_byzantine a = false ->
      exists a',
        agents self' !! i = Some a' /\ is_byzantine a' = false /\
        (local_view a' = local_view a \/
         exists v', local_view a' = Some v' /\
                    __eq__ v' (ledger_view net3) = true) /\
        (forall v, local_view a = Some v ->
                   __eq__ v (ledger_view net3) = true ->
                   exists v', local_view a' = Some v' /\
                              __eq__ v' (ledger_view net3) = true).
Proof.
  split; [split; [exact TapeEnv_ok | exact net3_well_formed]|].
  exact (ledger_view_is_absorbing TapeEnv TapeEnv_ok net3 3 tape3
           net3_well_formed).
Defined.

Lemma rounds_keep_the_frame_witness :
  (EnvOK TapeEnv /\ well_formed net3) /\
  exists bs self' w',
    run_rounds TapeEnv 3 net3 tape3 = Ok ((bs, self'), w') /\
    length bs = 3%nat /\
    round_num self' = round_num net3 + Z.of_nat 3 /\
    ledger_view self' = ledger_view net3 /\
    n_agents self' = n_agents net3 /\
    f_byzantine self' = f_byzantine net3 /\
    fanout self' = fanout net3 /\
    net_did self' = net_did net3 /\
    map agent_id (agents self') = map agent_id (agents net3) /\
    map agent_type (agents self') = map agent_type (agents net3).
Proof.
  split; [split; [exact TapeEnv_ok | exact net3_well_formed]|].
  exact (rounds_keep_the_frame TapeEnv TapeEnv_ok net3 3 tape3
           net3_well_formed).
Defined.

Lemma constructor_population_witness :
  (EnvOK TapeEnv /\ 0 <= 1 <= 3) /\
  exists net w',
    __init__ TapeEnv 3 1 2 "did:example:123" tape0 = Ok (net, w') /\
    map agent_id (agents net) = py_range 3 /\
    Z.of_nat (length (List.filter is_byzantine (agents net))) = 1 /\
    Z.of_nat (length (List.filter (fun a => negb (is_byzantine a))
                                  (agents net))) = 3 - 1 /\
    version (ledger_view net) = 10 /\
    (1 < 3 -> fst (check_convergence net) = false).
Proof.
  split; [split; [exact TapeEnv_ok | lia]|].
  destruct (constructor_population TapeEnv TapeEnv_ok 3 1 2
              "did:example:123" tape0 ltac:(lia))
    as (net & w' & Hinit & _ & _ & _ & _ & _ & _ & _ & _ & Hids & Hbyz
        & Hhon & _ & _ & Hver & _ & Hconv).
  exists net, w'. auto 10.
Defined.

Lemma only_honest_agents_query_witness :
  (EnvOK TapeEnv /\ 0 <= 2 /\
   __init__ TapeEnv 3 1 2 "did:example:123" tape0 = Ok (net3, tape3)) /\
  exists bs net' w',
    run_rounds TapeEnv 3 net3 tape3 = Ok ((bs, net'), w') /\
    total_ledger_queries net' = sum_queries (agents net') /\
    Forall (fun a => (is_byzantine a = true -> ledger_queries a = 0) /\
                     0 <= ledger_queries a <= messages_received a)
           (agents net') /\
    total_ledger_queries net' <= total_messages net'.
Proof.
  split; [split; [exact TapeEnv_ok|]; split; [lia | exact net3_built]|].
  apply (only_honest_agents_query TapeEnv TapeEnv_ok 3 1 2 "did:example:123"
           tape0 net3 tape3 3 tape3); [lia | exact net3_built].
Defined.

Lemma every_message_is_received_witness :
  (EnvOK TapeEnv /\ 0 <= 2 /\
   __init__ TapeEnv 3 1 2 "did:example:123" tape0 = Ok (net3, tape3)) /\
  exists bs net' w',
    run_rounds TapeEnv 3 net3 tape3 = Ok ((bs, net'), w') /\
    sum_received (agents net') = total_messages net'.
Proof.
  split; [split; [exact TapeEnv_ok|]; split; [lia | exact net3_built]|].
  apply (every_message_is_received TapeEnv TapeEnv_ok 3 1 2 "did:example:123"
           tape0 net3 tape3 3 tape3); [lia | exact net3_built].
Defined.

Lemma run_until_convergence_budget_witness :
  (EnvOK TapeEnv /\ well_formed net3 /\ n_agents net3 <> 0 /\
   convergence_round net3 = None) /\
  exists stats self' w',
    run_until_convergence TapeEnv net3 50 tape3 = Ok ((stats, self'), w') /\
    st_rounds stats = round_num self' /\
    round_num net3 <= st_rounds stats <= round_num net3 + Z.max 0 50 /\
    if st_converged stats then
      st_convergence_round stats = Some (st_rounds stats) /\
      round_num net3 < st_rounds stats /\
      honest_at_ledger self'
    else
      st_convergence_round stats = None /\
      st_rounds stats = round_num net3 + Z.max 0 50 /\
      (0 < 50 -> ~ honest_at_ledger self').
Proof.
  assert (Hn : n_agents net3 <> 0) by (simpl; lia).
  split; [split; [exact TapeEnv_ok|]; split; [exact net3_well_formed|];
          split; [exact Hn | reflexivity]|].
  exact (run_until_convergence_budget TapeEnv TapeEnv_ok net3 50 tape3
           net3_well_formed Hn eq_refl).
Defined.

Lemma trial_statistics_witness :
  (EnvOK TapeEnv /\ 0 < 3 /\ 0 <= 1 <= 3 /\ 0 <= 2) /\
  exists net w1 stats net' w2,
    __init__ TapeEnv 3 1 2 "did:example:123" tape0 = Ok (net, w1) /\
    run_until_convergence TapeEnv net 50 w1 = Ok ((stats, net'), w2) /\
    st_n_agents stats = 3 /\ st_f_byzantine stats = 1 /\
    st_byzantine_agents stats = 1 /\ st_honest_agents stats = 3 - 1 /\
    st_fanout stats = Z.min 2 (3 - 1) /\
    0 <= st_rounds stats <= Z.max 0 50 /\
    st_total_messages stats = st_fanout stats * st_rounds stats * 3 /\
    (st_avg_messages_per_agent stats ==
       inject_Z (st_fanout stats * st_rounds stats))%Q /\
    0 <= st_total_ledger_queries stats <= st_total_messages stats /\
    (st_avg_ledger_queries_per_agent stats <=
       st_avg_messages_per_agent stats)%Q.
Proof.
  split; [split; [exact TapeEnv_ok | lia]|].
  apply (trial_statistics TapeEnv TapeEnv_ok 3 1 2 "did:example:123" 50
           tape0); lia.
Defined.

Lemma empty_population_statistics_raise_witness :
  EnvOK TapeEnv /\
  exists net w1,
    __init__ TapeEnv 0 0 5 "did:example:123" tape0 = Ok (net, w1) /\
    agents net = [] /\
    fst (check_convergence net) = true /\
    get_statistics net = Raise ZeroDivisionError /\
    run_until_convergence TapeEnv net 50 w1 = Raise ZeroDivisionError.
Proof.
  split; [exact TapeEnv_ok|].
  exact (empty_population_statistics_raise TapeEnv TapeEnv_ok 5
           "did:example:123" 50 tape0).
Defined.

Lemma agreed_population_never_asks_witness :
  (EnvOK TapeEnv /\ well_formed agreed3 /\
   agreed 5 "ledger_doc_v5" (agents agreed3) /\
   n_agents agreed3 <> 0 /\ convergence_round agreed3 = None /\
   ~ honest_at_ledger agreed3) /\
  exists stats self' w',
    run_until_convergence TapeEnv agreed3 50 agreed3_tape
      = Ok ((stats, self'), w') /\
    st_converged stats = false /\
    st_convergence_round stats = None /\
    st_rounds stats = round_num agreed3 + Z.max 0 50 /\
    st_total_ledger_queries stats = total_ledger_queries agreed3 /\
    Forall2 untouched (agents agreed3) (agents self').
Proof.
  assert (Hn : n_agents agreed3 <> 0) by (simpl; lia).
  split.
  { split; [exact TapeEnv_ok|]. split; [exact agreed3_well_formed|].
    split; [exact agreed3_agreed|]. split; [exact Hn|].
    split; [reflexivity | exact agreed3_not_at_ledger]. }
  exact (proj2 (agreed_population_never_asks TapeEnv TapeEnv_ok 5
                  "ledger_doc_v5" agreed3 agreed3_tape agreed3_well_formed
                  agreed3_agreed)
           Hn eq_refl agreed3_not_at_ledger 50).
Defined.

Lemma selected_peers_are_distinct_others_witness :
  (EnvOK TapeEnv /\ 0 <= fanout net3) /\
  exists ps w',
    _select_peers TapeEnv net3 0 tape3 = Ok (ps, w') /\
    List.NoDup ps /\
    Forall (fun p => 0 <= p < n_agents net3 /\ p <> 0) ps /\
    Z.of_nat (length ps) =
      Z.min (fanout net3)
            (if (0 <=? 0) && (0 <? n_agents net3)
             then n_agents net3 - 1 else Z.max 0 (n_agents net3)).
Proof.
  assert (Hf : 0 <= fanout net3) by (simpl; lia).
  split; [split; [exact TapeEnv_ok | exact Hf]|].
  exact (selected_peers_are_distinct_others TapeEnv TapeEnv_ok net3 0 tape3
           Hf).
Defined.

Lemma round_queue_routing_witness :
  (EnvOK TapeEnv /\ well_formed net3) /\
  exists s rm w',
    phase1 TapeEnv net3 tape3 = Ok ((s, rm), w') /\
    map (fun m => (sender m, receiver m)) rm = routes (agents s) /\
    Forall (fun a =>
              Z.of_nat (length (peers a)) = fanout net3 /\
              List.NoDup (peers a) /\
              Forall (fun p => 0 <= p < n_agents net3 /\ p <> agent_id a)
                     (peers a))
           (agents s) /\
    Forall (fun m =>
              msg_type m = "SUMMARY" /\ msg_round_num m = round_num net3 /\
              operations m = [] /\ receiver m <> sender m /\
              0 <= receiver m < n_agents net3)
           rm.
Proof.
  split; [split; [exact TapeEnv_ok | exact net3_well_formed]|].
  exact (round_queue_routing TapeEnv TapeEnv_ok net3 tape3 net3_well_formed).
Defined.

Lemma sweep_of_four_returns :
  exists results w',
    run_experiment TapeEnv [4] [1 # 10]%Q 3 2 tape0 = Ok (results, w').
Proof.
  destruct (run_experiment TapeEnv [4] [1 # 10]%Q 3 2 tape0)
    as [[results w']|e] eqn:Hrun.
  - exists results, w'. reflexivity.
  - vm_compute in Hrun. discriminate.
Qed.

Lemma sweep_records_witness :
  exists results w',
    run_experiment TapeEnv [4] [1 # 10]%Q 3 2 tape0 = Ok (results, w') /\
    Forall (fun res =>
              In (res_n res) [4] /\ In (res_f_ratio res) [1 # 10]%Q /\
              byzantine_count (res_n res) (res_f_ratio res) =
                Ok (res_f res) /\
              skipped (res_n res) (res_f_ratio res) = Ok false /\
              3 * res_f res < res_n res /\ res_trials res = 2 /\
              (0 < res_convergence_rate res <= 1)%Q /\
              exists avg,
                res_avg_convergence_round res = Some avg /\
                (1 <= avg <= 50)%Q)
           results.
Proof.
  destruct sweep_of_four_returns as (results & w' & Hrun).
  exists results, w'. split; [exact Hrun|].
  eapply Forall_impl;
    [exact (sweep_records TapeEnv [4] [1 # 10]%Q 3 2 tape0 results w' Hrun)|].
  intros res H. cbv beta in H.
  destruct H as (Hn & Hr & Hf & Hsk & Hlt & _ & Ht & _ & _ & _ & Hrate & Havg).
  repeat (split; [assumption|]).
  split; [|auto].
  apply Hlt. destruct Hn as [<-|[]]. lia.
Defined.

Lemma sweep_without_trials_witness :
  0 <= 0 /\
  run_experiment TapeEnv [20]
    [float_literal (35 # 100); float_literal (4 # 10)] 3 0 tape0 =
  Ok ([], tape0).
Proof.
  split; [lia|].
  rewrite (sweep_without_trials TapeEnv [20]
             [float_literal (35 # 100); float_literal (4 # 10)] 3 0 tape0
             ltac:(lia)).
  vm_compute. reflexivity.
Defined.

Lemma constructor_rejects_bad_count_witness :
  (EnvStrict TapeEnv /\ (5 < 0 \/ Z.max 0 3 < 5)) /\
  __init__ TapeEnv 3 5 2 "did:example:123" tape0 = Raise ValueError.
Proof.
  split; [split; [exact TapeEnv_strict | right; lia]|].
  apply (constructor_rejects_bad_count TapeEnv TapeEnv_strict). right. lia.
Defined.

Lemma negative_fanout_round_raises_witness :
  (EnvOK TapeEnv /\ EnvStrict TapeEnv /\ 0 < 3 /\ 0 <= 1 <= 3 /\ -1 < 0) /\
  exists net w1,
    __init__ TapeEnv 3 1 (-1) "did:example:123" tape0 = Ok (net, w1) /\
    fanout net = -1 /\
    forall w2,
      run_round TapeEnv net w2 = Raise ValueError /\
      forall max_rounds, 0 < max_rounds ->
        run_until_convergence TapeEnv net max_rounds w2 = Raise ValueError.
Proof.
  split; [split; [exact TapeEnv_ok|]; split; [exact TapeEnv_strict | lia]|].
  apply (negative_fanout_round_raises TapeEnv TapeEnv_ok TapeEnv_strict 3 1
           (-1) "did:example:123" tape0); lia.
Defined.

Lemma full_broadcast_round_outcome_witness :
  (EnvOK TapeEnv /\ full_honest honest3) /\
  exists b self' w',
    run_round TapeEnv honest3 honest3_tape = Ok ((b, self'), w') /\
    forall j a,
      agents honest3 !! j = Some a ->
      exists a',
        agents self' !! j = Some a' /\
        if beaten_by (agents honest3) a then
          at_ledger_copy (ledger_view honest3) a' /\
          ledger_queries a < ledger_queries a'
        else local_view a' = local_view a /\
             ledger_queries a' = ledger_queries a.
Proof.
  split; [split; [exact TapeEnv_ok | exact honest3_full_honest]|].
  exact (full_broadcast_round_outcome TapeEnv TapeEnv_ok honest3 honest3_tape
           honest3_full_honest).
Defined.

Lemma honest_full_broadcast_takes_two_rounds_witness :
  (EnvOK TapeEnv /\ 0 < 3 /\ 3 - 1 <= 2 /\
   __init__ TapeEnv 3 0 2 "did:example:123" tape0
     = Ok (honest3, honest3_tape) /\
   differing (agents honest3) /\ 2 <= 50) /\
  exists stats net' w3,
    run_until_convergence TapeEnv honest3 50 honest3_tape
      = Ok ((stats, net'), w3) /\
    st_converged stats = true /\ st_convergence_round stats = Some 2 /\
    st_rounds stats = 2 /\ honest_at_ledger net'.
Proof.
  split.
  { split; [exact TapeEnv_ok|]. split; [lia|]. split; [lia|].
    split; [exact honest3_built|]. split; [exact honest3_differing | lia]. }
  apply (proj1 (honest_full_broadcast_takes_two_rounds TapeEnv TapeEnv_ok 3 2
                  "did:example:123" 50 tape0 honest3 honest3_tape
                  honest3_tape ltac:(lia) ltac:(lia) honest3_built));
    [exact honest3_differing | lia].
Defined.

Lemma convergence_summary_prints_every_record_witness :
  exists results w' lines,
    run_experiment TapeEnv [4] [1 # 10]%Q 3 2 tape0 = Ok (results, w') /\
    convergence_summary results = Ok lines /\
    map (fun l => fst (fst (fst (fst l)))) lines = map res_n results /\
    map (fun l => Some (snd (fst l))) lines =
      map res_avg_convergence_round results.
Proof.
  destruct sweep_of_four_returns as (results & w' & Hrun).
  destruct (convergence_summary_prints_every_record TapeEnv [4] [1 # 10]%Q
              3 2 tape0 results w' Hrun) as (lines & H).
  exists results, w', lines. split; [exact Hrun | exact H].
Defined.

(** * Properties of the recovery experiment *)

Lemma TapeEnv_uniform : UniformOK TapeEnv.
Proof.
  split. intros a b w Hab. simpl. unfold tape_uniform.
  destruct (next_cell w) as [t w']. cbn [fst].
  assert (Hf : (0 <= inject_Z (t mod 100) / inject_Z 100 <= 1)%Q).
  { pose proof (Z.mod_pos_bound t 100 ltac:(lia)) as H.
    unfold Qle, Qdiv, Qmult, Qinv, inject_Z. simpl. lia. }
  nra.
Qed.

Section RecoveryProps.

Context (E : Env).

(** With enough honest watchers for the quorum, the loop never looks at
    the behaviour of the Byzantine ones. *)
Lemma collect_endorsements_honest self honest b b' indices :
  Forall (fun i => i < honest) indices ->
  forall times w,
    collect_endorsements E self honest b indices times w =
    collect_endorsements E self honest b' indices times w.
Proof.
  induction 1 as [|i l Hi _ IH]; intros times w; [reflexivity|].
  cbn [collect_endorsements].
  replace (i <? honest) with true by (symmetry; lia).
  destruct (uniform_in E (endorsement_delay_honest self) w) as [t w'].
  apply IH.
Qed.

Lemma collect_endorsements_length self honest b indices :
  forall times w,
    length (fst (collect_endorsements E self honest b indices times w)) =
    (length times + length indices)%nat.
Proof.
  induction indices as [|i l IH]; intros times w; cbn [collect_endorsements].
  - simpl. lia.
  - destruct (if i <? honest then _ else _) as [t w'].
    rewrite IH, length_app. simpl. lia.
Qed.

(** The same, with the range every sample falls in. *)
Lemma collect_endorsements_range (HU : UniformOK E) self honest b indices :
  Forall (fun i => i < honest) indices ->
  (fst (endorsement_delay_honest self)
     <= snd (endorsement_delay_honest self))%Q ->
  forall times w,
    Forall (fun t => (fst (endorsement_delay_honest self) <= t
                      <= snd (endorsement_delay_honest self))%Q) times ->
    Forall (fun t => (fst (endorsement_delay_honest self) <= t
                      <= snd (endorsement_delay_honest self))%Q)
           (fst (collect_endorsements E self honest b indices times w)).
Proof.
  intros HF Hle. induction HF as [|i l Hi _ IH]; intros times w Ht;
    [exact Ht|].
  cbn [collect_endorsements].
  replace (i <? honest) with true by (symmetry; lia).
  pose proof (uniform_range E HU _ _ w Hle) as Hr.
  unfold uniform_in.
  destruct (random_uniform E _ _ w) as [t w']. cbn [fst] in Hr.
  apply IH. apply Forall_app. split; [exact Ht|].
  constructor; [exact Hr | constructor].
Qed.

Lemma py_max_Ok (l : list Q) : l <> [] -> exists m, py_max l = Ok m.
Proof. destruct l; [congruence|]. intros _. eexists. reflexivity. Qed.

Lemma py_max_range lo hi (l : list Q) m :
  Forall (fun t => (lo <= t <= hi)%Q) l -> py_max l = Ok m ->
  (lo <= m <= hi)%Q.
Proof.
  destruct l as [|x l]; [discriminate|]. intros HF [= <-].
  apply Forall_cons in HF as [Hx HF]. revert x Hx.
  induction HF as [|y l Hy _ IH]; intros x Hx; [exact Hx|].
  cbn [fold_left]. apply IH. destruct (Qle_bool y x); assumption.
Qed.

(** The endorsement phase of an experiment that passes the assertion. *)
Lemma endorsements_collected self n f w :
  0 <= f -> 3 * f + 1 <= n ->
  exists t w',
    forall b',
      simulate_endorsement_collection E self n f (2 * f + 1) b' w
      = Ok (Fin t, w') /\
      (UniformOK E ->
       (fst (endorsement_delay_honest self)
          <= snd (endorsement_delay_honest self))%Q ->
       (fst (endorsement_delay_honest self) <= t
          <= snd (endorsement_delay_honest self))%Q).
Proof.
  intros Hf Hn. unfold simulate_endorsement_collection.
  assert (Hidx : Forall (fun i => i < n - f) (py_range (2 * f + 1))).
  { apply List.Forall_forall. intros i Hi. apply py_range_bounds in Hi.
    lia. }
  set (b := "none").
  destruct (collect_endorsements E self (n - f) b (py_range (2 * f + 1))
              [] w) as [times w'] eqn:Hc.
  assert (Hne : times <> []).
  { pose proof (collect_endorsements_length self (n - f) b
                  (py_range (2 * f + 1)) [] w) as Hl.
    rewrite Hc, py_range_length in Hl. cbn [fst length] in Hl.
    intros ->. simpl in Hl. lia. }
  destruct (py_max_Ok times Hne) as [m Hm].
  exists m, w'. intros b'.
  replace (n - f <? 2 * f + 1) with false by (symmetry; lia).
  rewrite andb_false_r.
  rewrite (collect_endorsements_honest self (n - f) b' b _ Hidx), Hc, Hm.
  split; [reflexivity|]. intros HU Hle.
  apply (py_max_range _ _ times m); [|exact Hm].
  pose proof (collect_endorsements_range HU self (n - f) b _ Hidx Hle [] w
                ltac:(constructor)) as Hr.
  rewrite Hc in Hr. exact Hr.
Qed.

(** One recovery that passes the assertion, in full. *)
Lemma run_recovery_experiment_run self n f w :
  0 <= f -> 3 * f + 1 <= n ->
  exists t w3,
    (forall b',
       simulate_endorsement_collection E self n f (2 * f + 1) b'
         (snd (simulate_proposal E self (snd (simulate_detection E self w))))
       = Ok (Fin t, w3)) /\
    (UniformOK E ->
     (fst (endorsement_delay_honest self)
        <= snd (endorsement_delay_honest self))%Q ->
     (fst (endorsement_delay_honest self) <= t
        <= snd (endorsement_delay_honest self))%Q) /\
    forall b',
      let t_detection := fst (simulate_detection E self w) in
      let w1 := snd (simulate_detection E self w) in
      let t_proposal := fst (simulate_proposal E self w1) in
      let cf := simulate_commit_and_finalization E self w3 in
      let res :=
        {| rr_quorum_size := 2 * f + 1;
           rr_n_watchers := n;
           rr_f_byzantine := f;
           rr_gas_used := estimate_gas self (2 * f + 1);
           rr_total_latency :=
             Fin (t_detection + t_proposal + t + fst (fst cf)
                  + snd (fst cf))%Q;
           rr_phases :=
             {| detection_time := t_detection;
                proposal_time := t_proposal;
                endorsement_time := Fin t;
                commit_time := fst (fst cf);
                finalization_time := snd (fst cf) |};
           rr_success := true;
           rr_byzantine_behavior := b' |} in
      run_recovery_experiment E self n f b' w =
      Returned (res, append_result self res, snd cf).
Proof.
  intros Hf Hn.
  destruct (endorsements_collected self n f
              (snd (simulate_proposal E self
                      (snd (simulate_detection E self w)))) Hf Hn)
    as (t & w3 & Hend).
  exists t, w3. split; [intros b'; apply Hend|].
  split; [apply (Hend "none")|].
  intros b'. cbv zeta. unfold run_recovery_experiment.
  replace (3 * f + 1 <=? n) with true by (symmetry; lia). cbn [negb].
  destruct (simulate_detection E self w) as [td w1]. cbn [fst snd] in *.
  destruct (simulate_proposal E self w1) as [tp w2]. cbn [fst snd] in *.
  rewrite (proj1 (Hend b')). cbn [ne_inf negb].
  destruct (simulate_commit_and_finalization E self w3) as [[tc tf] w4].
  reflexivity.
Qed.


(** X21. A recovery that passes the assertion [n >= 3f + 1] with
    [f >= 0] always succeeds, with a quorum of [2f + 1] and a finite
    latency, and is appended to the experiment's results. The honest
    watchers alone fill the quorum, so the behaviour of the Byzantine
    ones is never exercised: whatever behaviour is asked for ("none",
    "delay", "refuse" or anything else), the call draws the same samples
    and returns the same result, the echoed behaviour apart. *)
Theorem byzantine_behaviour_is_never_exercised self n f w :
  0 <= f -> 3 * f + 1 <= n ->
  exists res w',
    rr_success res = true /\ rr_quorum_size res = 2 * f + 1 /\
    rr_n_watchers res = n /\ rr_f_byzantine res = f /\
    rr_gas_used res = estimate_gas self (2 * f + 1) /\
    (exists q, rr_total_latency res = Fin q) /\
    forall behaviour,
      run_recovery_experiment E self n f behaviour w =
      Returned (set_behavior res behaviour,
                append_result self (set_behavior res behaviour), w').
Proof.
  intros Hf Hn.
  destruct (run_recovery_experiment_run self n f w Hf Hn)
    as (t & w3 & _ & _ & Hrun).
  set (cf := simulate_commit_and_finalization E self w3) in *.
  set (td := fst (simulate_detection E self w)) in *.
  set (tp := fst (simulate_proposal E self
                    (snd (simulate_detection E self w)))) in *.
  exists {| rr_quorum_size := 2 * f + 1;
            rr_n_watchers := n;
            rr_f_byzantine := f;
            rr_gas_used := estimate_gas self (2 * f + 1);
            rr_total_latency :=
              Fin (td + tp + t + fst (fst cf) + snd (fst cf))%Q;
            rr_phases :=
              {| detection_time := td;
                 proposal_time := tp;
                 endorsement_time := Fin t;
                 commit_time := fst (fst cf);
                 finalization_time := snd (fst cf) |};
            rr_success := true;
            rr_byzantine_behavior := "none" |}, (snd cf).
  repeat (split; [reflexivity|]).
  split; [eexists; reflexivity|].
  intros b. rewrite (Hrun b). reflexivity.
Qed.

(** X22. A recovery with [n < 3f + 1] raises [AssertionError] before
    anything is sampled; one with a negative [f] that passes the
    assertion has a non-positive quorum, collects no endorsement and
    raises [ValueError] when it takes the maximum of an empty list. *)
Theorem recovery_rejects self n f behaviour w :
  (n < 3 * f + 1 ->
   run_recovery_experiment E self n f behaviour w = Raised AssertionError) /\
  (f < 0 -> 3 * f + 1 <= n ->
   run_recovery_experiment E self n f behaviour w =
   Raised (Builtin ValueError)).
Proof.
  unfold run_recovery_experiment. split.
  - intros Hn. replace (3 * f + 1 <=? n) with false by (symmetry; lia).
    reflexivity.
  - intros Hf Hn. replace (3 * f + 1 <=? n) with true by (symmetry; lia).
    cbn [negb].
    destruct (simulate_detection E self w) as [td w1].
    destruct (simulate_proposal E self w1) as [tp w2].
    unfold simulate_endorsement_collection.
    replace (n - f <? 2 * f + 1) with false by (symmetry; lia).
    rewrite andb_false_r. unfold py_range.
    replace (Z.to_nat (2 * f + 1)) with O by lia. reflexivity.
Qed.

(** One recovery of the standard experiment. *)
Lemma standard_recovery_run (HU : UniformOK E) rs n f behaviour w :
  0 <= f -> 3 * f + 1 <= n ->
  exists res w' q e,
    run_recovery_experiment E (set_results new_BFTSHDIDExperiment rs)
      n f behaviour w =
    Returned (res, set_results new_BFTSHDIDExperiment (rs ++ [res]), w') /\
    rr_success res = true /\
    rr_gas_used res = 76000 + 12000 * f /\
    rr_total_latency res = Fin q /\ (2881 # 4 <= q <= 865)%Q /\
    endorsement_time (rr_phases res) = Fin e /\
    (1 # 10 <= e <= 3 # 10)%Q /\
    (1 # 10 <= detection_time (rr_phases res) <= 1 # 2)%Q /\
    (1 # 20 <= proposal_time (rr_phases res) <= 1 # 5)%Q /\
    (0 <= commit_time (rr_phases res) <= 24)%Q /\
    (720 <= finalization_time (rr_phases res) <= 840)%Q.
Proof.
  intros Hf Hn. set (self := set_results new_BFTSHDIDExperiment rs).
  destruct (run_recovery_experiment_run self n f w Hf Hn)
    as (t & w3 & _ & Hrange & Hrun).
  specialize (Hrun behaviour). cbv zeta in Hrun.
  specialize (Hrange HU ltac:(simpl; lra)). cbn [fst snd] in Hrange.
  change (endorsement_delay_honest self) with (1 # 10, 3 # 10)%Q in Hrange.
  cbn [fst snd] in Hrange.
  pose proof (uniform_range E HU (1 # 10) (1 # 2) w ltac:(lra)) as Hd.
  pose proof (uniform_range E HU (1 # 20) (1 # 5)
                (snd (simulate_detection E self w)) ltac:(lra)) as Hp.
  pose proof (uniform_range E HU 0 (2 * 12) w3 ltac:(lra)) as Hc.
  pose proof (uniform_range E HU (-60) 60
                (snd (random_uniform E 0 (2 * 12) w3)) ltac:(lra)) as Hfin.
  assert (Hcf : simulate_commit_and_finalization E self w3 =
                ((fst (random_uniform E 0 (2 * 12) w3),
                  (inject_Z (13 * 60) +
                   fst (random_uniform E (-60) 60
                          (snd (random_uniform E 0 (2 * 12) w3))))%Q),
                 snd (random_uniform E (-60) 60
                        (snd (random_uniform E 0 (2 * 12) w3))))).
  { unfold simulate_commit_and_finalization. cbn [block_time finality_time
      self set_results new_BFTSHDIDExperiment].
    destruct (random_uniform E 0 (2 * 12) w3) as [c w4]. cbn [fst snd].
    destruct (random_uniform E (-60) 60 w4) as [u w5]. reflexivity. }
  rewrite Hcf in Hrun. cbn [fst snd] in Hrun.
  eexists _, _, _, _. split; [exact Hrun|].
  cbn [rr_success rr_gas_used rr_total_latency rr_phases endorsement_time
       detection_time proposal_time commit_time finalization_time].
  split; [reflexivity|]. split.
  { unfold estimate_gas. cbn. lia. }
  split; [reflexivity|].
  change (simulate_detection E self w)
    with (random_uniform E (1 # 10) (1 # 2) w) in *.
  change (simulate_proposal E self (snd (random_uniform E (1 # 10) (1 # 2) w)))
    with (random_uniform E (1 # 20) (1 # 5)
            (snd (random_uniform E (1 # 10) (1 # 2) w))) in *.
  set (d := fst (random_uniform E (1 # 10) (1 # 2) w)) in *.
  set (p := fst (random_uniform E (1 # 20) (1 # 5) _)) in *.
  set (c := fst (random_uniform E 0 (2 * 12) w3)) in *.
  set (u := fst (random_uniform E (-60) 60 _)) in *.
  assert (Hi : (inject_Z (13 * 60) == 780)%Q) by reflexivity.
  split; [lra|]. split; [reflexivity|].
  repeat split; lra.
Qed.



Lemma fsum_finite (l : list pyfloat) : forall a,
  Forall (fun x => exists q, x = Fin q) l ->
  exists q, fold_left fadd l (Fin a) = Fin q.
Proof.
  induction l as [|x l IH]; intros a HF; [eexists; reflexivity|].
  apply Forall_cons in HF as [[q ->] HF]. cbn [fold_left fadd].
  apply IH. exact HF.
Qed.

Lemma py_sum_map_const {A : Type} (f : A -> Z) g (l : list A) :
  Forall (fun r => f r = g) l ->
  py_sum (map f l) = g * Z.of_nat (length l).
Proof.
  induction 1 as [|x l Hx _ IH]; [simpl; unfold py_sum; simpl; lia|].
  cbn [map length]. rewrite py_sum_cons, Hx, IH. lia.
Qed.

(** What a trial of the analyses looks like. *)
Lemma recovery_trials_run n f b ts : forall self acc w,
  0 <= f -> 3 * f + 1 <= n ->
  exists new w',
    recovery_trials E self n f b ts acc w =
    Returned (acc ++ new, set_results self (results self ++ new), w') /\
    length new = length ts /\
    Forall (fun r => rr_success r = true /\
                     rr_gas_used r = estimate_gas self (2 * f + 1) /\
                     exists q, rr_total_latency r = Fin q) new.
Proof.
  induction ts as [|t ts IH]; intros self acc w Hf Hn.
  - exists [], w. rewrite !app_nil_r. cbn [recovery_trials].
    split; [destruct self; reflexivity|]. split; [reflexivity|constructor].
  - destruct (run_recovery_experiment_run self n f w Hf Hn)
      as (t0 & w3 & _ & _ & Hrun).
    specialize (Hrun b). cbv zeta in Hrun.
    cbn [recovery_trials]. rewrite Hrun.
    set (res := {| rr_quorum_size := 2 * f + 1 |}) in *.
    destruct (IH (append_result self res) (acc ++ [res])
                 (snd (simulate_commit_and_finalization E self w3)) Hf Hn)
      as (new & w' & Hrest & Hlen & HF).
    exists (res :: new), w'. rewrite Hrest. split.
    { rewrite <- app_assoc. cbn [app]. f_equal. f_equal. f_equal.
      unfold set_results, append_result. cbn.
      rewrite <- app_assoc. reflexivity. }
    split; [cbn [length]; lia|].
    constructor; [|exact HF].
    split; [reflexivity|]. split; [reflexivity|]. eexists. reflexivity.
Qed.

Lemma gas_cost_record_run self f trials w :
  0 < trials -> 0 <= f ->
  exists r w',
    gas_cost_record E self f trials w =
    Returned (r, set_results self (results self ++ gr_trials r), w') /\
    gr_f r = f /\ gr_n r = 3 * f + 1 /\ gr_quorum_size r = 2 * f + 1 /\
    (gr_avg_gas r == inject_Z (estimate_gas self (2 * f + 1)))%Q /\
    (gr_success_rate r == 1)%Q /\
    (exists q, gr_avg_latency_seconds r = Fin q) /\
    Z.of_nat (length (gr_trials r)) = trials.
Proof.
  intros Ht Hf. unfold gas_cost_record.
  destruct (recovery_trials_run (3 * f + 1) f "none" (py_range trials)
              self [] w Hf ltac:(lia)) as (new & w' & Hrun & Hlen & HF).
  rewrite Hrun. cbn [app].
  rewrite py_range_length in Hlen.
  rewrite (py_sum_map_const rr_gas_used (estimate_gas self (2 * f + 1)) new)
    by (eapply Forall_impl; [exact HF|]; simpl; tauto).
  rewrite (py_sum_map_const (fun r => if rr_success r then 1 else 0) 1 new).
  2:{ eapply Forall_impl; [exact HF|]. simpl. intros r (-> & _).
      reflexivity. }
  destruct (fsum_finite (map rr_total_latency new) 0) as [q Hq].
  { apply Forall_fmap. eapply Forall_impl; [exact HF|]. simpl. tauto. }
  unfold fsum. rewrite Hq. unfold py_truediv, fdiv.
  replace (trials =? 0) with false by (symmetry; lia).
  exists {| gr_f := f; gr_n := 3 * f + 1; gr_quorum_size := 2 * f + 1;
            gr_avg_gas :=
              (inject_Z (estimate_gas self (2 * f + 1)
                         * Z.of_nat (length new)) / inject_Z trials)%Q;
            gr_avg_latency_seconds := Fin (q / inject_Z trials)%Q;
            gr_success_rate :=
              (inject_Z (1 * Z.of_nat (length new)) / inject_Z trials)%Q;
            gr_trials := new |}, w'.
  split; [reflexivity|].
  cbn [gr_f gr_n gr_quorum_size gr_avg_gas gr_success_rate
       gr_avg_latency_seconds gr_trials].
  repeat (split; [reflexivity|]).
  assert (Hl : Z.of_nat (length new) = trials) by lia.
  rewrite Hl. split; [apply Qdiv_mult_pos; exact Ht|].
  split; [|split; [eexists; reflexivity | reflexivity]].
  rewrite Z.mul_1_l. destruct trials as [|p|p]; try lia.
  unfold Qeq, Qdiv, Qmult, Qinv, inject_Z. simpl. lia.
Qed.

(** X24. The gas cost analysis with a positive number of trials and
    non-negative values of [f] returns one record per value, in order:
    for [f] it reports [n = 3f + 1], a quorum of [2f + 1], an average
    gas equal to the estimate for that quorum (every trial costs the
    same), a success rate of 1 and a finite average latency, and every
    trial it ran is appended to the experiment's results. With
    [trials = 0] it raises [ZeroDivisionError] at the first value. *)
Theorem gas_cost_analysis_records self f_values trials w :
  (0 < trials -> Forall (fun f => 0 <= f) f_values ->
   exists records w',
     run_gas_cost_analysis E self f_values trials w =
     Returned (records,
               set_results self
                 (results self ++ flat_map gr_trials records), w') /\
     Forall2 (fun f r =>
                gr_f r = f /\ gr_n r = 3 * f + 1 /\
                gr_quorum_size r = 2 * f + 1 /\
                (gr_avg_gas r ==
                   inject_Z (estimate_gas self (2 * f + 1)))%Q /\
                (gr_success_rate r == 1)%Q /\
                (exists q, gr_avg_latency_seconds r = Fin q) /\
                Z.of_nat (length (gr_trials r)) = trials)
             f_values records) /\
  (trials = 0 -> f_values <> [] ->
   run_gas_cost_analysis E self f_values trials w =
   Raised (Builtin ZeroDivisionError)).
Proof.
  split.
  - intros Ht HF. unfold run_gas_cost_analysis.
    assert (Hloop : forall fs, Forall (fun f => 0 <= f) fs ->
      forall self0 acc w0,
        estimate_gas self0 = estimate_gas self ->
        exists new w',
          gas_cost_loop E self0 fs trials acc w0 =
          Returned (acc ++ new,
                    set_results self0
                      (results self0 ++ flat_map gr_trials new), w') /\
          Forall2 (fun f r =>
                gr_f r = f /\ gr_n r = 3 * f + 1 /\
                gr_quorum_size r = 2 * f + 1 /\
                (gr_avg_gas r ==
                   inject_Z (estimate_gas self (2 * f + 1)))%Q /\
                (gr_success_rate r == 1)%Q /\
                (exists q, gr_avg_latency_seconds r = Fin q) /\
                Z.of_nat (length (gr_trials r)) = trials) fs new).
    { induction 1 as [|f fs Hf _ IH]; intros self0 acc w0 Hg.
      - exists [], w0. cbn [gas_cost_loop flat_map]. rewrite !app_nil_r.
        split; [destruct self0; reflexivity | constructor].
      - destruct (gas_cost_record_run self0 f trials w0 Ht Hf)
          as (r & w1 & Hrec & Hprops).
        cbn [gas_cost_loop]. rewrite Hrec.
        destruct (IH (set_results self0 (results self0 ++ gr_trials r))
                     (acc ++ [r]) w1 Hg) as (new & w' & Hrest & HF2).
        exists (r :: new), w'. rewrite Hrest. split.
        { rewrite <- app_assoc. cbn [app flat_map]. f_equal. f_equal.
          f_equal. unfold set_results. cbn.
          rewrite <- app_assoc. reflexivity. }
        constructor; [|exact HF2]. rewrite <- Hg. exact Hprops. }
    destruct (Hloop f_values HF self [] w eq_refl) as (new & w' & H1 & H2).
    exists new, w'. split; [exact H1 | exact H2].
  - intros -> Hne. destruct f_values as [|f fs]; [congruence|].
    reflexivity.
Qed.


Lemma filter_all {A : Type} (p : A -> bool) (l : list A) :
  Forall (fun x => p x = true) l -> List.filter p l = l.
Proof.
  induction 1 as [|x l Hx _ IH]; [reflexivity|].
  cbn [List.filter]. rewrite Hx, IH. reflexivity.
Qed.

(** The trials of the standard experiment. *)
Lemma standard_trials_run (HU : UniformOK E) n f b ts : forall rs acc w,
  0 <= f -> 3 * f + 1 <= n ->
  exists new w',
    recovery_trials E (set_results new_BFTSHDIDExperiment rs) n f b ts acc w
    = Returned (acc ++ new,
                set_results new_BFTSHDIDExperiment (rs ++ new), w') /\
    length new = length ts /\
    Forall within_standard_bounds new.
Proof.
  induction ts as [|t ts IH]; intros rs acc w Hf Hn.
  - exists [], w. rewrite !app_nil_r. cbn [recovery_trials].
    split; [reflexivity|]. split; [reflexivity|constructor].
  - destruct (standard_recovery_run HU rs n f b w Hf Hn)
      as (res & w1 & q & e & Hrun & Hs & _ & Hq & Hqb & He & Heb & _).
    cbn [recovery_trials]. rewrite Hrun.
    destruct (IH (rs ++ [res]) (acc ++ [res]) w1 Hf Hn)
      as (new & w' & Hrest & Hlen & HF).
    exists (res :: new), w'. rewrite Hrest, <- !app_assoc. cbn [app].
    split; [reflexivity|]. split; [cbn [length]; lia|].
    constructor; [|exact HF]. split; [exact Hs|]. exists q, e. auto.
Qed.

Context (float_sum : list pyfloat -> pyfloat)
        (float_truediv : pyfloat -> Z -> pyfloat).

(** One record of the latency analysis of the standard experiment. *)
Lemma latency_record_run (HU : UniformOK E) rs n f b trials w :
  0 < trials -> 0 <= f -> 3 * f + 1 <= n ->
  exists r w',
    latency_record E float_sum float_truediv
      (set_results new_BFTSHDIDExperiment rs) n f b trials w
    = Returned (r, set_results new_BFTSHDIDExperiment (rs ++ lr_trials r),
                w') /\
    lr_behavior r = b /\ lr_n_watchers r = n /\ lr_f_byzantine r = f /\
    (lr_success_rate r == 1)%Q /\
    Z.of_nat (length (lr_trials r)) = trials /\
    Forall within_standard_bounds (lr_trials r) /\
    lr_avg_total_latency r =
      float_truediv (float_sum (map rr_total_latency (lr_trials r)))
        trials /\
    lr_avg_detection_time r =
      float_truediv
        (float_sum (map (fun t => Fin (detection_time (rr_phases t)))
                        (lr_trials r))) trials /\
    lr_avg_proposal_time r =
      float_truediv
        (float_sum (map (fun t => Fin (proposal_time (rr_phases t)))
                        (lr_trials r))) trials /\
    lr_avg_endorsement_time r =
      float_truediv
        (float_sum (map (fun t => endorsement_time (rr_phases t))
                        (lr_trials r))) trials /\
    lr_avg_commit_time r =
      float_truediv
        (float_sum (map (fun t => Fin (commit_time (rr_phases t)))
                        (lr_trials r))) trials /\
    lr_avg_finalization_time r =
      float_truediv
        (float_sum (map (fun t => Fin (finalization_time (rr_phases t)))
                        (lr_trials r))) trials.
Proof.
  intros Ht Hf Hn. unfold latency_record.
  destruct (standard_trials_run HU n f b (py_range trials) rs [] w Hf Hn)
    as (new & w' & Hrun & Hlen & HF).
  rewrite Hrun. cbn [app]. rewrite py_range_length in Hlen.
  rewrite (filter_all rr_success new)
    by (eapply Forall_impl; [exact HF|]; intros r [Hr _]; exact Hr).
  assert (Hm : Z.of_nat (length new) = trials) by lia.
  assert (Havg : latency_averages float_sum float_truediv new =
    Ok (float_truediv (float_sum (map rr_total_latency new)) trials,
        float_truediv
          (float_sum (map (fun t => Fin (detection_time (rr_phases t)))
                          new)) trials,
        float_truediv
          (float_sum (map (fun t => Fin (proposal_time (rr_phases t)))
                          new)) trials,
        float_truediv
          (float_sum (map (fun t => endorsement_time (rr_phases t)) new))
          trials,
        float_truediv
          (float_sum (map (fun t => Fin (commit_time (rr_phases t))) new))
          trials,
        float_truediv
          (float_sum (map (fun t => Fin (finalization_time (rr_phases t)))
                          new)) trials)).
  { unfold latency_averages, average. rewrite Hm.
    replace (trials =? 0) with false by (symmetry; lia). reflexivity. }
  destruct new as [|r0 new'] eqn:Hnew; [simpl in Hlen; lia|].
  rewrite <- Hnew in *.
  rewrite Havg. unfold py_truediv.
  replace (trials =? 0) with false by (symmetry; lia).
  eexists {| lr_behavior := b; lr_trials := new |}, w'.
  cbn [lr_behavior lr_n_watchers lr_f_byzantine lr_success_rate lr_trials
       lr_avg_total_latency lr_avg_detection_time lr_avg_proposal_time
       lr_avg_endorsement_time lr_avg_commit_time
       lr_avg_finalization_time].
  split; [reflexivity|]. split; [reflexivity|]. split; [reflexivity|].
  split; [reflexivity|]. split.
  { rewrite Hm. destruct trials as [|p|p]; try lia.
    unfold Qeq, Qdiv, Qmult, Qinv, inject_Z. simpl. lia. }
  split; [exact Hm|]. split; [exact HF|]. auto 10.
Qed.

(** X25. The latency analysis of the standard experiment, for
    [n >= 3f + 1], [f >= 0] and a positive number of trials, returns one
    record per behaviour, in order, and no record shows an adversary:
    under every behaviour, "delay" as "none", all trials succeed (the
    success rate is 1), every trial has a latency between 720.25 and 865
    seconds and an endorsement time between 0.1 and 0.3 seconds, and
    the branch for no successful trial is never taken: each of the six
    averages of a record is the interpreter's float sum over all its
    trials divided by their number. Nothing is said of the rounding of
    those sums. *)
Theorem latency_analysis_shows_no_adversary
    (HU : UniformOK E) rs n f behaviors trials w :
  0 < trials -> 0 <= f -> 3 * f + 1 <= n ->
  exists records self' w',
    run_latency_analysis E float_sum float_truediv
      (set_results new_BFTSHDIDExperiment rs) n f behaviors trials w =
    Returned (records, self', w') /\
    Forall2 (fun b r =>
               lr_behavior r = b /\ lr_n_watchers r = n /\
               lr_f_byzantine r = f /\ (lr_success_rate r == 1)%Q /\
               Z.of_nat (length (lr_trials r)) = trials /\
               Forall within_standard_bounds (lr_trials r) /\
               lr_avg_total_latency r =
                 float_truediv
                   (float_sum (map rr_total_latency (lr_trials r)))
                   trials /\
               lr_avg_detection_time r =
                 float_truediv
                   (float_sum
                      (map (fun t => Fin (detection_time (rr_phases t)))
                           (lr_trials r))) trials /\
               lr_avg_proposal_time r =
                 float_truediv
                   (float_sum
                      (map (fun t => Fin (proposal_time (rr_phases t)))
                           (lr_trials r))) trials /\
               lr_avg_endorsement_time r =
                 float_truediv
                   (float_sum
                      (map (fun t => endorsement_time (rr_phases t))
                           (lr_trials r))) trials /\
               lr_avg_commit_time r =
                 float_truediv
                   (float_sum
                      (map (fun t => Fin (commit_time (rr_phases t)))
                           (lr_trials r))) trials /\
               lr_avg_finalization_time r =
                 float_truediv
                   (float_sum
                      (map (fun t => Fin (finalization_time (rr_phases t)))
                           (lr_trials r))) trials)
            behaviors records.
Proof.
  intros Ht Hf Hn. unfold run_latency_analysis.
  assert (Hloop : forall bs rs0 acc w0,
    exists new self' w',
      latency_loop E float_sum float_truediv
        (set_results new_BFTSHDIDExperiment rs0) n f bs trials acc w0 =
      Returned (acc ++ new, self', w') /\
      Forall2 (fun b r =>
               lr_behavior r = b /\ lr_n_watchers r = n /\
               lr_f_byzantine r = f /\ (lr_success_rate r == 1)%Q /\
               Z.of_nat (length (lr_trials r)) = trials /\
               Forall within_standard_bounds (lr_trials r) /\
               lr_avg_total_latency r =
                 float_truediv
                   (float_sum (map rr_total_latency (lr_trials r)))
                   trials /\
               lr_avg_detection_time r =
                 float_truediv
                   (float_sum
                      (map (fun t => Fin (detection_time (rr_phases t)))
                           (lr_trials r))) trials /\
               lr_avg_proposal_time r =
                 float_truediv
                   (float_sum
                      (map (fun t => Fin (proposal_time (rr_phases t)))
                           (lr_trials r))) trials /\
               lr_avg_endorsement_time r =
                 float_truediv
                   (float_sum
                      (map (fun t => endorsement_time (rr_phases t))
                           (lr_trials r))) trials /\
               lr_avg_commit_time r =
                 float_truediv
                   (float_sum
                      (map (fun t => Fin (commit_time (rr_phases t)))
                           (lr_trials r))) trials /\
               lr_avg_finalization_time r =
                 float_truediv
                   (float_sum
                      (map (fun t => Fin (finalization_time (rr_phases t)))
                           (lr_trials r))) trials)
            bs new).
  { induction bs as [|b bs IH]; intros rs0 acc w0.
    - exists [], (set_results new_BFTSHDIDExperiment rs0), w0.
      rewrite app_nil_r. split; [reflexivity | constructor].
    - destruct (latency_record_run HU rs0 n f b trials w0 Ht Hf Hn)
        as (r & w1 & Hrec & Hprops).
      cbn [latency_loop]. rewrite Hrec.
      destruct (IH (rs0 ++ lr_trials r) (acc ++ [r]) w1)
        as (new & self' & w' & Hrest & HF2).
      exists (r :: new), self', w'. rewrite Hrest, <- app_assoc.
      split; [reflexivity|]. constructor; [exact Hprops | exact HF2]. }
  destruct (Hloop behaviors rs [] w) as (new & self' & w' & H1 & H2).
  exists new, self', w'. split; [exact H1 | exact H2].
Qed.

End RecoveryProps.

Lemma byzantine_behaviour_is_never_exercised_witness :
  (0 <= 2 /\ 3 * 2 + 1 <= 7) /\
  exists res w',
    rr_success res = true /\ rr_quorum_size res = 2 * 2 + 1 /\
    rr_n_watchers res = 7 /\ rr_f_byzantine res = 2 /\
    rr_gas_used res = estimate_gas new_BFTSHDIDExperiment (2 * 2 + 1) /\
    (exists q, rr_total_latency res = Fin q) /\
    forall behaviour,
      run_recovery_experiment TapeEnv new_BFTSHDIDExperiment 7 2 behaviour
        tape0 =
      Returned (set_behavior res behaviour,
                append_result new_BFTSHDIDExperiment
                  (set_behavior res behaviour), w').
Proof.
  split; [lia|].
  apply (byzantine_behaviour_is_never_exercised TapeEnv
           new_BFTSHDIDExperiment 7 2 tape0); lia.
Defined.


Lemma gas_cost_analysis_records_witness :
  (0 < 20 /\ Forall (fun f => 0 <= f) [1; 2; 3]) /\
  exists records w',
    run_gas_cost_analysis TapeEnv new_BFTSHDIDExperiment [1; 2; 3] 20 tape0 =
    Returned (records,
              set_results new_BFTSHDIDExperiment
                (results new_BFTSHDIDExperiment
                 ++ flat_map gr_trials records), w') /\
    Forall2 (fun f r =>
               gr_f r = f /\ gr_n r = 3 * f + 1 /\
               gr_quorum_size r = 2 * f + 1 /\
               (gr_avg_gas r ==
                  inject_Z (estimate_gas new_BFTSHDIDExperiment
                              (2 * f + 1)))%Q /\
               (gr_success_rate r == 1)%Q /\
               (exists q, gr_avg_latency_seconds r = Fin q) /\
               Z.of_nat (length (gr_trials r)) = 20)
            [1; 2; 3] records.
Proof.
  assert (HF : Forall (fun f => 0 <= f) [1; 2; 3])
    by (repeat constructor; lia).
  split; [split; [lia | exact HF]|].
  exact (proj1 (gas_cost_analysis_records TapeEnv new_BFTSHDIDExperiment
                  [1; 2; 3] 20 tape0) ltac:(lia) HF).
Defined.

Lemma latency_analysis_shows_no_adversary_witness :
  (UniformOK TapeEnv /\ 0 < 30 /\ 0 <= 3 /\ 3 * 3 + 1 <= 10) /\
  exists records self' w',
    run_latency_analysis TapeEnv sum64 truediv64
      (set_results new_BFTSHDIDExperiment []) 10 3 ["none"; "delay"] 30
      tape0 = Returned (records, self', w') /\
    Forall2 (fun b r =>
               lr_behavior r = b /\ (lr_success_rate r == 1)%Q /\
               Z.of_nat (length (lr_trials r)) = 30 /\
               Forall within_standard_bounds (lr_trials r) /\
               lr_avg_total_latency r =
                 truediv64 (sum64 (map rr_total_latency (lr_trials r))) 30 /\
               lr_avg_endorsement_time r =
                 truediv64
                   (sum64 (map (fun t => endorsement_time (rr_phases t))
                               (lr_trials r))) 30)
            ["none"; "delay"] records.
Proof.
  split; [split; [exact TapeEnv_uniform | lia]|].
  destruct (latency_analysis_shows_no_adversary TapeEnv sum64 truediv64
              TapeEnv_uniform [] 10 3 ["none"; "delay"] 30 tape0)
    as (records & self' & w' & Hrun & HF); [lia|lia|lia|].
  exists records, self', w'. split; [exact Hrun|].
  eapply Forall2_impl; [exact HF|].
  intros b r H. cbv beta in H. tauto.
Defined.

(** Ten endorsement times of 0.1 seconds, each within the standard
    bounds, average below 0.1 when every partial sum is rounded. *)
Example rounded_average_leaves_the_bounds :
  (1 # 10 <= float_literal (1 # 10) <= 3 # 10)%Q /\
  exists q,
    truediv64 (sum64 (repeat (Fin (float_literal (1 # 10))) 10)) 10 =
      Fin q /\
    (q < 1 # 10)%Q.
Proof.
  split; [split; vm_compute; discriminate|].
  eexists. split; vm_compute; reflexivity.
Qed.
